(** * tofufy: record normalisation, key assignment and HCL rendering

    A shallow embedding of [src/tofufy/cli.py].  Python [str] values are
    modelled as [string], a character standing for its code point.  The
    embedding covers the code points below U+0100 that the string methods
    in use keep below U+0100, which are all of them but the micro sign
    U+00B5 and the y with diaeresis U+00FF (their capitals are U+039C and
    U+0178); this includes the ASCII DNS names, record types and Terraform
    text the tool handles.  Python dictionaries keep insertion order, so
    they are association lists; a value of type [Any] is a [pyval].  Each
    use of the [re] module is embedded as the scanner that the pattern
    denotes, named after the function that uses it. *)

From Stdlib Require Import Bool List Arith ZArith Lia Ascii String DecimalString.
From Stdlib Require Import DecimalNat Sorting.Permutation Sorting.Sorted.
Import ListNotations.
Open Scope string_scope.

(** ** Python strings *)

Module PyStr.

Definition code (c : ascii) : nat := nat_of_ascii c.

Definition between (lo hi : nat) (c : ascii) : bool :=
  (lo <=? code c)%nat && (code c <=? hi)%nat.

Definition is_upper (c : ascii) : bool := between 65 90 c.
Definition is_lower (c : ascii) : bool := between 97 122 c.
Definition is_digit (c : ascii) : bool := between 48 57 c.
Definition is_alpha (c : ascii) : bool := is_upper c || is_lower c.
Definition is_alnum (c : ascii) : bool := is_alpha c || is_digit c.
(** [[A-Za-z0-9_]] *)
Definition is_word (c : ascii) : bool := is_alnum c || Ascii.eqb c "_".
(** [[A-Za-z_]] *)
Definition is_ident_start (c : ascii) : bool := is_alpha c || Ascii.eqb c "_".

(** [str.isspace] on one character below U+0100. *)
Definition is_space (c : ascii) : bool :=
  between 9 13 c || between 28 32 c
  || (code c =? 133)%nat || (code c =? 160)%nat.

(** [str.isdigit] on one character below U+0100 (the superscripts
    U+00B2, U+00B3 and U+00B9 count as digits). *)
Definition isdigit (c : ascii) : bool :=
  is_digit c || (code c =? 178)%nat || (code c =? 179)%nat
  || (code c =? 185)%nat.

(** The capitals and the small letters of Latin-1 beyond ASCII: U+00C0 to
    U+00DE without the multiplication sign, and U+00E0 to U+00FE without
    the division sign. *)
Definition is_latin1_capital (c : ascii) : bool :=
  between 192 214 c || between 216 222 c.
Definition is_latin1_small (c : ascii) : bool :=
  between 224 246 c || between 248 254 c.

(** [str.lower] and [str.upper] on one character; the sharp s, whose
    capital is two letters, is left to [upper]. *)
Definition lower_char (c : ascii) : ascii :=
  if is_upper c || is_latin1_capital c then ascii_of_nat (code c + 32) else c.
Definition upper_char (c : ascii) : ascii :=
  if is_lower c || is_latin1_small c then ascii_of_nat (code c - 32) else c.

Fixpoint map (f : ascii -> ascii) (s : string) : string :=
  match s with
  | EmptyString => EmptyString
  | String c r => String (f c) (map f r)
  end.

(** [s.lower()] *)
Definition lower : string -> string := map lower_char.

(** [s.upper()]: the sharp s U+00DF becomes [SS]. *)
Fixpoint upper (s : string) : string :=
  match s with
  | EmptyString => EmptyString
  | String c r =>
      if (code c =? 223)%nat then String "S" (String "S" (upper r))
      else String (upper_char c) (upper r)
  end.

Fixpoint forallb (p : ascii -> bool) (s : string) : bool :=
  match s with
  | EmptyString => true
  | String c r => p c && forallb p r
  end.

Fixpoint existsb (p : ascii -> bool) (s : string) : bool :=
  match s with
  | EmptyString => false
  | String c r => p c || existsb p r
  end.

Definition is_empty (s : string) : bool :=
  match s with EmptyString => true | _ => false end.

(** Truthiness of a string: [bool(s)]. *)
Definition truthy (s : string) : bool := negb (is_empty s).

Fixpoint drop (n : nat) (s : string) : string :=
  match n, s with
  | O, _ => s
  | S k, String _ r => drop k r
  | S _, EmptyString => EmptyString
  end.

(** [s.rstrip(chars)]: the characters to remove are given as a predicate. *)
Fixpoint rstrip_with (p : ascii -> bool) (s : string) : string :=
  match s with
  | EmptyString => EmptyString
  | String c r =>
      let r' := rstrip_with p r in
      if is_empty r' && p c then EmptyString else String c r'
  end.

Fixpoint lstrip_with (p : ascii -> bool) (s : string) : string :=
  match s with
  | EmptyString => EmptyString
  | String c r => if p c then lstrip_with p r else s
  end.

Definition strip_with (p : ascii -> bool) (s : string) : string :=
  rstrip_with p (lstrip_with p s).

(** [s.rstrip()], [s.strip()] and [s.rstrip(".")]. *)
Definition rstrip : string -> string := rstrip_with is_space.
Definition strip : string -> string := strip_with is_space.
Definition rstrip_dot : string -> string := rstrip_with (Ascii.eqb ".").

Definition startswith (s p : string) : bool := String.prefix p s.

Fixpoint endswith (s p : string) : bool :=
  String.eqb s p
  || match s with
     | EmptyString => false
     | String _ r => endswith r p
     end.

(** [s.replace(old, new)] for a non-empty [old] (every call site passes a
    literal): occurrences are replaced left to right without overlap.
    [skip] counts the characters of a matched occurrence still to be
    consumed. *)
Fixpoint replace_from (old new : string) (skip : nat) (s : string) : string :=
  match s with
  | EmptyString => EmptyString
  | String c r =>
      match skip with
      | S k => replace_from old new k r
      | O =>
          if String.prefix old s
          then new ++ replace_from old new (String.length old - 1) r
          else String c (replace_from old new 0 r)
      end
  end.

Definition replace (old new s : string) : string := replace_from old new 0 s.

(** [old in s] *)
Fixpoint contains (s old : string) : bool :=
  String.prefix old s
  || match s with
     | EmptyString => false
     | String _ r => contains r old
     end.

(** [sep.join(parts)] *)
Definition join (sep : string) (parts : list string) : string :=
  String.concat sep parts.

(** [s.split(sep)] for a one-character separator. *)
Fixpoint split_on (sep : ascii) (s : string) : list string :=
  match s with
  | EmptyString => [EmptyString]
  | String c r =>
      if Ascii.eqb c sep then EmptyString :: split_on sep r
      else match split_on sep r with
           | [] => [String c EmptyString]
           | h :: t => String c h :: t
           end
  end.

(** [str(n)] for a non-negative integer and for any integer. *)
Definition str_nat (n : nat) : string := NilZero.string_of_uint (Nat.to_uint n).
Definition str_Z (z : Z) : string := NilZero.string_of_int (Z.to_int z).

(** [f"{n:02d}"] for a non-negative integer. *)
Definition fmt_02d (n : nat) : string :=
  let s := str_nat n in
  if (String.length s <? 2)%nat then "0" ++ s else s.

(** ["  " * n] *)
Fixpoint indent_str (n : nat) : string :=
  match n with
  | O => EmptyString
  | S k => "  " ++ indent_str k
  end.

End PyStr.

(** ** Python values and ordered dictionaries *)

(** A [float] is given by the text that [str] returns for it, which is its
    [repr]: the shortest decimal text that reads back as the same number,
    in exponent notation where Python uses it, and [nan], [inf] or [-inf]
    for the values that are not finite. *)
#[warnings="-register-all"] Inductive pyval : Type :=
| PNone
| PBool (b : bool)
| PInt (z : Z)
| PFloat (text : string)
| PStr (s : string)
| PList (items : list pyval)
| PDict (entries : list (string * pyval)).

Definition pydict : Type := list (string * pyval).

Module Dict.

Section Ops.
Context {V : Type}.

(** [d.get(k)]; [None] stands for a missing key. *)
Fixpoint get (d : list (string * V)) (k : string) : option V :=
  match d with
  | [] => None
  | (k', v) :: r => if String.eqb k' k then Some v else get r k
  end.

(** [d[k] = v]: an existing key keeps its position, a new key goes last. *)
Fixpoint set (d : list (string * V)) (k : string) (v : V) : list (string * V) :=
  match d with
  | [] => [(k, v)]
  | (k', v') :: r =>
      if String.eqb k' k then (k', v) :: r else (k', v') :: set r k v
  end.

Definition keys (d : list (string * V)) : list string := List.map fst d.

Definition mem (d : list (string * V)) (k : string) : bool :=
  match get d k with Some _ => true | None => false end.

End Ops.

End Dict.

(** Truthiness, [bool(v)]. *)
Definition truthy (v : pyval) : bool :=
  match v with
  | PNone => false
  | PBool b => b
  | PInt z => negb (z =? 0)%Z
  | PFloat text => negb (String.eqb text "0.0" || String.eqb text "-0.0")
  | PStr s => PyStr.truthy s
  | PList l => match l with [] => false | _ => true end
  | PDict d => match d with [] => false | _ => true end
  end.

(** [v is not None] *)
Definition not_none (v : pyval) : bool :=
  match v with PNone => false | _ => true end.

(** [d.get(k)] as a Python value: a missing key reads as [None]. *)
Definition pyget (d : pydict) (k : string) : pyval :=
  match Dict.get d k with Some v => v | None => PNone end.

Definition of_opt_str (o : option string) : pyval :=
  match o with Some s => PStr s | None => PNone end.

(** [if cond: d[key] = value] *)
Definition set_if (cond : bool) (key : string) (value : pyval) (attributes : pydict) : pydict :=
  if cond then Dict.set attributes key value else attributes.

(** [o or default] for an optional string. *)
Definition or_str (o : option string) (default : string) : string :=
  match o with
  | Some s => if PyStr.is_empty s then default else s
  | None => default
  end.

(** ** Name and identifier utilities *)

Definition SKIP_RECORD_TYPES : list string := ["NS"; "SOA"].
Definition SKIPPABLE_IMPORT_TYPES : list string := ["A"; "CNAME"].

Definition BEGIN_MARKER : string := "# BEGIN GENERATED ROUTE53 RECORDS".
Definition END_MARKER : string := "# END GENERATED ROUTE53 RECORDS".

Definition str_in (s : string) (l : list string) : bool :=
  List.existsb (String.eqb s) l.

Definition compute_relative_name (record_name zone_name : string) : string :=
  let name := PyStr.rstrip_dot record_name in
  let zone := PyStr.rstrip_dot zone_name in
  if PyStr.is_empty name || String.eqb name zone then ""
  else if PyStr.truthy zone && PyStr.endswith name ("." ++ zone)
       then String.substring 0 (String.length name - (String.length zone + 1)) name
       else name.

(** [re.sub(r"[^A-Za-z0-9]+", "_", s)]: every maximal run of characters
    outside the class becomes one underscore; [in_run] records that the
    previous character belonged to such a run. *)
Fixpoint collapse_non_alnum (in_run : bool) (s : string) : string :=
  match s with
  | EmptyString => EmptyString
  | String c r =>
      if PyStr.is_alnum c then String c (collapse_non_alnum false r)
      else if in_run then collapse_non_alnum true r
           else String "_" (collapse_non_alnum true r)
  end.

Definition sanitize_subdomain (value : string) : string :=
  if PyStr.is_empty value then "root"
  else
    let sanitized := PyStr.replace "\052" "star" (PyStr.replace "*" "star" value) in
    let sanitized :=
      PyStr.strip_with (Ascii.eqb "_") (collapse_non_alnum false (PyStr.lower sanitized)) in
    if PyStr.is_empty sanitized then "root" else sanitized.

(** [PERCENT_ESCAPE_PATTERN.sub("%%", value)] with the pattern [%(?!%)]:
    a percent sign is matched when the next character is not a percent
    sign (or there is none). *)
Fixpoint percent_sub (s : string) : string :=
  match s with
  | EmptyString => EmptyString
  | String c r =>
      if Ascii.eqb c "%"
      then if String.prefix "%" r
           then String c (percent_sub r)
           else "%%" ++ percent_sub r
      else String c (percent_sub r)
  end.

Definition escape_percent_signs (value : string) : string :=
  if PyStr.is_empty value || negb (PyStr.contains value "%") then value
  else percent_sub value.

(** First pass of [to_snake_case], [re.sub(r"(.)([A-Z][a-z]+)", r"\1_\2", s)]:
    any character but a newline, then a capital followed by at least one
    lower-case letter; the match takes all the lower-case letters that
    follow.  [copy] is true while the lower-case tail of a match is being
    copied. *)
Fixpoint snake_pass1 (copy : bool) (s : string) : string :=
  match s with
  | EmptyString => EmptyString
  | String c r =>
      if copy && PyStr.is_lower c then String c (snake_pass1 true r)
      else
        match r with
        | String u ((String l _) as tail) =>
            if negb (Ascii.eqb c "010") && PyStr.is_upper u && PyStr.is_lower l
            then String c (String "_" (String u (snake_pass1 true tail)))
            else String c (snake_pass1 false r)
        | _ => String c (snake_pass1 false r)
        end
  end.

(** Second pass, [re.sub(r"([a-z0-9])([A-Z])", r"\1_\2", s)]. *)
Fixpoint snake_pass2 (s : string) : string :=
  match s with
  | EmptyString => EmptyString
  | String c r =>
      match r with
      | String u r' =>
          if (PyStr.is_lower c || PyStr.is_digit c) && PyStr.is_upper u
          then String c (String "_" (String u (snake_pass2 r')))
          else String c (snake_pass2 r)
      | EmptyString => String c EmptyString
      end
  end.

Definition to_snake_case (value : string) : string :=
  PyStr.lower (snake_pass2 (snake_pass1 false value)).

(** [{key(k): v for k, v in items}]: entries are inserted in order, so a
    repeated key keeps its first position and its last value. *)
Definition dict_of_items (items : list (string * pyval)) : pydict :=
  List.fold_left (fun acc kv => Dict.set acc (fst kv) (snd kv)) items [].

Fixpoint normalize_value (value : pyval) : pyval :=
  match value with
  | PDict d =>
      PDict (dict_of_items
               ((fix entries (d : list (string * pyval)) : list (string * pyval) :=
                   match d with
                   | [] => []
                   | (k, v) :: r => (to_snake_case k, normalize_value v) :: entries r
                   end) d))
  | PList l => PList (List.map normalize_value l)
  | _ => value
  end.

Definition build_record_key (record_name zone_name record_type : string)
  : string * string * string :=
  let relative_name := compute_relative_name record_name zone_name in
  let subdomain := sanitize_subdomain relative_name in
  (PyStr.lower record_type ++ "_" ++ subdomain, relative_name, subdomain).

(** [re.sub(r"[^A-Za-z0-9_]", "_", value)] *)
Definition replace_non_word (value : string) : string :=
  PyStr.map (fun c => if PyStr.is_word c then c else "_"%char) value.

Definition sanitize_identifier (value : string) : string :=
  let sanitized := replace_non_word value in
  match sanitized with
  | EmptyString => "_" ++ sanitized
  | String c _ => if PyStr.isdigit c then "_" ++ sanitized else sanitized
  end.

(** [IDENTIFIER_PATTERN.match(name)] with the pattern
    [^[A-Za-z_][A-Za-z0-9_]*$]: in Python [$] also matches just before a
    newline that ends the string. *)
Fixpoint identifier_tail (s : string) : bool :=
  match s with
  | EmptyString => true
  | String c r =>
      if PyStr.is_word c then identifier_tail r
      else Ascii.eqb c "010" && PyStr.is_empty r
  end.

Definition identifier_match (name : string) : bool :=
  match name with
  | EmptyString => false
  | String c r => PyStr.is_ident_start c && identifier_tail r
  end.

(** The identifier shape in the spec's words: a letter or underscore
    followed by letters, digits or underscores. *)
Definition bare_identifier (name : string) : bool :=
  match name with
  | EmptyString => false
  | String c r => PyStr.is_ident_start c && PyStr.forallb PyStr.is_word r
  end.

(** ** Raw provider records

    A record set as [list_resource_record_sets] returns it.  The response
    omits the members that do not apply, so every member is optional and a
    member that is there carries a value of its declared type. *)

Record ResourceRecord : Type := {
  rr_Value : option string
}.

Record AliasTarget : Type := {
  at_DNSName : option string;
  at_HostedZoneId : option string;
  at_EvaluateTargetHealth : option bool
}.

Record GeoLocation : Type := {
  geo_ContinentCode : option string;
  geo_CountryCode : option string;
  geo_SubdivisionCode : option string
}.

Record RawRecord : Type := {
  raw_Name : option string;
  raw_Type : option string;
  raw_TTL : option Z;
  raw_ResourceRecords : option (list ResourceRecord);
  raw_AliasTarget : option AliasTarget;
  raw_GeoLocation : option GeoLocation;
  raw_SetIdentifier : option string;
  raw_HealthCheckId : option string;
  raw_Failover : option string;
  raw_TrafficPolicyInstanceId : option string;
  raw_MultiValueAnswer : option bool;
  raw_Region : option string;
  raw_Weight : option Z
}.

Definition is_some {A : Type} (o : option A) : bool :=
  match o with Some _ => true | None => false end.

(** [bool(alias_target)] and [bool(geo_location)]: a dictionary is true
    when it has at least one key. *)
Definition alias_truthy (a : AliasTarget) : bool :=
  is_some (at_DNSName a) || is_some (at_HostedZoneId a)
  || is_some (at_EvaluateTargetHealth a).

Definition geo_truthy (g : GeoLocation) : bool :=
  is_some (geo_ContinentCode g) || is_some (geo_CountryCode g)
  || is_some (geo_SubdivisionCode g).

(** [record.get(key_name)] for the scalar members copied by the loop of
    [normalize_record]. *)
Definition raw_get (record : RawRecord) (key_name : string) : pyval :=
  let str := of_opt_str in
  let int o := match o with Some z => PInt z | None => PNone end in
  let boolean o := match o with Some b => PBool b | None => PNone end in
  if String.eqb key_name "TTL" then int (raw_TTL record)
  else if String.eqb key_name "SetIdentifier" then str (raw_SetIdentifier record)
  else if String.eqb key_name "HealthCheckId" then str (raw_HealthCheckId record)
  else if String.eqb key_name "Failover" then str (raw_Failover record)
  else if String.eqb key_name "TrafficPolicyInstanceId"
       then str (raw_TrafficPolicyInstanceId record)
  else if String.eqb key_name "MultiValueAnswer" then boolean (raw_MultiValueAnswer record)
  else if String.eqb key_name "Region" then str (raw_Region record)
  else if String.eqb key_name "Weight" then int (raw_Weight record)
  else PNone.

Definition COPIED_KEYS : list string :=
  ["TTL"; "SetIdentifier"; "HealthCheckId"; "Failover";
   "TrafficPolicyInstanceId"; "MultiValueAnswer"; "Region"; "Weight"].

(** The run-wide type sets, which a configuration file may override. *)
Record Config : Type := {
  skip_record_types : list string;
  skippable_import_types : list string
}.

Definition default_config : Config :=
  {| skip_record_types := SKIP_RECORD_TYPES;
     skippable_import_types := SKIPPABLE_IMPORT_TYPES |}.

Definition quote : string := String "034" EmptyString.
Definition escaped_quote : string := String "\" quote.

Fixpoint remove_last (s : string) : string :=
  match s with
  | EmptyString => EmptyString
  | String c r => if PyStr.is_empty r then EmptyString else String c (remove_last r)
  end.

(** [value[1:-1]] *)
Definition slice_1_m1 (value : string) : string := remove_last (PyStr.drop 1 value).

(** The body of the loop over [ResourceRecords]. *)
Definition normalize_entry_value (record_type : string) (entry : ResourceRecord) : string :=
  let value := match rr_Value entry with Some v => v | None => "" end in
  let value :=
    if str_in record_type ["TXT"; "SPF"]
       && PyStr.startswith value quote && PyStr.endswith value quote
    then PyStr.replace escaped_quote quote (slice_1_m1 value)
    else value in
  escape_percent_signs value.

Definition unescape_wildcard (name : string) : string :=
  PyStr.replace "\052" "*" name.

Definition normalize_alias (alias_target : AliasTarget) : pydict :=
  let alias_map :=
    [("name", PStr (unescape_wildcard (PyStr.rstrip_dot (or_str (at_DNSName alias_target) ""))));
     ("zone_id", of_opt_str (at_HostedZoneId alias_target))] in
  match at_EvaluateTargetHealth alias_target with
  | Some b => Dict.set alias_map "evaluate_target_health" (PBool b)
  | None => alias_map
  end.

Definition normalize_geo (geo_location : GeoLocation) : pydict :=
  [("continent_code", of_opt_str (geo_ContinentCode geo_location));
   ("country_code", of_opt_str (geo_CountryCode geo_location));
   ("subdivision_code", of_opt_str (geo_SubdivisionCode geo_location))].

(** The last block of [normalize_record]; [full_name] is
    [normalized["full_name"]]. *)
Definition import_id_of (zone_id zone_name full_name record_type : string)
    (set_identifier : option string) : string :=
  let record_name_for_id := if PyStr.truthy full_name then full_name else zone_name in
  let import_id_parts := [zone_id; record_name_for_id; record_type] in
  let import_id_parts :=
    match set_identifier with
    | Some sid => if PyStr.truthy sid then (import_id_parts ++ [sid])%list else import_id_parts
    | None => import_id_parts
    end in
  PyStr.join "_" import_id_parts.

(** The four blocks of [normalize_record] that extend the dictionary:
    the resource-record values, the alias target, the geolocation and the
    loop over the scalar members. *)
Definition copy_records (record_type : string) (record : RawRecord) (normalized : pydict)
  : pydict :=
  match raw_ResourceRecords record with
  | Some ((_ :: _) as resource_records) =>
      Dict.set normalized "records"
        (PList (List.map (fun entry => PStr (normalize_entry_value record_type entry))
                  resource_records))
  | _ => normalized
  end.

Definition copy_alias (record : RawRecord) (normalized : pydict) : pydict :=
  match raw_AliasTarget record with
  | Some alias_target =>
      set_if (alias_truthy alias_target) "alias" (PDict (normalize_alias alias_target))
        normalized
  | None => normalized
  end.

Definition copy_geo (record : RawRecord) (normalized : pydict) : pydict :=
  match raw_GeoLocation record with
  | Some geo_location =>
      set_if (geo_truthy geo_location) "geo_location" (PDict (normalize_geo geo_location))
        normalized
  | None => normalized
  end.

Definition copy_scalars (record : RawRecord) (normalized : pydict) : pydict :=
  List.fold_left
    (fun normalized key_name =>
       let value := raw_get record key_name in
       set_if (not_none value) (to_snake_case key_name) (normalize_value value) normalized)
    COPIED_KEYS normalized.

Definition normalize_record (cfg : Config) (record : RawRecord) (zone_name zone_id : string)
  : option pydict :=
  let record_type := PyStr.upper (or_str (raw_Type record) "") in
  if str_in record_type (skip_record_types cfg) then None
  else
    let raw_name := PyStr.rstrip_dot (or_str (raw_Name record) "") in
    let full_name := unescape_wildcard raw_name in
    let '(key_base, relative_name, subdomain) :=
      build_record_key full_name zone_name record_type in
    let normalized : pydict :=
      [("key_base", PStr key_base);
       ("relative_name", PStr relative_name);
       ("subdomain", PStr subdomain);
       ("full_name", PStr full_name);
       ("type", PStr record_type)] in
    let normalized := copy_records record_type record normalized in
    let normalized := copy_alias record normalized in
    let normalized := copy_geo record normalized in
    let normalized := copy_scalars record normalized in
    let stored_full_name :=
      match pyget normalized "full_name" with PStr s => s | _ => "" end in
    Some (Dict.set normalized "import_id"
            (PStr (import_id_of zone_id zone_name stored_full_name record_type
                     (raw_SetIdentifier record)))).

Definition txt_example : RawRecord :=
  {| raw_Name := Some "note.example.com."; raw_Type := Some "txt"; raw_TTL := Some 300%Z;
     raw_ResourceRecords :=
       Some [ {| rr_Value := Some (quote ++ "hello \" ++ quote ++ "world\" ++ quote ++ quote) |};
              {| rr_Value := Some "50% off" |} ];
     raw_AliasTarget := None; raw_GeoLocation := None;
     raw_SetIdentifier := Some "blue"; raw_HealthCheckId := None; raw_Failover := None;
     raw_TrafficPolicyInstanceId := None; raw_MultiValueAnswer := Some true;
     raw_Region := None; raw_Weight := Some 0%Z |}.

(** ** Attribute projection *)

Definition GEO_MAPPING : list (string * string) :=
  [("continent_code", "continent");
   ("country_code", "country");
   ("subdivision_code", "subdivision")].

Definition FIELD_ORDER : list string :=
  ["full_name"; "type"; "ttl"; "records"; "alias"; "set_identifier";
   "health_check_id"; "failover"; "traffic_policy_instance_id";
   "multivalue_answer"; "latency_routing_policy"; "weighted_routing_policy";
   "geolocation_routing_policy"].

(** [value.get(...)] needs a dictionary: on any other value Python raises
    [AttributeError], which is [None] here. *)
Definition as_dict (value : pyval) : option pydict :=
  match value with PDict d => Some d | _ => None end.

Definition build_alias_attributes (alias : pydict) : pydict :=
  let alias_attributes : pydict := [] in
  let alias_attributes :=
    set_if (truthy (pyget alias "name")) "name" (pyget alias "name") alias_attributes in
  let alias_attributes :=
    set_if (truthy (pyget alias "zone_id")) "zone_id" (pyget alias "zone_id") alias_attributes in
  set_if (not_none (pyget alias "evaluate_target_health"))
    "evaluate_target_health" (pyget alias "evaluate_target_health") alias_attributes.

Definition build_geo_attributes (geo_location : pydict) : pydict :=
  List.fold_left
    (fun geo_attributes '(original_key, target_key) =>
       let value := pyget geo_location original_key in
       set_if (truthy value) target_key value geo_attributes)
    GEO_MAPPING [].

(** [None] stands for an exception: [KeyError] when ["full_name"] is
    missing, [AttributeError] when ["alias"] or ["geo_location"] holds a true
    value that is not a dictionary. *)
Definition build_record_attributes (record : pydict) : option pydict :=
  match Dict.get record "full_name" with
  | None => None
  | Some full_name =>
      let attributes : pydict := [] in
      let attributes := Dict.set attributes "full_name" full_name in
      let attributes :=
        Dict.set attributes "type"
          (match Dict.get record "type" with Some t => t | None => PStr "" end) in
      let ttl := pyget record "ttl" in
      let attributes := set_if (not_none ttl) "ttl" ttl attributes in
      let record_values :=
        match Dict.get record "records" with Some v => v | None => PList [] end in
      let attributes := set_if (truthy record_values) "records" record_values attributes in
      let alias := pyget record "alias" in
      match (if truthy alias
             then option_map
                    (fun a => Dict.set attributes "alias" (PDict (build_alias_attributes a)))
                    (as_dict alias)
             else Some attributes) with
      | None => None
      | Some attributes =>
          let attributes :=
            List.fold_left
              (fun attributes key_name =>
                 set_if (not_none (pyget record key_name)) key_name (pyget record key_name)
                   attributes)
              ["set_identifier"; "health_check_id"; "failover"; "traffic_policy_instance_id"]
              attributes in
          let attributes :=
            set_if (not_none (pyget record "multi_value_answer"))
              "multivalue_answer" (pyget record "multi_value_answer") attributes in
          let attributes :=
            set_if (truthy (pyget record "region"))
              "latency_routing_policy" (PDict [("region", pyget record "region")]) attributes in
          let attributes :=
            set_if (not_none (pyget record "weight"))
              "weighted_routing_policy" (PDict [("weight", pyget record "weight")]) attributes in
          let geo := pyget record "geo_location" in
          match (if truthy geo then as_dict geo else Some []) with
          | None => None
          | Some geo_location =>
              let geo_attributes := build_geo_attributes geo_location in
              Some (set_if (truthy (PDict geo_attributes))
                      "geolocation_routing_policy" (PDict geo_attributes) attributes)
          end
      end
  end.

(** ** Structured-text renderer *)

Definition hex_digit (n : nat) : ascii :=
  match String.get n "0123456789abcdef" with Some c => c | None => "0"%char end.

(** ['\\u{0:04x}'.format(n)] for a code point below 256. *)
Definition unicode_escape (c : ascii) : string :=
  let n := PyStr.code c in
  "\u00" ++ String (hex_digit (n / 16)) (String (hex_digit (n mod 16)) EmptyString).

(** One character of [json.dumps] with the default [ensure_ascii=True]:
    the quote, the backslash and everything outside the range from the space
    to the tilde are escaped. *)
Definition json_escape_char (c : ascii) : string :=
  if Ascii.eqb c "034" then "\" ++ quote
  else if Ascii.eqb c "\" then "\\"
  else if Ascii.eqb c "008" then "\b"
  else if Ascii.eqb c "012" then "\f"
  else if Ascii.eqb c "010" then "\n"
  else if Ascii.eqb c "013" then "\r"
  else if Ascii.eqb c "009" then "\t"
  else if PyStr.between 32 126 c then String c EmptyString
  else unicode_escape c.

Fixpoint json_escape (s : string) : string :=
  match s with
  | EmptyString => EmptyString
  | String c r => json_escape_char c ++ json_escape r
  end.

(** [json.dumps(s)] for a string. *)
Definition json_string (s : string) : string := quote ++ json_escape s ++ quote.

(** [json.dumps] of a float: its [repr], and [NaN], [Infinity] and
    [-Infinity] for the values that are not finite. *)
Definition json_float (text : string) : string :=
  if String.eqb text "nan" then "NaN"
  else if String.eqb text "inf" then "Infinity"
  else if String.eqb text "-inf" then "-Infinity"
  else text.

(** [json.dumps(value)] with the default separators. *)
Fixpoint json_dumps (value : pyval) : string :=
  match value with
  | PNone => "null"
  | PBool b => if b then "true" else "false"
  | PInt z => PyStr.str_Z z
  | PFloat text => json_float text
  | PStr s => json_string s
  | PList l => "[" ++ PyStr.join ", " (List.map json_dumps l) ++ "]"
  | PDict d =>
      "{" ++ PyStr.join ", "
               ((fix entries (d : list (string * pyval)) : list string :=
                   match d with
                   | [] => []
                   | (k, v) :: r => (json_string k ++ ": " ++ json_dumps v) :: entries r
                   end) d) ++ "}"
  end.

Definition to_hcl_literal (value : pyval) : string :=
  match value with
  | PBool b => if b then "true" else "false"
  | PNone => "null"
  | PInt z => PyStr.str_Z z
  | PFloat text => text
  | _ => json_dumps value
  end.

Definition format_name (name : string) : string :=
  if PyStr.is_empty name then ""
  else if identifier_match name then name
  else json_string name.

(** [lines.append(line)] *)
Definition append_line (lines : list string) (line : string) : list string :=
  (lines ++ [line])%list.

(** The function appends to the list [lines] it is given; here it returns
    the extended list. *)
Fixpoint render_attribute_block (attribute_name : string) (attribute_value : pyval)
    (indent : nat) (lines : list string) {struct attribute_value} : list string :=
  let indent_str := PyStr.indent_str indent in
  match attribute_value with
  | PDict d =>
      match d with
      | [] =>
          if PyStr.truthy attribute_name
          then append_line lines (indent_str ++ format_name attribute_name ++ " = {}")
          else append_line lines (indent_str ++ "{},")
      | _ =>
          let lines :=
            if PyStr.truthy attribute_name
            then append_line lines (indent_str ++ format_name attribute_name ++ " = {")
            else append_line lines (indent_str ++ "{") in
          let lines :=
            (fix each (items : list (string * pyval)) (lines : list string) : list string :=
               match items with
               | [] => lines
               | (key, value) :: rest =>
                   each rest (render_attribute_block key value (S indent) lines)
               end) d lines in
          let closing := if PyStr.truthy attribute_name then "}" else "}," in
          append_line lines (indent_str ++ closing)
      end
  | PList l =>
      match l with
      | [] =>
          if PyStr.truthy attribute_name
          then append_line lines (indent_str ++ format_name attribute_name ++ " = []")
          else append_line lines (indent_str ++ "[]")
      | _ =>
          let lines :=
            if PyStr.truthy attribute_name
            then append_line lines (indent_str ++ format_name attribute_name ++ " = [")
            else append_line lines (indent_str ++ "[") in
          let lines :=
            (fix each (items : list pyval) (lines : list string) : list string :=
               match items with
               | [] => lines
               | item :: rest =>
                   each rest (render_attribute_block "" item (S indent) lines)
               end) l lines in
          let closing := if PyStr.truthy attribute_name then "]" else "]," in
          append_line lines (indent_str ++ closing)
      end
  | _ =>
      let literal := to_hcl_literal attribute_value in
      if PyStr.truthy attribute_name
      then append_line lines (indent_str ++ format_name attribute_name ++ " = " ++ literal)
      else append_line lines (indent_str ++ literal ++ ",")
  end.

Definition nl : string := String "010" EmptyString.

(** ** Sorting

    [sorted(items, key=...)] is stable; insertion from the right, placing an
    element before the first one whose key is not smaller, gives the same
    list. *)

Section Sorting.
Context {A K : Type}.
Variable key_ltb : K -> K -> bool.
Variable key : A -> K.

Fixpoint insert_by (x : A) (l : list A) : list A :=
  match l with
  | [] => [x]
  | y :: r => if key_ltb (key y) (key x) then y :: insert_by x r else x :: l
  end.

Fixpoint sorted_by (l : list A) : list A :=
  match l with
  | [] => []
  | x :: r => insert_by x (sorted_by r)
  end.

End Sorting.

(** Tuples of strings compare lexicographically. *)
Definition pair_ltb (a b : string * string) : bool :=
  let '(a1, a2) := a in
  let '(b1, b2) := b in
  (a1 <? b1) || ((a1 =? b1) && (a2 <? b2)).

Definition triple_ltb (a b : string * string * string) : bool :=
  let '(a1, a2, a3) := a in
  let '(b1, b2, b3) := b in
  (a1 <? b1) || ((a1 =? b1) && pair_ltb (a2, a3) (b2, b3)).

(** ** Zone configuration: the VPC map *)

Record Vpc : Type := {
  vpc_id : option string;
  vpc_region : option string
}.

Definition vpc_sort_key (item : Vpc) : string * string :=
  (or_str (vpc_region item) "", or_str (vpc_id item) "").

(** The argument of [sanitize_identifier] in [build_vpc_map]. *)
Definition vpc_label (index : nat) (vpc : Vpc) : string :=
  or_str (vpc_region vpc) "unknown" ++ "_"
  ++ match vpc_id vpc with
     | Some i => if PyStr.truthy i then i else PyStr.str_nat index
     | None => PyStr.str_nat index
     end.

Definition vpc_identifier (index : nat) (vpc : Vpc) : string :=
  let identifier := sanitize_identifier (vpc_label index vpc) in
  if negb (PyStr.truthy identifier) then "vpc_" ++ PyStr.fmt_02d index else identifier.

Definition vpc_block (vpc : Vpc) : pydict :=
  let block : pydict := [] in
  let block :=
    match vpc_id vpc with
    | Some i => set_if (PyStr.truthy i) "vpc_id" (PStr i) block
    | None => block
    end in
  match vpc_region vpc with
  | Some r => set_if (PyStr.truthy r) "vpc_region" (PStr r) block
  | None => block
  end.

(** The loop over [enumerate(sorted_vpcs, start=1)]. *)
Fixpoint vpc_loop (index : nat) (sorted_vpcs : list Vpc) (vpc_map : pydict) : pydict :=
  match sorted_vpcs with
  | [] => vpc_map
  | vpc :: rest =>
      vpc_loop (S index) rest
        (Dict.set vpc_map (vpc_identifier index vpc) (PDict (vpc_block vpc)))
  end.

Definition build_vpc_map (vpcs : list Vpc) : pydict :=
  vpc_loop 1 (sorted_by pair_ltb vpc_sort_key vpcs) [].

(** ** Key assigner *)

(** A string entry of a normalized record. *)
Definition str_field (record : pydict) (k : string) : string :=
  match Dict.get record k with Some (PStr s) => s | _ => "" end.

Definition zone_key_of (zone_name : string) (private_zone : bool) : string :=
  if negb private_zone then zone_name else zone_name ++ "_private".

Definition local_var_of (zone_key : string) : string :=
  sanitize_identifier ("zone_records_" ++ zone_key).

Definition record_sort_key (item : pydict) : string * string * string :=
  (str_field item "key_base", str_field item "set_identifier", str_field item "full_name").

Record KeyState : Type := {
  record_blocks : list (string * pydict);
  counts : list (string * nat);
  import_entries : list (string * string * string)
}.

(** One round of the loop over the sorted records; [None] when
    [build_record_attributes] raises. *)
Definition assign_key (zone_key : string) (state : KeyState) (record : pydict)
  : option KeyState :=
  let base := str_field record "key_base" in
  let count := match Dict.get (counts state) base with Some n => n | None => 0 end + 1 in
  let counts := Dict.set (counts state) base count in
  let suffix := if (count =? 1)%nat then "" else "_" ++ PyStr.fmt_02d count in
  let record_key := base ++ suffix in
  let record := Dict.set record "key" (PStr record_key) in
  match build_record_attributes record with
  | None => None
  | Some attributes =>
      Some {| record_blocks := Dict.set (record_blocks state) record_key attributes;
              counts := counts;
              import_entries :=
                (import_entries state
                   ++ [(zone_key, record_key, str_field record "import_id")])%list |}
  end.

Fixpoint assign_keys (zone_key : string) (state : KeyState) (records : list pydict)
  : option KeyState :=
  match records with
  | [] => Some state
  | record :: rest =>
      match assign_key zone_key state record with
      | None => None
      | Some state' => assign_keys zone_key state' rest
      end
  end.

Section Filters.

(** The [re] module is outside the repository: a compiled pattern is an
    abstract value, [re_compile expression ignorecase] stands for
    [re.compile(expression, re.IGNORECASE)] ([None] when it raises
    [re.error]) and [search pattern text] for
    [bool(pattern.search(text))]. *)
Variable Pattern : Type.
Variable re_compile : string -> bool -> option Pattern.
Variable search : Pattern -> string -> bool.

Definition nonempty {X : Type} (l : list X) : bool :=
  match l with [] => false | _ => true end.

(** The record is dropped by the [skip_patterns] branch of the loop. *)
Definition dropped_by_skip (cfg : Config) (skip_patterns : list Pattern)
    (normalized : pydict) : bool :=
  let hostname := str_field normalized "full_name" in
  nonempty skip_patterns
  && str_in (str_field normalized "type") (skippable_import_types cfg)
  && List.existsb (fun pattern => search pattern hostname) skip_patterns.

(** The record is dropped by the [include_patterns] test. *)
Definition dropped_by_include (include_patterns : list Pattern)
    (normalized : pydict) : bool :=
  let hostname := str_field normalized "full_name" in
  nonempty include_patterns
  && negb (List.existsb (fun pattern => search pattern hostname) include_patterns).

(** The first loop of [collect_zone_records], over the record sets that
    [iter_record_sets] yields. *)
Fixpoint filter_records (cfg : Config) (skip_patterns include_patterns : list Pattern)
    (zone_name zone_id : string) (items : list RawRecord) (records : list pydict)
  : list pydict :=
  match items with
  | [] => records
  | item :: rest =>
      let continue := filter_records cfg skip_patterns include_patterns zone_name zone_id rest in
      match normalize_record cfg item zone_name zone_id with
      | None => continue records
      | Some normalized =>
          if dropped_by_skip cfg skip_patterns normalized then continue records
          else if dropped_by_include include_patterns normalized then continue records
          else continue (records ++ [normalized])%list
      end
  end.

(** The result is [(zone_key, local_var, filename_domain, record_blocks,
    import_entries)]. *)
Definition collect_zone_records (cfg : Config) (items : list RawRecord)
    (zone_id zone_name : string) (private_zone : bool)
    (skip_patterns include_patterns : list Pattern)
  : option (string * string * string * list (string * pydict)
            * list (string * string * string)) :=
  let records := filter_records cfg skip_patterns include_patterns zone_name zone_id items [] in
  let zone_key := zone_key_of zone_name private_zone in
  let local_var := local_var_of zone_key in
  let filename_domain := PyStr.replace "." "-" zone_name in
  let filename_domain :=
    if private_zone then filename_domain ++ "-private" else filename_domain in
  match assign_keys zone_key
          {| record_blocks := []; counts := []; import_entries := [] |}
          (sorted_by triple_ltb record_sort_key records) with
  | None => None
  | Some state =>
      Some (zone_key, local_var, filename_domain, record_blocks state, import_entries state)
  end.

(** The argument of [parse_hostname_patterns]: [None], one string, or a
    list of strings. *)
Inductive RawPatterns : Type :=
| RawAbsent
| RawString (s : string)
| RawItems (items : list string).

Definition pattern_expressions (raw : RawPatterns) : list string :=
  let values :=
    match raw with
    | RawAbsent => []
    | RawString s => if PyStr.truthy s then [s] else []
    | RawItems items => List.filter PyStr.truthy items
    end in
  List.filter PyStr.truthy
    (List.flat_map (fun raw_entry => List.map PyStr.strip (PyStr.split_on "," raw_entry)) values).

Fixpoint compile_all (expressions : list string) : option (list Pattern) :=
  match expressions with
  | [] => Some []
  | expression :: rest =>
      match re_compile expression true with
      | None => None
      | Some pattern => option_map (cons pattern) (compile_all rest)
      end
  end.

Definition parse_hostname_patterns (raw : RawPatterns) : option (list Pattern) :=
  compile_all (pattern_expressions raw).

End Filters.

(** ** Text files

    [Path.read_text] and [Path.write_text] open the file in text mode.  On
    reading, a carriage return followed by a line feed, and a carriage
    return alone, come out as one line feed; on writing, every line feed
    goes out as the line separator of the platform, [os.linesep]. *)

Fixpoint read_text (content : string) : string :=
  match content with
  | EmptyString => EmptyString
  | String c r =>
      if Ascii.eqb c "013"
      then String "010"
             (match r with
              | String c' r' => if Ascii.eqb c' "010" then read_text r' else read_text r
              | EmptyString => EmptyString
              end)
      else String c (read_text r)
  end.

Definition write_text (linesep text : string) : string :=
  PyStr.replace nl linesep text.

(** ** File updaters: the generated section of the locals file *)

(** The first occurrence of [pat] in [s], as the text before it and the text
    after it. *)
Fixpoint split_first (pat s : string) : option (string * string) :=
  if String.prefix pat s then Some (EmptyString, PyStr.drop (String.length pat) s)
  else match s with
       | EmptyString => None
       | String c r =>
           match split_first pat r with
           | Some (before, after) => Some (String c before, after)
           | None => None
           end
       end.

(** The length of the match of
    [re.escape(BEGIN_MARKER) .*? re.escape(END_MARKER) \n?] (with
    [re.DOTALL]) at the start of [s], if there is one: the begin marker, the
    shortest text up to an end marker, the end marker and one newline when
    it follows. *)
Definition span_match (s : string) : option nat :=
  if String.prefix BEGIN_MARKER s
  then match split_first END_MARKER (PyStr.drop (String.length BEGIN_MARKER) s) with
       | Some (inner, after) =>
           Some (String.length BEGIN_MARKER + String.length inner
                 + String.length END_MARKER
                 + (if String.prefix nl after then 1 else 0))
       | None => None
       end
  else None.

(** [re.sub(pattern, "", s)]: the text is scanned from the left; where the
    pattern matches, the match is dropped and the scan resumes after it.
    [skip] counts the characters of the current match still to drop. *)
Fixpoint remove_spans (skip : nat) (s : string) : string :=
  match s with
  | EmptyString => EmptyString
  | String c r =>
      match skip with
      | S k => remove_spans k r
      | O =>
          match span_match s with
          | Some n => remove_spans (n - 1) r
          | None => String c (remove_spans 0 r)
          end
      end
  end.

(** The loop over [enumerate(local_vars)]; [rest] plays the part of the
    test [index < len(local_vars) - 1]. *)
Fixpoint local_lines (local_vars : list string) : list string :=
  match local_vars with
  | [] => []
  | local_var :: rest =>
      let suffix := if nonempty rest then "," else "" in
      ("    local." ++ local_var ++ suffix) :: local_lines rest
  end.

Definition block_lines (local_vars : list string) : list string :=
  ([BEGIN_MARKER]
   ++ (if nonempty local_vars
       then ["locals {"; "  zone_records = merge("; "    {},"]
            ++ local_lines local_vars
            ++ ["  )"; "}"]
       else ["locals {"; "  zone_records = {}"; "}"])
   ++ [END_MARKER; ""])%list.

Definition generated_block (local_vars : list string) : string :=
  PyStr.join nl (block_lines local_vars).

(** The file is [None] when it does not exist and its stored content
    otherwise; the result is the text given to [write_text]. *)
Definition update_locals_file (local_vars : list string) (file : option string) : string :=
  let original := match file with Some content => read_text content | None => "" end in
  let cleaned := PyStr.rstrip (remove_spans 0 original) in
  let generated_block := generated_block local_vars in
  if PyStr.truthy cleaned then cleaned ++ nl ++ nl ++ generated_block
  else generated_block.

(** An A record with one value; an empty set identifier stands for a record
    without one. *)
Definition a_record (name set_identifier : string) : RawRecord :=
  {| raw_Name := Some name; raw_Type := Some "A"; raw_TTL := Some 60%Z;
     raw_ResourceRecords := Some [ {| rr_Value := Some "192.0.2.1" |} ];
     raw_AliasTarget := None; raw_GeoLocation := None;
     raw_SetIdentifier := if PyStr.truthy set_identifier then Some set_identifier else None;
     raw_HealthCheckId := None; raw_Failover := None;
     raw_TrafficPolicyInstanceId := None; raw_MultiValueAnswer := None;
     raw_Region := None; raw_Weight := None |}.

Definition no_search : unit -> string -> bool := fun _ _ => false.

Definition assigned_keys (items : list RawRecord) : option (list (string * string * string)) :=
  match collect_zone_records unit no_search default_config items "Z1" "example.com" false [] [] with
  | Some (_, _, _, _, entries) => Some entries
  | None => None
  end.

(** ** Record and zone files *)

(** The loop over [attributes.items()] shared by the file renderers. *)
Fixpoint render_attributes (attributes : pydict) (indent : nat) (lines : list string)
  : list string :=
  match attributes with
  | [] => lines
  | (attr_name, attr_value) :: rest =>
      render_attributes rest indent (render_attribute_block attr_name attr_value indent lines)
  end.

(** The loop over [records.items()]: [key_indent] is the indentation of the
    record key, [render_key] how the key is written. *)
Fixpoint render_entries (render_key : string -> string) (key_indent : nat)
    (records : list (string * pydict)) (lines : list string) : list string :=
  match records with
  | [] => lines
  | (record_key, attributes) :: rest =>
      let lines :=
        append_line lines (PyStr.indent_str key_indent ++ render_key record_key ++ " = {") in
      let attribute_lines := render_attributes attributes (S key_indent) [] in
      let lines := (lines ++ attribute_lines)%list in
      let lines := append_line lines (PyStr.indent_str key_indent ++ "}") in
      render_entries render_key key_indent rest lines
  end.

Definition render_zone_file (local_var zone_key : string)
    (records : list (string * pydict)) : string :=
  let lines := ["locals {";
                "  " ++ local_var ++ " = {";
                "    " ++ json_string zone_key ++ " = {"] in
  let lines := render_entries (fun k => k) 3 records lines in
  PyStr.join nl (lines ++ ["    }"; "  }"; "}"; ""])%list.

Definition render_single_zone_records (local_var : string)
    (records : list (string * pydict)) : string :=
  let lines := ["locals {"; "  " ++ local_var ++ " = {"] in
  let lines := render_entries (fun k => k) 2 records lines in
  PyStr.join nl (lines ++ ["  }"; "}"; ""])%list.

(** [write_zones_file], as the text it gives to [write_text]. *)
Definition write_zones_file (zones : list (string * pydict)) : string :=
  let lines := ["locals {"; "  zones = {"] in
  let lines := render_entries json_string 2 zones lines in
  PyStr.join nl (lines ++ ["  }"; ""; "}"; ""])%list.

(** ** Zone details and zone configuration *)

Record VpcAssociation : Type := {
  va_VPCId : option string;
  va_VPCRegion : option string
}.

Record TagEntry : Type := {
  tag_Key : option string;
  tag_Value : option string
}.

(** The answer of [get_hosted_zone]. *)
Record HostedZoneResponse : Type := {
  hz_Name : option string;
  hz_PrivateZone : option bool;
  hz_Comment : option string;
  hz_VPCs : option (list VpcAssociation)
}.

Record ZoneDetails : Type := {
  zd_id : string;
  zd_name : string;
  zd_private_zone : bool;
  zd_comment : string;
  zd_tags : list (string * string);
  zd_vpcs : list Vpc
}.

Definition opt_truthy (o : option string) : bool :=
  match o with Some s => PyStr.truthy s | None => false end.

(** The loop over [response.get("VPCs") or []]. *)
Fixpoint collect_vpcs (associations : list VpcAssociation) : list Vpc :=
  match associations with
  | [] => []
  | vpc :: rest =>
      if opt_truthy (va_VPCId vpc)
      then {| vpc_id := va_VPCId vpc; vpc_region := va_VPCRegion vpc |} :: collect_vpcs rest
      else collect_vpcs rest
  end.

(** The loop over the tags of [list_tags_for_resource]. *)
Fixpoint collect_tags (resource_tags : list TagEntry) (tags : list (string * string))
  : list (string * string) :=
  match resource_tags with
  | [] => tags
  | entry :: rest =>
      match tag_Key entry with
      | Some key =>
          if PyStr.truthy key
          then collect_tags rest
                 (Dict.set tags key (match tag_Value entry with Some v => v | None => "" end))
          else collect_tags rest tags
      | None => collect_tags rest tags
      end
  end.

(** [get_zone_details] on the answers of the two client calls;
    [tag_response] is [None] when [list_tags_for_resource] raises
    [ClientError] or [BotoCoreError]. *)
Definition get_zone_details (response : HostedZoneResponse)
    (tag_response : option (list TagEntry)) (zone_id : string) (include_tags : bool)
  : ZoneDetails :=
  let zone_name :=
    PyStr.rstrip_dot (or_str (hz_Name response) zone_id) in
  let private_zone := match hz_PrivateZone response with Some b => b | None => false end in
  let comment := or_str (hz_Comment response) "" in
  let vpcs := collect_vpcs (match hz_VPCs response with Some l => l | None => [] end) in
  let tags :=
    if include_tags
    then match tag_response with
         | None => []
         | Some resource_tags => collect_tags resource_tags []
         end
    else [] in
  {| zd_id := zone_id; zd_name := zone_name; zd_private_zone := private_zone;
     zd_comment := comment; zd_tags := tags; zd_vpcs := vpcs |}.

Definition build_zone_configuration (zone_details : ZoneDetails) (include_tags : bool)
  : pydict :=
  let attributes : pydict := [] in
  let attributes := Dict.set attributes "name" (PStr (zd_name zone_details)) in
  let attributes := Dict.set attributes "comment" (PStr (zd_comment zone_details)) in
  let attributes := Dict.set attributes "private_zone" (PBool (zd_private_zone zone_details)) in
  let attributes :=
    if zd_private_zone zone_details
    then set_if (nonempty (zd_vpcs zone_details)) "vpcs"
           (PDict (build_vpc_map (zd_vpcs zone_details))) attributes
    else attributes in
  let tags := if include_tags then zd_tags zone_details else [] in
  Dict.set attributes "tags"
    (PDict (dict_of_items
              (List.map (fun kv => (fst kv, PStr (snd kv)))
                 (sorted_by pair_ltb (fun kv => kv) tags)))).

(** ** Import statements *)

Definition import_block (to_line id : string) : list string :=
  ["import {"; to_line; "  id = " ++ json_string id; "}"; ""].

(** [write_imports_file], as the text it gives to [write_text]. *)
Definition write_imports_file (import_entries : list (string * string * string))
    (single_zone : bool) (zone_resource_id : option string)
    (zone_import_entries : list (string * string)) : string :=
  let import_entries :=
    sorted_by pair_ltb (fun item : string * string * string => (fst (fst item), snd (fst item)))
      import_entries in
  let zone_import_entries :=
    sorted_by String.ltb (fun item : string * string => fst item) zone_import_entries in
  let lines : list string := [] in
  let lines :=
    match zone_resource_id with
    | Some id =>
        if PyStr.truthy id
        then (lines ++ import_block "  to = module.zone.aws_route53_zone.this[0]" id)%list
        else lines
    | None => lines
    end in
  let lines :=
    List.fold_left
      (fun lines '(zone_key, zone_id) =>
         (lines
          ++ import_block
               ("  to = module.zones[" ++ json_string zone_key ++ "].aws_route53_zone.this[0]")
               zone_id)%list)
      zone_import_entries lines in
  let lines :=
    List.fold_left
      (fun lines '(zone_key, record_key, import_id) =>
         let to_line :=
           if single_zone
           then "  to = module.zone.aws_route53_record.this[" ++ json_string record_key ++ "]"
           else "  to = module.zones[" ++ json_string zone_key ++ "].aws_route53_record.this"
                ++ "[" ++ json_string record_key ++ "]" in
         (lines ++ import_block to_line import_id)%list)
      import_entries lines in
  PyStr.rstrip (PyStr.join nl lines) ++ (if nonempty lines then nl else "").

(** ** Command-line and configuration values *)

(** [part.strip()] followed by a strip of the double quote. *)
Definition clean_zone_id (part : string) : string :=
  PyStr.strip_with (Ascii.eqb "034") (PyStr.strip part).

Definition parse_zone_ids_arg (raw : RawPatterns) : list string :=
  let tokens :=
    match raw with
    | RawAbsent => []
    | RawString s => if PyStr.truthy s then [s] else []
    | RawItems items => if nonempty items then items else []
    end in
  List.filter PyStr.truthy
    (List.flat_map
       (fun token =>
          if PyStr.truthy token
          then List.map clean_zone_id (PyStr.split_on "," token)
          else [])
       tokens).

(** [None] stands for the [ValueError] raised when no zone id is left. *)
Definition get_zone_ids (raw : RawPatterns) : option (list string) :=
  let zone_ids := parse_zone_ids_arg raw in
  if nonempty zone_ids then Some zone_ids else None.

(** [normalize_config_key] on a string key. *)
Definition normalize_config_key (value : string) : string :=
  let text := PyStr.strip value in
  let text := if PyStr.startswith text "--" then PyStr.drop 2 text else text in
  PyStr.replace "-" "_" text.

(** ** The single-zone section of the locals file *)

Definition SINGLE_ZONE_BEGIN_MARKER : string := "# BEGIN GENERATED PRIMARY ZONE".
Definition SINGLE_ZONE_END_MARKER : string := "# END GENERATED PRIMARY ZONE".

(** [span_match] and [remove_spans] for any pair of markers. *)
Definition span_match_between (begin_marker end_marker s : string) : option nat :=
  if String.prefix begin_marker s
  then match split_first end_marker (PyStr.drop (String.length begin_marker) s) with
       | Some (inner, after) =>
           Some (String.length begin_marker + String.length inner
                 + String.length end_marker
                 + (if String.prefix nl after then 1 else 0))
       | None => None
       end
  else None.

Fixpoint remove_spans_between (begin_marker end_marker : string) (skip : nat) (s : string)
  : string :=
  match s with
  | EmptyString => EmptyString
  | String c r =>
      match skip with
      | S k => remove_spans_between begin_marker end_marker k r
      | O =>
          match span_match_between begin_marker end_marker s with
          | Some n => remove_spans_between begin_marker end_marker (n - 1) r
          | None => String c (remove_spans_between begin_marker end_marker 0 r)
          end
      end
  end.

Definition zone_block (zone_name : string) : list string :=
  [SINGLE_ZONE_BEGIN_MARKER;
   "locals {";
   "  zone = {";
   "    name    = " ++ json_string zone_name;
   "    comment = " ++ json_string ("Primary " ++ zone_name ++ " zone");
   "    tags    = {}";
   "  }";
   "}";
   SINGLE_ZONE_END_MARKER;
   ""].

(** The file is [None] when it does not exist and its stored content
    otherwise; the result is the text given to [write_text]. *)
Definition update_single_zone_locals (zone_name : string) (file : option string) : string :=
  let original := match file with Some content => read_text content | None => "" end in
  let cleaned :=
    PyStr.rstrip
      (remove_spans_between SINGLE_ZONE_BEGIN_MARKER SINGLE_ZONE_END_MARKER 0 original) in
  let generated := PyStr.join nl (zone_block zone_name) in
  if PyStr.truthy cleaned then cleaned ++ nl ++ nl ++ generated else generated.

(** ** Record type overrides *)

(** The value of a list-valued entry of the configuration file: absent or
    null, one string, or a list whose items are strings or null. *)
Inductive RawList : Type :=
| ListAbsent
| ListString (s : string)
| ListItems (items : list (option string)).

Definition coerce_string_list (raw : RawList) : list string :=
  match raw with
  | ListAbsent => []
  | ListString s =>
      let tokens := List.map PyStr.strip (PyStr.split_on "," s) in
      List.filter PyStr.truthy tokens
  | ListItems items =>
      List.flat_map
        (fun entry =>
           match entry with
           | None => []
           | Some e =>
               let text := PyStr.strip e in
               if PyStr.truthy text then [text] else []
           end)
        items
  end.

(** The two module-level sets are the fields of [Config]; the function
    returns the sets that are in force after the call. *)
Definition apply_record_type_overrides (cfg : Config)
    (skip_record_types_raw skippable_import_types_raw : RawList) : Config :=
  let skip := coerce_string_list skip_record_types_raw in
  let skippable := coerce_string_list skippable_import_types_raw in
  {| skip_record_types :=
       if nonempty skip then List.map PyStr.upper skip else skip_record_types cfg;
     skippable_import_types :=
       if nonempty skippable then List.map PyStr.upper skippable
       else skippable_import_types cfg |}.

(** ** Sample inputs and specification-side definitions *)

Definition wildcard_example : RawRecord :=
  {| raw_Name := Some "\052.example.com."; raw_Type := Some "CNAME"; raw_TTL := Some 300%Z;
     raw_ResourceRecords := Some [ {| rr_Value := Some "target.example.net." |} ];
     raw_AliasTarget := None; raw_GeoLocation := None;
     raw_SetIdentifier := None; raw_HealthCheckId := None; raw_Failover := None;
     raw_TrafficPolicyInstanceId := None; raw_MultiValueAnswer := None;
     raw_Region := None; raw_Weight := None |}.

Definition geo_only_country : RawRecord :=
  {| raw_Name := Some "geo.example.com."; raw_Type := Some "A"; raw_TTL := Some 60%Z;
     raw_ResourceRecords := Some [ {| rr_Value := Some "192.0.2.1" |} ];
     raw_AliasTarget := None;
     raw_GeoLocation :=
       Some {| geo_ContinentCode := None; geo_CountryCode := Some "US";
               geo_SubdivisionCode := None |};
     raw_SetIdentifier := Some "us"; raw_HealthCheckId := None; raw_Failover := None;
     raw_TrafficPolicyInstanceId := None; raw_MultiValueAnswer := None;
     raw_Region := None; raw_Weight := None |}.

Definition nonempty_opt (o : option string) : option pyval :=
  match o with
  | Some s => if PyStr.is_empty s then None else Some (PStr s)
  | None => None
  end.

(** Percent escaping in the spec's words: the character at position [i]
    is written twice when it is a percent sign and the character after it is
    not one, and once otherwise. *)
Definition escaped_at (s : string) (i : nat) : string :=
  match String.get i s with
  | Some c =>
      if Ascii.eqb c "%"
         && negb (match String.get (S i) s with
                  | Some d => Ascii.eqb d "%"
                  | None => false
                  end)
      then "%%" else String c EmptyString
  | None => EmptyString
  end.

Definition escape_percent_spec (s : string) : string :=
  String.concat "" (List.map (escaped_at s) (List.seq 0 (String.length s))).

(** A stand-in for compiled patterns on sample inputs: the pattern is a
    plain word, searched for without regard to case. *)
Definition substring_search (pattern text : string) : bool :=
  PyStr.contains (PyStr.lower text) (PyStr.lower pattern).

(** The attribute projection in the spec's words: the fields in their
    fixed order, each with the value it takes when it is emitted; [present]
    keeps the fields that have one. *)
Definition when (cond : bool) (value : pyval) : option pyval :=
  if cond then Some value else None.

Definition present (fields : list (string * option pyval)) : pydict :=
  List.flat_map
    (fun field => match snd field with Some v => [(fst field, v)] | None => [] end)
    fields.

Definition alias_fields (alias : pydict) : list (string * option pyval) :=
  [("name", when (truthy (pyget alias "name")) (pyget alias "name"));
   ("zone_id", when (truthy (pyget alias "zone_id")) (pyget alias "zone_id"));
   ("evaluate_target_health",
    when (not_none (pyget alias "evaluate_target_health"))
      (pyget alias "evaluate_target_health"))].

Definition geo_fields (geo_location : pydict) : list (string * option pyval) :=
  [("continent", when (truthy (pyget geo_location "continent_code"))
                   (pyget geo_location "continent_code"));
   ("country", when (truthy (pyget geo_location "country_code"))
                 (pyget geo_location "country_code"));
   ("subdivision", when (truthy (pyget geo_location "subdivision_code"))
                     (pyget geo_location "subdivision_code"))].

Definition geo_dict (record : pydict) : pydict :=
  match pyget record "geo_location" with PDict d => d | _ => [] end.

Definition copied (record : pydict) (source : string) : option pyval :=
  when (not_none (pyget record source)) (pyget record source).

Definition projected_fields (record : pydict) : list (string * option pyval) :=
  [("full_name", Dict.get record "full_name");
   ("type", Some (match Dict.get record "type" with Some t => t | None => PStr "" end));
   ("ttl", copied record "ttl");
   ("records", when (truthy (pyget record "records")) (pyget record "records"));
   ("alias", match pyget record "alias" with
             | PDict ((_ :: _) as alias) => Some (PDict (present (alias_fields alias)))
             | _ => None
             end);
   ("set_identifier", copied record "set_identifier");
   ("health_check_id", copied record "health_check_id");
   ("failover", copied record "failover");
   ("traffic_policy_instance_id", copied record "traffic_policy_instance_id");
   ("multivalue_answer", copied record "multi_value_answer");
   ("latency_routing_policy",
    when (truthy (pyget record "region")) (PDict [("region", pyget record "region")]));
   ("weighted_routing_policy",
    when (not_none (pyget record "weight")) (PDict [("weight", pyget record "weight")]));
   ("geolocation_routing_policy",
    let geo_attributes := present (geo_fields (geo_dict record)) in
    when (nonempty geo_attributes) (PDict geo_attributes))].

Definition txt_normalized : pydict :=
  match normalize_record default_config txt_example "example.com" "Z1" with
  | Some normalized => normalized
  | None => []
  end.

(** Scalar encoding in the spec's words. *)
Definition scalar_text (value : pyval) : option string :=
  match value with
  | PBool true => Some "true"
  | PBool false => Some "false"
  | PNone => Some "null"
  | PInt z => Some (PyStr.str_Z z)
  | PFloat text => Some text
  | PStr s => Some (json_string s)
  | PList _ | PDict _ => None
  end.

Definition assigned_blocks (items : list RawRecord) : option (list (string * pydict)) :=
  match collect_zone_records unit no_search default_config items "Z1" "example.com" false [] [] with
  | Some (_, _, _, blocks, _) => Some blocks
  | None => None
  end.

(** Two weighted A records at [x] and one A record at [x-02]. *)
Definition colliding_records : list RawRecord :=
  [a_record "x.example.com." "a"; a_record "x.example.com." "b";
   a_record "x-02.example.com." ""].

(** The text of the generated block between its two markers, line by
    line. *)
Definition no_hash (s : string) : bool :=
  PyStr.forallb (fun c => negb (Ascii.eqb c "#")) s.

(** No carriage return. *)
Definition cr_free (s : string) : bool :=
  PyStr.forallb (fun c => negb (Ascii.eqb c "013")) s.

(** The line separators of the platforms: a line feed, or a carriage
    return and a line feed. *)
Definition is_linesep (linesep : string) : Prop :=
  linesep = nl \/ linesep = String "013" nl.

Fixpoint lines_text (lines : list string) : string :=
  match lines with
  | [] => EmptyString
  | line :: rest => line ++ nl ++ lines_text rest
  end.

Definition block_body (local_vars : list string) : string :=
  nl ++ lines_text
          (if nonempty local_vars
           then ["locals {"; "  zone_records = merge("; "    {},"]
                ++ local_lines local_vars ++ ["  )"; "}"]
           else ["locals {"; "  zone_records = {}"; "}"])%list.

(** A prior file content and the hand-written text in it: the content is
    the hand-written text, possibly with generated blocks (written by
    earlier runs, for lists of identifiers) inserted in it. *)
Definition identifier_chars (name : string) : Prop :=
  PyStr.forallb PyStr.is_word name = true.

Inductive prior_content : string -> string -> Prop :=
| prior_hand (hand : string) : prior_content hand hand
| prior_span (before rest hand_rest : string) (local_vars : list string) :
    Forall identifier_chars local_vars ->
    prior_content rest hand_rest ->
    prior_content (before ++ generated_block local_vars ++ rest) (before ++ hand_rest).

(** The separator written between the remaining text and the block. *)
Definition separator (cleaned : string) : string :=
  if PyStr.truthy cleaned then nl ++ nl else EmptyString.

(** A hand-edited locals file with a block of an earlier run in the
    middle. *)
Definition edited_locals_file : string :=
  "value = 1" ++ nl ++ generated_block ["zone_records_a"] ++ "other = 2" ++ nl.

(** ** Definitions used to state the further properties *)


(** The loop over the items of a list in [render_attribute_block]. *)
Fixpoint render_items (items : list pyval) (indent : nat) (lines : list string)
  : list string :=
  match items with
  | [] => lines
  | item :: rest =>
      render_items rest indent (render_attribute_block "" item indent lines)
  end.

(** Reading back the first escaped character of a JSON string body, with
    the text that follows it. *)
Definition hex_value (c : ascii) : nat :=
  let n := PyStr.code c in
  if PyStr.is_digit c then n - 48 else n - 87.

Definition json_unescape_one (s : string) : option (ascii * string) :=
  match s with
  | EmptyString => None
  | String c r =>
      if Ascii.eqb c "\"
      then match r with
           | String e r' =>
               if Ascii.eqb e "u"
               then match r' with
                    | String _ (String _ (String h (String l r''))) =>
                        Some (ascii_of_nat (16 * hex_value h + hex_value l), r'')
                    | _ => None
                    end
               else if Ascii.eqb e "b" then Some ("008"%char, r')
               else if Ascii.eqb e "f" then Some ("012"%char, r')
               else if Ascii.eqb e "n" then Some ("010"%char, r')
               else if Ascii.eqb e "r" then Some ("013"%char, r')
               else if Ascii.eqb e "t" then Some ("009"%char, r')
               else Some (e, r')
           | EmptyString => None
           end
      else Some (c, r)
  end.

(** A percent sign with no percent sign next to it; [prev] tells that the
    previous character was one. *)
Fixpoint lone_percent (prev : bool) (s : string) : bool :=
  match s with
  | EmptyString => false
  | String c r =>
      if Ascii.eqb c "%"
      then (negb prev && negb (String.prefix "%" r)) || lone_percent true r
      else lone_percent false r
  end.

(** The characters of a sanitized subdomain. *)
Definition is_label_char (c : ascii) : bool :=
  PyStr.is_lower c || PyStr.is_digit c || Ascii.eqb c "_".

(** The record key of the import entry added last. *)
Definition last_record_key (state : KeyState) : string :=
  snd (fst (List.last (import_entries state) ("", "", ""))).

Definition empty_key_state : KeyState :=
  {| record_blocks := []; counts := []; import_entries := [] |}.

(** The normalized records of the sample zone and the states of the key
    loop after the first and after the second of them. *)
Definition sample_records : list pydict :=
  List.flat_map
    (fun item => match normalize_record default_config item "example.com" "Z1" with
                 | Some normalized => [normalized]
                 | None => []
                 end)
    colliding_records.

Definition state_after (records : list pydict) : KeyState :=
  match assign_keys "example.com" empty_key_state records with
  | Some state => state
  | None => empty_key_state
  end.


(** The import statements of [write_imports_file], as pairs of a [to] line
    and an id, in the order in which the file lists them. *)
Definition import_targets (import_entries : list (string * string * string))
    (single_zone : bool) (zone_resource_id : option string)
    (zone_import_entries : list (string * string)) : list (string * string) :=
  let zone_resource :=
    if opt_truthy zone_resource_id
    then [("  to = module.zone.aws_route53_zone.this[0]", or_str zone_resource_id "")]
    else [] in
  let zones :=
    List.map
      (fun item : string * string =>
         ("  to = module.zones[" ++ json_string (fst item) ++ "].aws_route53_zone.this[0]",
          snd item))
      (sorted_by String.ltb (fun item : string * string => fst item) zone_import_entries) in
  let records :=
    List.map
      (fun item : string * string * string =>
         (if single_zone
          then "  to = module.zone.aws_route53_record.this["
               ++ json_string (snd (fst item)) ++ "]"
          else "  to = module.zones[" ++ json_string (fst (fst item))
               ++ "].aws_route53_record.this[" ++ json_string (snd (fst item)) ++ "]",
          snd item))
      (sorted_by pair_ltb
         (fun item : string * string * string => (fst (fst item), snd (fst item)))
         import_entries) in
  List.app zone_resource (List.app zones records).

(** One import statement, every line ended by a newline. *)
Definition import_text (target : string * string) : string :=
  "import {" ++ nl ++ fst target ++ nl ++ "  id = " ++ json_string (snd target) ++ nl
  ++ "}" ++ nl.

(** The value of the last tag entry with the given key. *)
Fixpoint tag_lookup (resource_tags : list TagEntry) (key : string) : option string :=
  match resource_tags with
  | [] => None
  | entry :: rest =>
      match tag_lookup rest key with
      | Some value => Some value
      | None =>
          match tag_Key entry with
          | Some k =>
              if String.eqb k key
              then Some (match tag_Value entry with Some v => v | None => "" end)
              else None
          | None => None
          end
      end
  end.

(** A hosted zone with two VPC associations, one without an id, and a tag
    set that names one key twice. *)
Definition sample_response : HostedZoneResponse :=
  {| hz_Name := Some "example.com.";
     hz_PrivateZone := Some true;
     hz_Comment := None;
     hz_VPCs := Some [ {| va_VPCId := Some "vpc-1"; va_VPCRegion := Some "eu-west-1" |};
                       {| va_VPCId := None; va_VPCRegion := Some "eu-west-1" |} ] |}.

Definition sample_tags : list TagEntry :=
  [ {| tag_Key := Some "team"; tag_Value := Some "dns" |};
    {| tag_Key := Some "env"; tag_Value := Some "prod" |};
    {| tag_Key := Some "team"; tag_Value := Some "net" |} ].

(** What [update_single_zone_locals] writes between its two markers. *)
Definition zone_block_body (zone_name : string) : string :=
  nl ++ lines_text
          ["locals {";
           "  zone = {";
           "    name    = " ++ json_string zone_name;
           "    comment = " ++ json_string ("Primary " ++ zone_name ++ " zone");
           "    tags    = {}";
           "  }";
           "}"].

(** * Properties *)

(** ** The embedding on concrete inputs *)

Example lower_example : PyStr.lower "MiXed_09" = "mixed_09".
Proof. reflexivity. Qed.

Example rstrip_example : PyStr.rstrip ("a b  " ++ String "010" "") = "a b".
Proof. reflexivity. Qed.

Example replace_example : PyStr.replace "\052" "*" "\052.a.\052" = "*.a.*".
Proof. reflexivity. Qed.

Example split_example : PyStr.split_on "," "a,,b" = ["a"; ""; "b"].
Proof. reflexivity. Qed.

Example fmt_example :
  (PyStr.fmt_02d 2, PyStr.fmt_02d 12, PyStr.fmt_02d 100, PyStr.str_Z (-5), PyStr.str_nat 0)
  = ("02", "12", "100", "-5", "0").
Proof. reflexivity. Qed.

Example endswith_example :
  (PyStr.endswith "a.b.c" ".c", PyStr.endswith "a.b.c" ".b", PyStr.endswith "" "")
  = (true, false, true).
Proof. reflexivity. Qed.

Example to_snake_case_examples :
  List.map to_snake_case
    ["TTL"; "SetIdentifier"; "HealthCheckId"; "Failover";
     "TrafficPolicyInstanceId"; "MultiValueAnswer"; "Region"; "Weight"]
  = ["ttl"; "set_identifier"; "health_check_id"; "failover";
     "traffic_policy_instance_id"; "multi_value_answer"; "region"; "weight"].
Proof. reflexivity. Qed.

Example relative_name_examples :
  (compute_relative_name "www.example.com." "example.com",
   compute_relative_name "example.com." "example.com.",
   compute_relative_name "other.org" "example.com",
   compute_relative_name "*.example.com" "example.com")
  = ("www", "", "other.org", "*").
Proof. reflexivity. Qed.

Example sanitize_subdomain_examples :
  List.map sanitize_subdomain [""; "*"; "\052.api"; "My-Host..x"; "--"; "x-02"]
  = ["root"; "star"; "star_api"; "my_host_x"; "root"; "x_02"].
Proof. reflexivity. Qed.

Example escape_percent_examples :
  List.map escape_percent_signs ["50% off"; "100%%"; "%"; "plain"; ""]
  = ["50%% off"; "100%%%"; "%%"; "plain"; ""].
Proof. reflexivity. Qed.

Example sanitize_identifier_examples :
  List.map sanitize_identifier [""; "9lives"; "zone_records_example.com"; "a-b c"]
  = ["_"; "_9lives"; "zone_records_example_com"; "a_b_c"].
Proof. reflexivity. Qed.

Example normalize_txt_example :
  normalize_record default_config txt_example "example.com" "Z1"
  = Some [("key_base", PStr "txt_note");
          ("relative_name", PStr "note");
          ("subdomain", PStr "note");
          ("full_name", PStr "note.example.com");
          ("type", PStr "TXT");
          ("records", PList [PStr ("hello " ++ quote ++ "world" ++ quote); PStr "50%% off"]);
          ("ttl", PInt 300);
          ("set_identifier", PStr "blue");
          ("multi_value_answer", PBool true);
          ("weight", PInt 0);
          ("import_id", PStr "Z1_note.example.com_TXT_blue")].
Proof. reflexivity. Qed.

Example normalize_skips_ns :
  normalize_record default_config
    {| raw_Name := Some "example.com."; raw_Type := Some "NS"; raw_TTL := None;
       raw_ResourceRecords := None; raw_AliasTarget := None; raw_GeoLocation := None;
       raw_SetIdentifier := None; raw_HealthCheckId := None; raw_Failover := None;
       raw_TrafficPolicyInstanceId := None; raw_MultiValueAnswer := None;
       raw_Region := None; raw_Weight := None |} "example.com" "Z1" = None.
Proof. reflexivity. Qed.

Example json_string_example :
  json_string ("a" ++ quote ++ "b\c" ++ nl ++ String "127" "" ++ String "233" "")
  = quote ++ "a\" ++ quote ++ "b\\c\n\u007f\u00e9" ++ quote.
Proof. reflexivity. Qed.

Example build_record_attributes_example :
  option_map build_record_attributes
    (normalize_record default_config txt_example "example.com" "Z1")
  = Some (Some [("full_name", PStr "note.example.com");
                ("type", PStr "TXT");
                ("ttl", PInt 300);
                ("records", PList [PStr ("hello " ++ quote ++ "world" ++ quote);
                                   PStr "50%% off"]);
                ("set_identifier", PStr "blue");
                ("multivalue_answer", PBool true);
                ("weighted_routing_policy", PDict [("weight", PInt 0)])]).
Proof. reflexivity. Qed.

Example render_example :
  render_attribute_block "rec" 
    (PDict [("ttl", PInt 300); ("on", PBool true); ("my-key", PNone);
            ("records", PList [PStr "a"; PList []; PDict []]); ("tags", PDict [])]) 1 ["x"]
  = ["x";
     "  rec = {";
     "    ttl = 300";
     "    on = true";
     "    " ++ quote ++ "my-key" ++ quote ++ " = null";
     "    records = [";
     "      " ++ quote ++ "a" ++ quote ++ ",";
     "      []";
     "      {},";
     "    ]";
     "    tags = {}";
     "  }"].
Proof. reflexivity. Qed.

(** [$] in [IDENTIFIER_PATTERN] also matches before a final newline. *)
Example newline_key_example :
  (identifier_match ("a" ++ nl), bare_identifier ("a" ++ nl), format_name ("a" ++ nl))
  = (true, false, "a" ++ nl).
Proof. reflexivity. Qed.

Example build_vpc_map_example :
  build_vpc_map [ {| vpc_id := Some "vpc-2"; vpc_region := Some "us-east-1" |};
                  {| vpc_id := Some "vpc-1"; vpc_region := Some "us-east-1" |} ]
  = [("us_east_1_vpc_1", PDict [("vpc_id", PStr "vpc-1"); ("vpc_region", PStr "us-east-1")]);
     ("us_east_1_vpc_2", PDict [("vpc_id", PStr "vpc-2"); ("vpc_region", PStr "us-east-1")])].
Proof. reflexivity. Qed.

Example update_locals_file_new :
  update_locals_file ["zone_records_a"; "zone_records_b"] None
  = "# BEGIN GENERATED ROUTE53 RECORDS" ++ nl
    ++ "locals {" ++ nl
    ++ "  zone_records = merge(" ++ nl
    ++ "    {}," ++ nl
    ++ "    local.zone_records_a," ++ nl
    ++ "    local.zone_records_b" ++ nl
    ++ "  )" ++ nl
    ++ "}" ++ nl
    ++ "# END GENERATED ROUTE53 RECORDS" ++ nl.
Proof. reflexivity. Qed.

Example update_locals_file_replaces :
  update_locals_file []
    (Some ("a = 1" ++ nl ++ update_locals_file ["x"] None ++ "b = 2" ++ nl))
  = "a = 1" ++ nl ++ "b = 2" ++ nl ++ nl
    ++ "# BEGIN GENERATED ROUTE53 RECORDS" ++ nl
    ++ "locals {" ++ nl
    ++ "  zone_records = {}" ++ nl
    ++ "}" ++ nl
    ++ "# END GENERATED ROUTE53 RECORDS" ++ nl.
Proof. reflexivity. Qed.

Example three_a_records_keys :
  assigned_keys [a_record "www.example.com." "c"; a_record "www.example.com." "a";
                 a_record "www.example.com." "b"]
  = Some [("example.com", "a_www", "Z1_www.example.com_A_a");
          ("example.com", "a_www_02", "Z1_www.example.com_A_b");
          ("example.com", "a_www_03", "Z1_www.example.com_A_c")].
Proof. reflexivity. Qed.

(** ** Strings and dictionaries: basic facts *)

Lemma append_nil_r (s : string) : s ++ "" = s.
Proof. induction s as [|c r IH]; simpl; [reflexivity | now rewrite IH]. Qed.

Lemma append_assoc (a b c : string) : (a ++ b) ++ c = a ++ (b ++ c).
Proof. induction a as [|x r IH]; simpl; [reflexivity | now rewrite IH]. Qed.

Lemma length_append (a b : string) :
  String.length (a ++ b) = String.length a + String.length b.
Proof. induction a as [|x r IH]; simpl; [reflexivity | now rewrite IH]. Qed.

Lemma forallb_append (p : ascii -> bool) (a b : string) :
  PyStr.forallb p (a ++ b) = PyStr.forallb p a && PyStr.forallb p b.
Proof.
  induction a as [|x r IH]; simpl; [reflexivity|].
  now rewrite IH, andb_assoc.
Qed.

Lemma get_set_same {V : Type} (d : list (string * V)) (k : string) (v : V) :
  Dict.get (Dict.set d k v) k = Some v.
Proof.
  induction d as [|[k' v'] r IH]; simpl.
  - now rewrite String.eqb_refl.
  - destruct (String.eqb k' k) eqn:E; simpl; rewrite E; [reflexivity | exact IH].
Qed.

Lemma get_set_other {V : Type} (d : list (string * V)) (k k' : string) (v : V) :
  String.eqb k k' = false -> Dict.get (Dict.set d k v) k' = Dict.get d k'.
Proof.
  intros N. induction d as [|[k0 v0] r IH]; simpl.
  - now rewrite N.
  - destruct (String.eqb k0 k) eqn:E; simpl.
    + apply String.eqb_eq in E. subst k0. now rewrite N.
    + now rewrite IH.
Qed.

Lemma get_set {V : Type} (d : list (string * V)) (k k' : string) (v : V) :
  Dict.get (Dict.set d k v) k' = if String.eqb k k' then Some v else Dict.get d k'.
Proof.
  destruct (String.eqb k k') eqn:E.
  - apply String.eqb_eq in E. subst. apply get_set_same.
  - now apply get_set_other.
Qed.

Lemma get_set_if (c : bool) (d : pydict) (k k' : string) (v : pyval) :
  Dict.get (set_if c k v d) k'
  = if c && String.eqb k k' then Some v else Dict.get d k'.
Proof. destruct c; simpl; [apply get_set | reflexivity]. Qed.

Lemma keys_set {V : Type} (d : list (string * V)) (k : string) (v : V) :
  Dict.keys (Dict.set d k v)
  = if Dict.mem d k then Dict.keys d else (Dict.keys d ++ [k])%list.
Proof.
  unfold Dict.mem, Dict.keys.
  induction d as [|[k' v'] r IH]; simpl; [reflexivity|].
  destruct (String.eqb k' k) eqn:E; simpl; [reflexivity|].
  rewrite IH. now destruct (Dict.get r k).
Qed.

Lemma keys_set_Forall {V : Type} (P : string -> Prop) (d : list (string * V))
    (k : string) (v : V) :
  Forall P (Dict.keys d) -> P k -> Forall P (Dict.keys (Dict.set d k v)).
Proof.
  intros Hd Hk. rewrite keys_set. destruct (Dict.mem d k); [exact Hd|].
  apply Forall_app. split; [exact Hd | now constructor].
Qed.

(** ** Identifiers *)

Lemma replace_non_word_word (value : string) :
  PyStr.forallb PyStr.is_word (replace_non_word value) = true.
Proof.
  unfold replace_non_word.
  induction value as [|c r IH]; simpl; [reflexivity|].
  rewrite IH, andb_true_r.
  destruct (PyStr.is_word c) eqn:E; [exact E | reflexivity].
Qed.

Lemma word_not_digit_start (c : ascii) :
  PyStr.is_word c = true -> PyStr.isdigit c = false -> PyStr.is_ident_start c = true.
Proof.
  unfold PyStr.is_word, PyStr.is_ident_start, PyStr.is_alnum, PyStr.isdigit.
  intros W D.
  destruct (PyStr.is_digit c); [discriminate D|].
  now rewrite orb_false_r in W.
Qed.

Lemma sanitize_identifier_bare (value : string) :
  bare_identifier (sanitize_identifier value) = true.
Proof.
  unfold sanitize_identifier.
  pose proof (replace_non_word_word value) as W.
  destruct (replace_non_word value) as [|c r]; [reflexivity|].
  destruct (PyStr.isdigit c) eqn:D.
  - simpl. simpl in W. exact W.
  - simpl in *. apply andb_true_iff in W. destruct W as [Wc Wr].
    now rewrite (word_not_digit_start c Wc D), Wr.
Qed.

Lemma word_tail_matches (s : string) :
  PyStr.forallb PyStr.is_word s = true -> identifier_tail s = true.
Proof.
  induction s as [|c r IH]; simpl; [reflexivity|].
  intros H. apply andb_true_iff in H. destruct H as [Hc Hr].
  rewrite Hc. now apply IH.
Qed.

Lemma bare_identifier_matches (name : string) :
  bare_identifier name = true -> identifier_match name = true.
Proof.
  destruct name as [|c r]; simpl; [discriminate|].
  intros H. apply andb_true_iff in H. destruct H as [Hc Hr].
  now rewrite Hc, (word_tail_matches r Hr).
Qed.

Lemma bare_identifier_truthy (name : string) :
  bare_identifier name = true -> PyStr.truthy name = true.
Proof. destruct name; [discriminate | reflexivity]. Qed.

Lemma format_name_bare (name : string) :
  bare_identifier name = true -> format_name name = name.
Proof.
  intros H. unfold format_name.
  rewrite (bare_identifier_matches name H).
  now destruct name.
Qed.

Lemma vpc_identifier_no_fallback (index : nat) (vpc : Vpc) :
  vpc_identifier index vpc = sanitize_identifier (vpc_label index vpc).
Proof.
  unfold vpc_identifier.
  now rewrite (bare_identifier_truthy _ (sanitize_identifier_bare (vpc_label index vpc))).
Qed.

Lemma vpc_loop_keys (sorted_vpcs : list Vpc) :
  forall index vpc_map,
    Forall (fun k => bare_identifier k = true) (Dict.keys vpc_map) ->
    Forall (fun k => bare_identifier k = true)
      (Dict.keys (vpc_loop index sorted_vpcs vpc_map)).
Proof.
  induction sorted_vpcs as [|vpc rest IH]; intros index vpc_map H; simpl; [exact H|].
  apply IH. apply keys_set_Forall; [exact H|].
  rewrite vpc_identifier_no_fallback. apply sanitize_identifier_bare.
Qed.

(** C10: [sanitize_identifier] always returns a non-empty string made of a
    letter or underscore followed by letters, digits and underscores, which
    [IDENTIFIER_PATTERN] accepts and [format_name] leaves bare; hence the
    [vpc_NN] fallback of [build_vpc_map] is never taken, and every key of
    the VPC map and every zone-records local-variable name is a bare
    identifier. *)
Theorem sanitize_identifier_always_identifier :
  (forall value,
      sanitize_identifier value <> ""
      /\ bare_identifier (sanitize_identifier value) = true
      /\ identifier_match (sanitize_identifier value) = true
      /\ format_name (sanitize_identifier value) = sanitize_identifier value)
  /\ (forall index vpc,
         vpc_identifier index vpc = sanitize_identifier (vpc_label index vpc))
  /\ (forall vpcs,
         Forall (fun k => bare_identifier k = true) (Dict.keys (build_vpc_map vpcs)))
  /\ (forall zone_name private_zone,
         bare_identifier (local_var_of (zone_key_of zone_name private_zone)) = true).
Proof.
  repeat split.
  - intros E. pose proof (sanitize_identifier_bare value) as B.
    rewrite E in B. discriminate B.
  - apply sanitize_identifier_bare.
  - apply bare_identifier_matches, sanitize_identifier_bare.
  - apply format_name_bare, sanitize_identifier_bare.
  - apply vpc_identifier_no_fallback.
  - intros vpcs. unfold build_vpc_map. apply vpc_loop_keys. constructor.
  - intros. apply sanitize_identifier_bare.
Qed.

(** ** The normalized record *)

Lemma normalize_value_raw_get (record : RawRecord) (key_name : string) :
  normalize_value (raw_get record key_name) = raw_get record key_name.
Proof.
  unfold raw_get, of_opt_str.
  repeat match goal with
         | |- context [if ?c then _ else _] => destruct c
         | |- context [match ?o with Some _ => _ | None => _ end] => destruct o
         end; reflexivity.
Qed.

Lemma get_copy_records_other (record_type : string) (record : RawRecord)
    (normalized : pydict) (k : string) :
  String.eqb "records" k = false ->
  Dict.get (copy_records record_type record normalized) k = Dict.get normalized k.
Proof.
  intros Hk. unfold copy_records.
  destruct (raw_ResourceRecords record) as [[|e rr]|]; try reflexivity.
  now rewrite get_set_other.
Qed.

Lemma get_copy_alias_other (record : RawRecord) (normalized : pydict) (k : string) :
  String.eqb "alias" k = false ->
  Dict.get (copy_alias record normalized) k = Dict.get normalized k.
Proof.
  intros Hk. unfold copy_alias.
  destruct (raw_AliasTarget record) as [a|]; try reflexivity.
  now rewrite get_set_if, Hk, andb_false_r.
Qed.

Lemma get_copy_geo_other (record : RawRecord) (normalized : pydict) (k : string) :
  String.eqb "geo_location" k = false ->
  Dict.get (copy_geo record normalized) k = Dict.get normalized k.
Proof.
  intros Hk. unfold copy_geo.
  destruct (raw_GeoLocation record) as [g|]; try reflexivity.
  now rewrite get_set_if, Hk, andb_false_r.
Qed.

(** The loop over the scalar members, unrolled. *)
Lemma copy_scalars_unrolled (record : RawRecord) (normalized : pydict) :
  copy_scalars record normalized
  = set_if (not_none (raw_get record "Weight")) "weight" (raw_get record "Weight")
   (set_if (not_none (raw_get record "Region")) "region" (raw_get record "Region")
   (set_if (not_none (raw_get record "MultiValueAnswer")) "multi_value_answer"
      (raw_get record "MultiValueAnswer")
   (set_if (not_none (raw_get record "TrafficPolicyInstanceId")) "traffic_policy_instance_id"
      (raw_get record "TrafficPolicyInstanceId")
   (set_if (not_none (raw_get record "Failover")) "failover" (raw_get record "Failover")
   (set_if (not_none (raw_get record "HealthCheckId")) "health_check_id"
      (raw_get record "HealthCheckId")
   (set_if (not_none (raw_get record "SetIdentifier")) "set_identifier"
      (raw_get record "SetIdentifier")
   (set_if (not_none (raw_get record "TTL")) "ttl" (raw_get record "TTL")
      normalized))))))).
Proof.
  unfold copy_scalars. cbn [List.fold_left COPIED_KEYS].
  now rewrite !normalize_value_raw_get.
Qed.

Lemma snake_case_copied_keys :
  List.map to_snake_case COPIED_KEYS
  = ["ttl"; "set_identifier"; "health_check_id"; "failover";
     "traffic_policy_instance_id"; "multi_value_answer"; "region"; "weight"].
Proof. vm_compute. reflexivity. Qed.

Lemma get_copy_scalars_other (record : RawRecord) (normalized : pydict) (k : string) :
  List.existsb (String.eqb k) (List.map to_snake_case COPIED_KEYS) = false ->
  Dict.get (copy_scalars record normalized) k = Dict.get normalized k.
Proof.
  intros Hk. rewrite copy_scalars_unrolled.
  rewrite snake_case_copied_keys in Hk. simpl List.existsb in Hk.
  repeat (apply orb_false_iff in Hk; destruct Hk as [?E Hk]).
  rewrite String.eqb_sym in E, E0, E1, E2, E3, E4, E5, E6.
  rewrite !get_set_if.
  now rewrite E, E0, E1, E2, E3, E4, E5, E6, !andb_false_r.
Qed.

Lemma get_copy_scalars (record : RawRecord) (normalized : pydict) (key_name : string) :
  In key_name COPIED_KEYS ->
  Dict.get (copy_scalars record normalized) (to_snake_case key_name)
  = if not_none (raw_get record key_name) then Some (raw_get record key_name)
    else Dict.get normalized (to_snake_case key_name).
Proof.
  intros Hin. rewrite copy_scalars_unrolled.
  repeat (destruct Hin as [<-|Hin];
          [match goal with
           | |- context [to_snake_case ?k] =>
               let v := eval vm_compute in (to_snake_case k) in
               change (to_snake_case k) with v
           end;
           rewrite !get_set_if; cbn [String.eqb Ascii.eqb Bool.eqb];
           now rewrite ?andb_false_r, ?andb_true_r |]).
  destruct Hin.
Qed.

(** What [normalize_record] stores under each key, read back from the
    dictionary it returns. *)
Lemma normalize_record_fields (cfg : Config) (record : RawRecord)
    (zone_name zone_id : string) (normalized : pydict) :
  normalize_record cfg record zone_name zone_id = Some normalized ->
  let record_type := PyStr.upper (or_str (raw_Type record) "") in
  let full_name := unescape_wildcard (PyStr.rstrip_dot (or_str (raw_Name record) "")) in
  let relative_name := compute_relative_name full_name zone_name in
  str_in record_type (skip_record_types cfg) = false
  /\ Dict.get normalized "key_base"
     = Some (PStr (PyStr.lower record_type ++ "_" ++ sanitize_subdomain relative_name))
  /\ Dict.get normalized "relative_name" = Some (PStr relative_name)
  /\ Dict.get normalized "subdomain" = Some (PStr (sanitize_subdomain relative_name))
  /\ Dict.get normalized "full_name" = Some (PStr full_name)
  /\ Dict.get normalized "type" = Some (PStr record_type)
  /\ Dict.get normalized "records"
     = match raw_ResourceRecords record with
       | Some ((_ :: _) as resource_records) =>
           Some (PList (List.map (fun entry => PStr (normalize_entry_value record_type entry))
                          resource_records))
       | _ => None
       end
  /\ Dict.get normalized "alias"
     = match raw_AliasTarget record with
       | Some alias_target =>
           if alias_truthy alias_target then Some (PDict (normalize_alias alias_target))
           else None
       | None => None
       end
  /\ Dict.get normalized "geo_location"
     = match raw_GeoLocation record with
       | Some geo_location =>
           if geo_truthy geo_location then Some (PDict (normalize_geo geo_location))
           else None
       | None => None
       end
  /\ Forall (fun key_name =>
               Dict.get normalized (to_snake_case key_name)
               = if not_none (raw_get record key_name)
                 then Some (raw_get record key_name) else None)
       COPIED_KEYS
  /\ Dict.get normalized "import_id"
     = Some (PStr (import_id_of zone_id zone_name full_name record_type
                     (raw_SetIdentifier record)))
  /\ Dict.get normalized "key" = None.
Proof.
  unfold normalize_record, build_record_key.
  destruct (str_in _ (skip_record_types cfg)) eqn:Skip; [discriminate|].
  intros H. injection H as <-.
  cbn zeta.
  set (base := [("key_base", _); ("relative_name", _); ("subdomain", _);
                ("full_name", _); ("type", _)]).
  unfold pyget.
  rewrite get_copy_scalars_other, get_copy_geo_other, get_copy_alias_other,
    get_copy_records_other by reflexivity.
  cbn [base Dict.get String.eqb Ascii.eqb Bool.eqb].
  split; [reflexivity|].
  repeat split; try (rewrite get_set; cbn [String.eqb Ascii.eqb Bool.eqb]);
    try (rewrite get_copy_scalars_other, get_copy_geo_other, get_copy_alias_other,
           get_copy_records_other by reflexivity; reflexivity).
  - rewrite get_copy_scalars_other, get_copy_geo_other, get_copy_alias_other by reflexivity.
    unfold copy_records.
    destruct (raw_ResourceRecords record) as [[|e rr]|]; reflexivity.
  - rewrite get_copy_scalars_other, get_copy_geo_other by reflexivity.
    unfold copy_alias.
    destruct (raw_AliasTarget record) as [a|].
    + rewrite get_set_if, String.eqb_refl, andb_true_r.
      destruct (alias_truthy a); [reflexivity|].
      now rewrite get_copy_records_other.
    + now rewrite get_copy_records_other.
  - rewrite get_copy_scalars_other by reflexivity.
    unfold copy_geo.
    destruct (raw_GeoLocation record) as [g|].
    + rewrite get_set_if, String.eqb_refl, andb_true_r.
      destruct (geo_truthy g); [reflexivity|].
      now rewrite get_copy_alias_other, get_copy_records_other.
    + now rewrite get_copy_alias_other, get_copy_records_other.
  - apply Forall_forall. intros key_name Hin.
    rewrite get_set.
    replace (String.eqb "import_id" (to_snake_case key_name)) with false
      by (repeat (destruct Hin as [<-|Hin]; [reflexivity|]); destruct Hin).
    rewrite get_copy_scalars by exact Hin.
    destruct (not_none (raw_get record key_name)); [reflexivity|].
    rewrite get_copy_geo_other, get_copy_alias_other, get_copy_records_other
      by (repeat (destruct Hin as [<-|Hin]; [reflexivity|]); destruct Hin).
    repeat (destruct Hin as [<-|Hin]; [reflexivity|]); destruct Hin.
  - reflexivity.
Qed.

(** ** Import identifiers *)

(** C5: the import id of a normalized record is the zone id, the record's
    full name (the zone name when the full name is empty), the uppercased
    type and, only when the raw record carries a non-empty set identifier,
    that set identifier, joined with the underscore; two normalizations of
    the same raw input give the same import id. *)
Theorem import_id_is_joined_parts :
  forall cfg record zone_name zone_id normalized,
    normalize_record cfg record zone_name zone_id = Some normalized ->
    let full_name := str_field normalized "full_name" in
    let record_type := PyStr.upper (or_str (raw_Type record) "") in
    let name_part := if PyStr.is_empty full_name then zone_name else full_name in
    let set_part :=
      match raw_SetIdentifier record with
      | Some sid => if PyStr.is_empty sid then [] else [sid]
      | None => []
      end in
    Dict.get normalized "import_id"
    = Some (PStr (PyStr.join "_" ([zone_id; name_part; record_type] ++ set_part)%list))
    /\ Dict.get normalized "type" = Some (PStr record_type)
    /\ Dict.get normalized "full_name"
       = Some (PStr (unescape_wildcard (PyStr.rstrip_dot (or_str (raw_Name record) ""))))
    /\ (forall normalized',
           normalize_record cfg record zone_name zone_id = Some normalized' ->
           Dict.get normalized' "import_id" = Dict.get normalized "import_id").
Proof.
  intros cfg record zone_name zone_id normalized H.
  pose proof (normalize_record_fields _ _ _ _ _ H) as F. cbn zeta in F.
  destruct F as (_ & _ & _ & _ & Hfull & Htype & _ & _ & _ & _ & Hid & _).
  cbn zeta. unfold str_field. rewrite Hfull.
  repeat split; try assumption.
  - rewrite Hid. unfold import_id_of, PyStr.truthy.
    destruct (PyStr.is_empty (unescape_wildcard _)); cbn [negb];
      destruct (raw_SetIdentifier record) as [sid|]; try reflexivity;
      destruct (PyStr.is_empty sid); reflexivity.
  - intros normalized' H'. rewrite H in H'. now injection H' as <-.
Qed.

Lemma import_id_is_joined_parts_witness :
  exists normalized,
    normalize_record default_config txt_example "example.com" "Z1" = Some normalized
    /\ Dict.get normalized "import_id" = Some (PStr "Z1_note.example.com_TXT_blue").
Proof.
  eexists. split; [reflexivity|].
  exact (proj1 (import_id_is_joined_parts default_config txt_example "example.com" "Z1"
                  _ eq_refl)).
Defined.

(** ** Geolocation *)

(** C3, as stated, fails: for a raw record whose geolocation carries only a
    country code, the normalized [geo_location] map has the keys
    [continent_code] and [subdivision_code] too, each with the value
    [None]. *)
Lemma geo_absent_subfield_kept_as_none :
  exists raw_geo normalized geo,
    raw_GeoLocation geo_only_country = Some raw_geo
    /\ geo_ContinentCode raw_geo = None
    /\ geo_SubdivisionCode raw_geo = None
    /\ normalize_record default_config geo_only_country "example.com" "Z1" = Some normalized
    /\ Dict.get normalized "geo_location" = Some (PDict geo)
    /\ Dict.get geo "continent_code" = Some PNone
    /\ Dict.get geo "subdivision_code" = Some PNone.
Proof. do 3 eexists. repeat split; reflexivity. Qed.

(** C3, amended: for a raw record with a non-empty geolocation object the
    normalized [geo_location] map always has the three keys
    [continent_code], [country_code], [subdivision_code], in that order,
    holding the raw value where the subfield is present and [None] where it
    is absent; it is the attribute projection that leaves out the absent
    (and the empty) subfields. *)
Theorem geo_location_keeps_three_keys :
  forall cfg record zone_name zone_id normalized geo_location,
    normalize_record cfg record zone_name zone_id = Some normalized ->
    raw_GeoLocation record = Some geo_location ->
    geo_truthy geo_location = true ->
    Dict.get normalized "geo_location"
    = Some (PDict [("continent_code", of_opt_str (geo_ContinentCode geo_location));
                   ("country_code", of_opt_str (geo_CountryCode geo_location));
                   ("subdivision_code", of_opt_str (geo_SubdivisionCode geo_location))])
    /\ (let projected := build_geo_attributes (normalize_geo geo_location) in
        Dict.get projected "continent" = nonempty_opt (geo_ContinentCode geo_location)
        /\ Dict.get projected "country" = nonempty_opt (geo_CountryCode geo_location)
        /\ Dict.get projected "subdivision" = nonempty_opt (geo_SubdivisionCode geo_location)).
Proof.
  intros cfg record zone_name zone_id normalized g H Hg Ht.
  pose proof (normalize_record_fields _ _ _ _ _ H) as F. cbn zeta in F.
  destruct F as (_ & _ & _ & _ & _ & _ & _ & _ & Hgeo & _).
  rewrite Hg, Ht in Hgeo. split; [exact Hgeo|].
  cbn zeta. unfold build_geo_attributes, normalize_geo, nonempty_opt.
  destruct (geo_ContinentCode g) as [[|c1 s1]|], (geo_CountryCode g) as [[|c2 s2]|],
    (geo_SubdivisionCode g) as [[|c3 s3]|]; repeat split; reflexivity.
Qed.

Lemma geo_location_keeps_three_keys_witness :
  exists normalized,
    normalize_record default_config geo_only_country "example.com" "Z1" = Some normalized
    /\ Dict.get normalized "geo_location"
       = Some (PDict [("continent_code", PNone); ("country_code", PStr "US");
                      ("subdivision_code", PNone)]).
Proof.
  eexists. split; [reflexivity|].
  exact (proj1 (geo_location_keeps_three_keys default_config geo_only_country
                  "example.com" "Z1" _ _ eq_refl eq_refl eq_refl)).
Defined.

(** ** Wildcards *)

Lemma normalize_record_kept (cfg : Config) (record : RawRecord)
    (zone_name zone_id : string) :
  str_in (PyStr.upper (or_str (raw_Type record) "")) (skip_record_types cfg) = false ->
  exists normalized, normalize_record cfg record zone_name zone_id = Some normalized.
Proof.
  intros H. unfold normalize_record. cbv zeta. rewrite H.
  destruct (build_record_key _ _ _) as [[key_base relative_name] subdomain]. eauto.
Qed.

Lemma lower_upper_ascii_char (c : ascii) :
  (PyStr.code c <? 128)%nat = true ->
  (PyStr.code c =? 223)%nat = false
  /\ PyStr.lower_char (PyStr.upper_char c) = PyStr.lower_char c.
Proof.
  destruct c as [[] [] [] [] [] [] [] []]; cbv; intros H;
    try discriminate H; split; reflexivity.
Qed.

Lemma lower_upper_ascii (s : string) :
  PyStr.forallb (fun c => (PyStr.code c <? 128)%nat) s = true ->
  PyStr.lower (PyStr.upper s) = PyStr.lower s.
Proof.
  unfold PyStr.lower. induction s as [|c r IH]; [reflexivity|].
  cbn [PyStr.forallb]. intros H. apply andb_true_iff in H. destruct H as [Hc Hr].
  destruct (lower_upper_ascii_char c Hc) as [H1 H2].
  cbn [PyStr.upper PyStr.map]. rewrite H1. cbn [PyStr.map]. now rewrite H2, (IH Hr).
Qed.

(** C7: a raw record named [\052.example.com] (with or without the
    trailing dot) under the zone [example.com], of a type that is not
    skipped, is normalized, to the full name [*.example.com], the relative
    name [*], the subdomain [star] and a key base made of the lowercased
    type and [_star], where the type is the one the normalized record
    stores, the upper-cased raw type (for a raw type of ASCII characters
    this is the lowercased raw type); in general the full name and the
    alias target name are the raw names, trailing dots removed, with every
    [\052] replaced by [*]. *)
Theorem wildcard_is_restored :
  forall cfg record zone_id,
    PyStr.rstrip_dot (or_str (raw_Name record) "") = "\052.example.com" ->
    str_in (PyStr.upper (or_str (raw_Type record) "")) (skip_record_types cfg) = false ->
    (exists normalized,
        normalize_record cfg record "example.com" zone_id = Some normalized
        /\ Dict.get normalized "full_name" = Some (PStr "*.example.com")
        /\ Dict.get normalized "relative_name" = Some (PStr "*")
        /\ Dict.get normalized "subdomain" = Some (PStr "star")
        /\ Dict.get normalized "type"
           = Some (PStr (PyStr.upper (or_str (raw_Type record) "")))
        /\ Dict.get normalized "key_base"
           = Some (PStr (PyStr.lower (PyStr.upper (or_str (raw_Type record) ""))
                         ++ "_star"))
        /\ (PyStr.forallb (fun c => (PyStr.code c <? 128)%nat)
              (or_str (raw_Type record) "") = true ->
            Dict.get normalized "key_base"
            = Some (PStr (PyStr.lower (or_str (raw_Type record) "") ++ "_star"))))
    /\ (forall cfg' record' zone_name' zone_id' normalized',
           normalize_record cfg' record' zone_name' zone_id' = Some normalized' ->
           Dict.get normalized' "full_name"
           = Some (PStr (PyStr.replace "\052" "*"
                           (PyStr.rstrip_dot (or_str (raw_Name record') ""))))
           /\ (forall alias_target,
                  raw_AliasTarget record' = Some alias_target ->
                  alias_truthy alias_target = true ->
                  exists alias,
                    Dict.get normalized' "alias" = Some (PDict alias)
                    /\ Dict.get alias "name"
                       = Some (PStr (PyStr.replace "\052" "*"
                                       (PyStr.rstrip_dot
                                          (or_str (at_DNSName alias_target) "")))))).
Proof.
  intros cfg record zone_id Hname Hkept.
  split.
  - destruct (normalize_record_kept cfg record "example.com" zone_id Hkept)
      as [normalized H].
    exists normalized. split; [exact H|].
    pose proof (normalize_record_fields _ _ _ _ _ H) as F. cbn zeta in F.
    rewrite Hname in F.
    destruct F as (_ & Hkey & Hrel & Hsub & Hfull & Htype & _).
    repeat split; try assumption.
    intros Hascii. rewrite Hkey. now rewrite (lower_upper_ascii _ Hascii).
  - clear. intros cfg record zone_name zone_id normalized H.
    pose proof (normalize_record_fields _ _ _ _ _ H) as F. cbn zeta in F.
    destruct F as (_ & _ & _ & _ & Hfull & _ & _ & Halias & _).
    split; [exact Hfull|].
    intros a Ha Ht. rewrite Ha, Ht in Halias.
    eexists. split; [exact Halias|].
    unfold normalize_alias.
    destruct (at_EvaluateTargetHealth a); reflexivity.
Qed.

Lemma wildcard_is_restored_witness :
  exists normalized,
    normalize_record default_config wildcard_example "example.com" "Z1" = Some normalized
    /\ Dict.get normalized "full_name" = Some (PStr "*.example.com")
    /\ Dict.get normalized "relative_name" = Some (PStr "*")
    /\ Dict.get normalized "subdomain" = Some (PStr "star")
    /\ Dict.get normalized "type" = Some (PStr "CNAME")
    /\ Dict.get normalized "key_base" = Some (PStr "cname_star").
Proof.
  destruct (proj1 (wildcard_is_restored default_config wildcard_example "Z1"
                     eq_refl eq_refl))
    as (normalized & H & Hfull & Hrel & Hsub & Htype & Hkey & _).
  exists normalized. repeat split; assumption.
Defined.

(** ** Record values *)

Lemma prefix_char (a c : ascii) (r : string) :
  String.prefix (String a "") (String c r) = Ascii.eqb a c.
Proof.
  simpl. destruct (ascii_dec a c) as [->|N].
  - rewrite Ascii.eqb_refl. now destruct r.
  - symmetry. now apply Ascii.eqb_neq.
Qed.

Lemma percent_sub_without_percent (s : string) :
  PyStr.contains s "%" = false -> percent_sub s = s.
Proof.
  induction s as [|c r IH]; [reflexivity|].
  cbn [PyStr.contains percent_sub]. rewrite prefix_char.
  intros H. apply orb_false_iff in H. destruct H as [Hc Hr].
  rewrite Ascii.eqb_sym, Hc. now rewrite IH.
Qed.

Lemma escape_percent_signs_sub (value : string) :
  escape_percent_signs value = percent_sub value.
Proof.
  unfold escape_percent_signs.
  destruct value as [|c r]; [reflexivity|].
  cbn [PyStr.is_empty orb].
  destruct (PyStr.contains (String c r) "%") eqn:E; [reflexivity|].
  symmetry. now apply percent_sub_without_percent.
Qed.

Lemma concat_empty_cons (x : string) (l : list string) :
  String.concat "" (x :: l) = x ++ String.concat "" l.
Proof.
  destruct l; simpl; [now rewrite append_nil_r | reflexivity].
Qed.

Lemma escaped_at_shift (c : ascii) (r : string) (i : nat) :
  escaped_at (String c r) (S i) = escaped_at r i.
Proof. reflexivity. Qed.

Lemma percent_sub_spec (s : string) : percent_sub s = escape_percent_spec s.
Proof.
  unfold escape_percent_spec.
  induction s as [|c r IH]; [reflexivity|].
  cbn [String.length seq List.map]. rewrite concat_empty_cons.
  rewrite <- seq_shift, map_map.
  rewrite (map_ext _ (escaped_at r) (escaped_at_shift c r)), <- IH.
  unfold escaped_at. cbn [String.get percent_sub].
  destruct (Ascii.eqb c "%"); cbn [andb]; [|reflexivity].
  destruct r as [|d r']; [reflexivity|].
  rewrite prefix_char. cbn [String.get]. rewrite Ascii.eqb_sym.
  destruct (Ascii.eqb d "%"); reflexivity.
Qed.

Lemma remove_last_append_char (s : string) (c : ascii) :
  remove_last (s ++ String c "") = s.
Proof.
  induction s as [|x r IH]; [reflexivity|].
  cbn [append remove_last]. rewrite IH.
  now destruct r.
Qed.

Lemma slice_quoted (inner : string) : slice_1_m1 (quote ++ inner ++ quote) = inner.
Proof. unfold slice_1_m1, quote. cbn [append PyStr.drop]. apply remove_last_append_char. Qed.

(** C6: a record whose type is not skipped is normalized, and its values
    are stored in order, each one converted as follows.  For a [TXT] or
    [SPF] record a value that starts and ends with a double quote loses
    exactly one outer pair of quotes and has every backslash-escaped quote
    replaced by a plain quote; after that every value, whatever the record
    type, has each percent sign that is not followed by another percent sign
    doubled. *)
Theorem values_unquoted_and_percent_escaped :
  (forall cfg record zone_name zone_id e rr,
      str_in (PyStr.upper (or_str (raw_Type record) "")) (skip_record_types cfg) = false ->
      raw_ResourceRecords record = Some (e :: rr) ->
      exists normalized,
        normalize_record cfg record zone_name zone_id = Some normalized
        /\ Dict.get normalized "records"
           = Some (PList (List.map
                            (fun entry =>
                               PStr (normalize_entry_value
                                       (PyStr.upper (or_str (raw_Type record) "")) entry))
                            (e :: rr))))
  /\ (forall record_type value,
         str_in record_type ["TXT"; "SPF"] = true ->
         PyStr.startswith value quote = true ->
         PyStr.endswith value quote = true ->
         normalize_entry_value record_type {| rr_Value := Some value |}
         = escape_percent_spec (PyStr.replace escaped_quote quote (slice_1_m1 value)))
  /\ (forall inner, slice_1_m1 (quote ++ inner ++ quote) = inner)
  /\ (forall record_type value,
         str_in record_type ["TXT"; "SPF"]
         && PyStr.startswith value quote && PyStr.endswith value quote = false ->
         normalize_entry_value record_type {| rr_Value := Some value |}
         = escape_percent_spec value)
  /\ normalize_entry_value "TXT"
       {| rr_Value := Some (quote ++ "hello \" ++ quote ++ "world\" ++ quote ++ quote) |}
     = "hello " ++ quote ++ "world" ++ quote
  /\ normalize_entry_value "A" {| rr_Value := Some "50% off" |} = "50%% off".
Proof.
  split; [|split; [|split; [|split; [|split]]]].
  - intros cfg record zone_name zone_id e rr Hkept Hrr.
    destruct (normalize_record_kept cfg record zone_name zone_id Hkept) as [normalized H].
    exists normalized. split; [exact H|].
    pose proof (normalize_record_fields _ _ _ _ _ H) as F. cbn zeta in F.
    destruct F as (_ & _ & _ & _ & _ & _ & Hrec & _).
    now rewrite Hrr in Hrec.
  - intros record_type value Ht Hs He.
    unfold normalize_entry_value. cbn [rr_Value].
    rewrite Ht, Hs, He. cbn [andb].
    now rewrite escape_percent_signs_sub, percent_sub_spec.
  - apply slice_quoted.
  - intros record_type value H.
    unfold normalize_entry_value. cbn [rr_Value].
    rewrite H. now rewrite escape_percent_signs_sub, percent_sub_spec.
  - reflexivity.
  - reflexivity.
Qed.

Lemma values_unquoted_and_percent_escaped_witness :
  (exists normalized,
      normalize_record default_config txt_example "example.com" "Z1" = Some normalized
      /\ Dict.get normalized "records"
         = Some (PList [PStr ("hello " ++ quote ++ "world" ++ quote); PStr "50%% off"]))
  /\ normalize_entry_value "SPF"
       {| rr_Value := Some (quote ++ "v=spf1 \" ++ quote ++ "x\" ++ quote ++ " 5%" ++ quote) |}
     = "v=spf1 " ++ quote ++ "x" ++ quote ++ " 5%%".
Proof.
  split.
  - exact (proj1 values_unquoted_and_percent_escaped default_config txt_example
             "example.com" "Z1" _ _ eq_refl eq_refl).
  - exact (proj1 (proj2 values_unquoted_and_percent_escaped) "SPF"
             (quote ++ "v=spf1 \" ++ quote ++ "x\" ++ quote ++ " 5%" ++ quote)
             eq_refl eq_refl eq_refl).
Defined.

(** ** Hostname filters *)

Section FilterFacts.
Variable Pattern : Type.
Variable re_compile : string -> bool -> option Pattern.
Variable search : Pattern -> string -> bool.

Lemma dropped_by_skip_iff (cfg : Config) (skip_patterns : list Pattern)
    (normalized : pydict) :
  dropped_by_skip Pattern search cfg skip_patterns normalized = true
  <-> str_in (str_field normalized "type") (skippable_import_types cfg) = true
      /\ exists pattern,
           In pattern skip_patterns
           /\ search pattern (str_field normalized "full_name") = true.
Proof.
  unfold dropped_by_skip. rewrite !andb_true_iff, existsb_exists.
  split.
  - intros [[_ Ht] Hp]. now split.
  - intros [Ht [p [Hin Hp]]]. repeat split; try assumption.
    + now destruct skip_patterns.
    + now exists p.
Qed.

Lemma dropped_by_include_iff (include_patterns : list Pattern) (normalized : pydict) :
  dropped_by_include Pattern search include_patterns normalized = false
  <-> include_patterns = []
      \/ exists pattern,
           In pattern include_patterns
           /\ search pattern (str_field normalized "full_name") = true.
Proof.
  unfold dropped_by_include. rewrite andb_false_iff, negb_false_iff, existsb_exists.
  split.
  - intros [H|H]; [left; now destruct include_patterns | now right].
  - intros [->|H]; [now left | now right].
Qed.

Lemma filter_records_In (cfg : Config) (skip_patterns include_patterns : list Pattern)
    (zone_name zone_id : string) (items : list RawRecord) :
  forall records normalized,
    In normalized
      (filter_records Pattern search cfg skip_patterns include_patterns
         zone_name zone_id items records)
    <-> In normalized records
        \/ exists item,
             In item items
             /\ normalize_record cfg item zone_name zone_id = Some normalized
             /\ dropped_by_skip Pattern search cfg skip_patterns normalized = false
             /\ dropped_by_include Pattern search include_patterns normalized = false.
Proof.
  induction items as [|item rest IH]; intros records normalized; cbn [filter_records].
  - split; [now left | intros [H|[item [[] _]]]; exact H].
  - destruct (normalize_record cfg item zone_name zone_id) as [n|] eqn:N.
    + destruct (dropped_by_skip Pattern search cfg skip_patterns n) eqn:S;
        [|destruct (dropped_by_include Pattern search include_patterns n) eqn:I];
        rewrite IH; try rewrite in_app_iff; cbn [In];
        (split;
         [ intros [H|H];
           [ try (destruct H as [H|[<-|[]]]);
             first [ now left | right; exists item; now repeat split; try left ]
           | destruct H as [x [Hin Hx]]; right; exists x; split; [now right | exact Hx] ]
         | intros [H|[x [[<-|Hin] (Hn & Hs & Hi)]]];
           [ now repeat left
           | rewrite N in Hn; injection Hn as <-;
             first [ congruence | left; right; now left ]
           | right; exists x; now repeat split ] ]).
    + rewrite IH. split.
      * intros [H|[x [Hin Hx]]]; [now left | right; exists x; split; [now right | exact Hx]].
      * intros [H|[x [[<-|Hin] (Hn & Hs & Hi)]]];
          [now left | congruence | right; exists x; now repeat split].
Qed.

Lemma compile_all_ignorecase (expressions : list string) :
  forall patterns,
    compile_all Pattern re_compile expressions = Some patterns ->
    Forall (fun pattern => exists expression,
                In expression expressions
                /\ re_compile expression true = Some pattern) patterns.
Proof.
  induction expressions as [|e rest IH]; intros patterns; cbn [compile_all].
  - intros H. injection H as <-. constructor.
  - destruct (re_compile e true) as [p|] eqn:C; [|discriminate].
    destruct (compile_all Pattern re_compile rest) as [ps|]; [|discriminate].
    intros H. injection H as <-. constructor.
    + exists e. split; [now left | exact C].
    + eapply Forall_impl; [|exact (IH ps eq_refl)].
      intros p' [e' [Hin He']]. exists e'. split; [now right | exact He'].
Qed.

End FilterFacts.

(** C4: the exclude patterns drop a normalized record exactly when its type
    is in the skippable set ([A] and [CNAME] by default) and its full name
    matches one of them, so a record of another type, such as [MX], is never
    dropped by them; a non-empty list of include patterns keeps a record
    exactly when its full name matches one of them, whatever its type; and
    every pattern is compiled with [re.IGNORECASE]. *)
Theorem filter_asymmetry :
  forall (Pattern : Type) (re_compile : string -> bool -> option Pattern)
         (search : Pattern -> string -> bool),
    (forall cfg skip_patterns normalized,
        dropped_by_skip Pattern search cfg skip_patterns normalized = true
        <-> str_in (str_field normalized "type") (skippable_import_types cfg) = true
            /\ exists pattern,
                 In pattern skip_patterns
                 /\ search pattern (str_field normalized "full_name") = true)
    /\ skippable_import_types default_config = ["A"; "CNAME"]
    /\ (forall skip_patterns normalized,
           str_field normalized "type" = "MX" ->
           dropped_by_skip Pattern search default_config skip_patterns normalized = false)
    /\ (forall include_patterns normalized,
           include_patterns <> [] ->
           (dropped_by_include Pattern search include_patterns normalized = false
            <-> exists pattern,
                  In pattern include_patterns
                  /\ search pattern (str_field normalized "full_name") = true))
    /\ (forall normalized, dropped_by_include Pattern search [] normalized = false)
    /\ (forall cfg skip_patterns include_patterns zone_name zone_id items normalized,
           In normalized
             (filter_records Pattern search cfg skip_patterns include_patterns
                zone_name zone_id items [])
           <-> exists item,
                 In item items
                 /\ normalize_record cfg item zone_name zone_id = Some normalized
                 /\ dropped_by_skip Pattern search cfg skip_patterns normalized = false
                 /\ dropped_by_include Pattern search include_patterns normalized = false)
    /\ (forall raw patterns,
           parse_hostname_patterns Pattern re_compile raw = Some patterns ->
           Forall (fun pattern => exists expression,
                       re_compile expression true = Some pattern) patterns).
Proof.
  intros Pattern re_compile search.
  split; [|split; [|split; [|split; [|split; [|split]]]]].
  - apply dropped_by_skip_iff.
  - reflexivity.
  - intros skip_patterns normalized Ht.
    destruct (dropped_by_skip Pattern search default_config skip_patterns normalized) eqn:E;
      [|reflexivity].
    apply dropped_by_skip_iff in E. destruct E as [E _].
    rewrite Ht in E. discriminate E.
  - intros include_patterns normalized Hne.
    rewrite dropped_by_include_iff. split; [intros [H|H]; [contradiction | exact H] | now right].
  - reflexivity.
  - intros. rewrite filter_records_In. cbn [In]. split; [intros [[]|H]; exact H | now right].
  - intros raw patterns H.
    eapply Forall_impl; [|exact (compile_all_ignorecase _ _ _ _ H)].
    intros p [e [_ He]]. now exists e.
Qed.

Lemma filter_asymmetry_witness :
  dropped_by_skip string substring_search default_config ["mail"]
    [("full_name", PStr "mail.example.com"); ("type", PStr "MX")] = false
  /\ dropped_by_skip string substring_search default_config ["mail"]
       [("full_name", PStr "MAIL.example.com"); ("type", PStr "A")] = true.
Proof.
  split.
  - exact (proj1 (proj2 (proj2 (filter_asymmetry string (fun e _ => Some e) substring_search)))
             ["mail"] [("full_name", PStr "mail.example.com"); ("type", PStr "MX")] eq_refl).
  - apply (proj1 (filter_asymmetry string (fun e _ => Some e) substring_search)).
    split; [reflexivity|]. exists "mail". split; [now left | reflexivity].
Defined.

(** ** Attribute projection *)

Lemma set_fresh {V : Type} (d : list (string * V)) (k : string) (v : V) :
  Dict.get d k = None -> Dict.set d k v = (d ++ [(k, v)])%list.
Proof.
  induction d as [|[k' v'] r IH]; simpl; [reflexivity|].
  destruct (String.eqb k' k); [discriminate|].
  intros H. now rewrite IH.
Qed.

Lemma set_if_fresh (c : bool) (d : pydict) (k : string) (v : pyval) :
  Dict.get d k = None -> set_if c k v d = (d ++ present [(k, when c v)])%list.
Proof.
  intros H. destruct c; simpl.
  - now apply set_fresh.
  - now rewrite app_nil_r.
Qed.

Lemma build_alias_attributes_present (alias : pydict) :
  build_alias_attributes alias = present (alias_fields alias).
Proof.
  unfold build_alias_attributes, alias_fields.
  destruct (truthy (pyget alias "name")), (truthy (pyget alias "zone_id")),
    (not_none (pyget alias "evaluate_target_health")); reflexivity.
Qed.

Lemma build_geo_attributes_present (geo_location : pydict) :
  build_geo_attributes geo_location = present (geo_fields geo_location).
Proof.
  unfold build_geo_attributes, geo_fields. cbn [List.fold_left GEO_MAPPING].
  destruct (truthy (pyget geo_location "continent_code")),
    (truthy (pyget geo_location "country_code")),
    (truthy (pyget geo_location "subdivision_code")); reflexivity.
Qed.

Lemma get_app {V : Type} (a b : list (string * V)) (k : string) :
  Dict.get (a ++ b) k
  = match Dict.get a k with Some v => Some v | None => Dict.get b k end.
Proof.
  induction a as [|[k' v'] r IH]; simpl; [reflexivity|].
  now destruct (String.eqb k' k).
Qed.

Lemma get_present_one (k' k : string) (o : option pyval) :
  Dict.get (present [(k', o)]) k = if String.eqb k' k then o else None.
Proof.
  unfold present. simpl. destruct o; simpl; now destruct (String.eqb k' k).
Qed.

Ltac fresh_key :=
  repeat (rewrite ?get_app, ?get_set_if, ?get_set, ?get_present_one;
          cbn [String.eqb Ascii.eqb Bool.eqb andb Dict.get]);
  rewrite ?andb_false_r; reflexivity.

Lemma build_record_attributes_present (record attributes : pydict) :
  build_record_attributes record = Some attributes ->
  attributes = present (projected_fields record).
Proof.
  unfold build_record_attributes.
  destruct (Dict.get record "full_name") as [full_name|] eqn:Hfull; [|discriminate].
  cbn [List.fold_left].
  unfold projected_fields, copied, geo_dict.
  rewrite Hfull.
  assert (Hrec : when (truthy (pyget record "records")) (pyget record "records")
                 = when (truthy match Dict.get record "records" with
                                | Some v => v | None => PList [] end)
                     match Dict.get record "records" with
                     | Some v => v | None => PList [] end).
  { unfold pyget. now destruct (Dict.get record "records"). }
  rewrite Hrec. clear Hrec.
  rewrite <- build_geo_attributes_present.
  set (type_value := match Dict.get record "type" with Some t => t | None => PStr "" end).
  set (records_value := match Dict.get record "records" with
                        | Some v => v | None => PList [] end).
  change (Dict.set (Dict.set [] "full_name" full_name) "type" type_value)
    with [("full_name", full_name); ("type", type_value)].
  assert (Hgeo : forall attributes0 : pydict,
             Dict.get attributes0 "geolocation_routing_policy" = None ->
             match (if truthy (pyget record "geo_location")
                    then as_dict (pyget record "geo_location") else Some []) with
             | Some geo_location =>
                 Some (set_if (truthy (PDict (build_geo_attributes geo_location)))
                         "geolocation_routing_policy"
                         (PDict (build_geo_attributes geo_location)) attributes0)
             | None => None
             end = Some attributes ->
             attributes
             = (attributes0
                ++ present
                     [("geolocation_routing_policy",
                       when (nonempty (build_geo_attributes
                                         match pyget record "geo_location" with
                                         | PDict d => d | _ => [] end))
                         (PDict (build_geo_attributes
                                   match pyget record "geo_location" with
                                   | PDict d => d | _ => [] end)))])%list).
  { intros attributes0 Hfresh.
    destruct (pyget record "geo_location") as [|b|z|t|s|l|[|e g]];
      cbn [truthy as_dict]; try discriminate;
      try (destruct b); try (destruct (negb (z =? 0)%Z));
      try (destruct (negb (String.eqb t "0.0" || String.eqb t "-0.0")));
      try (destruct (PyStr.truthy s)); try (destruct l); try discriminate;
      intros H; injection H as <-;
      first [now rewrite set_if_fresh | cbn; now rewrite app_nil_r]. }
  destruct (pyget record "alias") as [|b|z|t|s|l|[|e a]] eqn:Halias;
    cbn [truthy as_dict option_map];
    try (destruct b); try (destruct (negb (z =? 0)%Z));
    try (destruct (negb (String.eqb t "0.0" || String.eqb t "-0.0")));
    try (destruct (PyStr.truthy s)); try (destruct l);
    try discriminate;
    intros H; apply Hgeo in H; try fresh_key;
    rewrite H; clear H Hgeo;
    try rewrite build_alias_attributes_present;
    repeat (rewrite set_if_fresh by fresh_key);
    try (rewrite (set_fresh _ "alias") by fresh_key);
    unfold present; cbn [List.flat_map fst snd]; rewrite ?app_nil_r;
    repeat rewrite <- app_assoc; reflexivity.
Qed.

Lemma get_In {V : Type} (d : list (string * V)) (k : string) (v : V) :
  Dict.get d k = Some v -> In (k, v) d.
Proof.
  induction d as [|[k' v'] r IH]; simpl; [discriminate|].
  destruct (String.eqb k' k) eqn:E.
  - apply String.eqb_eq in E. intros H. injection H as <-. subst. now left.
  - intros H. right. now apply IH.
Qed.

Lemma in_present (fields : list (string * option pyval)) (k : string) (v : pyval) :
  In (k, v) (present fields) <-> In (k, Some v) fields.
Proof.
  unfold present. rewrite in_flat_map. split.
  - intros [[k' [v'|]] [Hin H]]; cbn [fst snd In] in H; [|contradiction].
    destruct H as [H|[]]. now injection H as <- <-.
  - intros Hin. exists (k, Some v). split; [exact Hin | now left].
Qed.

Lemma keys_present_in (fields : list (string * option pyval)) (k : string) :
  Dict.mem (present fields) k = true -> In k (List.map fst fields).
Proof.
  unfold Dict.mem. destruct (Dict.get (present fields) k) as [v|] eqn:G; [|discriminate].
  intros _. apply get_In, in_present in G.
  apply (in_map fst) in G. exact G.
Qed.

Lemma keys_present (fields : list (string * option pyval)) :
  NoDup (List.map fst fields) ->
  Dict.keys (present fields)
  = List.filter (Dict.mem (present fields)) (List.map fst fields).
Proof.
  induction fields as [|[k o] fs IH]; [reflexivity|].
  cbn [List.map fst]. intros ND. inversion ND as [|? ? Hk Hfs]. subst.
  specialize (IH Hfs).
  destruct o as [v|].
  - change (present ((k, Some v) :: fs)) with ((k, v) :: present fs).
    cbn [Dict.keys List.map fst List.filter]. unfold Dict.mem at 1.
    cbn [Dict.get]. rewrite String.eqb_refl.
    f_equal. fold (Dict.keys (present fs)). rewrite IH.
    apply filter_ext_in. intros k' Hin. unfold Dict.mem. cbn [Dict.get].
    destruct (String.eqb k k') eqn:E; [|reflexivity].
    apply String.eqb_eq in E. subst. contradiction.
  - change (present ((k, None) :: fs)) with (present fs).
    cbn [List.filter].
    destruct (Dict.mem (present fs) k) eqn:M; [|exact IH].
    apply keys_present_in in M. contradiction.
Qed.

Lemma get_present (fields : list (string * option pyval)) (k : string) :
  NoDup (List.map fst fields) ->
  Dict.get (present fields) k
  = match Dict.get fields k with Some o => o | None => None end.
Proof.
  induction fields as [|[k' o] fs IH]; [reflexivity|].
  cbn [List.map fst]. intros ND. inversion ND as [|? ? Hk Hfs]. subst.
  specialize (IH Hfs). cbn [Dict.get].
  destruct o as [v|].
  - change (present ((k', Some v) :: fs)) with ((k', v) :: present fs).
    cbn [Dict.get]. now destruct (String.eqb k' k).
  - change (present ((k', None) :: fs)) with (present fs).
    destruct (String.eqb k' k) eqn:E; [|exact IH].
    apply String.eqb_eq in E. subst k'.
    destruct (Dict.get (present fs) k) as [v|] eqn:G; [|reflexivity].
    exfalso. apply Hk. apply keys_present_in. unfold Dict.mem. now rewrite G.
Qed.

Lemma field_order_nodup : NoDup FIELD_ORDER.
Proof.
  unfold FIELD_ORDER.
  repeat (constructor; [cbn [In]; intros Hin;
                        repeat (destruct Hin as [Hin|Hin]; [discriminate Hin|]);
                        exact Hin |]).
  constructor.
Qed.

Lemma projected_fields_order (record : pydict) :
  List.map fst (projected_fields record) = FIELD_ORDER.
Proof. reflexivity. Qed.

Lemma when_not_none (c : bool) (x v : pyval) :
  when c x = Some v -> (c = true -> x <> PNone) -> v <> PNone.
Proof. unfold when. destruct c; [|discriminate]. intros H. injection H as <-. auto. Qed.

Lemma truthy_not_none (x : pyval) : truthy x = true -> x <> PNone.
Proof. intros H ->. discriminate H. Qed.

Lemma not_none_true (x : pyval) : not_none x = true -> x <> PNone.
Proof. intros H ->. discriminate H. Qed.

Lemma present_alias_no_null (alias : pydict) :
  Forall (fun entry => snd entry <> PNone) (present (alias_fields alias)).
Proof.
  apply Forall_forall. intros [k v] Hin. apply in_present in Hin.
  unfold alias_fields in Hin. cbn [In snd] in *.
  repeat (destruct Hin as [H|Hin];
          [injection H as _ H; apply (when_not_none _ _ _ H);
           first [apply truthy_not_none | apply not_none_true] |]).
  destruct Hin.
Qed.

Lemma present_geo_no_null (geo_location : pydict) :
  Forall (fun entry => snd entry <> PNone) (present (geo_fields geo_location)).
Proof.
  apply Forall_forall. intros [k v] Hin. apply in_present in Hin.
  unfold geo_fields in Hin. cbn [In snd] in *.
  repeat (destruct Hin as [H|Hin];
          [injection H as _ H; apply (when_not_none _ _ _ H); apply truthy_not_none |]).
  destruct Hin.
Qed.

Ltac scalar_field H Hkey :=
  split;
  [ apply (when_not_none _ _ _ H); first [apply truthy_not_none | apply not_none_true]
  | intros ? _ ?Hk; apply Hkey in Hk; discriminate Hk ].

Lemma projected_no_null (record : pydict) (k : string) (v : pyval) :
  In (k, Some v) (projected_fields record) ->
  k = "full_name" \/ k = "type"
  \/ (v <> PNone
      /\ forall sub, v = PDict sub ->
           In k ["alias"; "latency_routing_policy"; "weighted_routing_policy";
                 "geolocation_routing_policy"] ->
           Forall (fun entry => snd entry <> PNone) sub).
Proof.
  unfold projected_fields, copied. cbn [In].
  intros Hin.
  destruct Hin as [H|Hin]; [injection H as <- _; now left|].
  destruct Hin as [H|Hin]; [injection H as <- _; right; now left|].
  right. right.
  assert (Hkey : forall k0 : string,
             In k0 ["alias"; "latency_routing_policy"; "weighted_routing_policy";
                    "geolocation_routing_policy"] ->
             List.existsb (String.eqb k0)
               ["alias"; "latency_routing_policy"; "weighted_routing_policy";
                "geolocation_routing_policy"] = true).
  { intros k0 Hk. apply existsb_exists. exists k0. split; [exact Hk | apply String.eqb_refl]. }
  destruct Hin as [H|Hin]; [injection H as <- H; scalar_field H Hkey|].
  destruct Hin as [H|Hin]; [injection H as <- H; scalar_field H Hkey|].
  destruct Hin as [H|Hin].
  { injection H as <- H.
    destruct (pyget record "alias") as [| | | | | |[|e a]]; try discriminate.
    injection H as <-. split; [discriminate|].
    intros sub Hs _. injection Hs as <-. apply present_alias_no_null. }
  do 5 (destruct Hin as [H|Hin]; [injection H as <- H; scalar_field H Hkey|]).
  destruct Hin as [H|Hin].
  { injection H as <- H. unfold when in H.
    destruct (truthy (pyget record "region")) eqn:T; [|discriminate].
    injection H as <-. split; [discriminate|].
    intros sub Hs _. injection Hs as <-.
    constructor; [cbn; now apply truthy_not_none | constructor]. }
  destruct Hin as [H|Hin].
  { injection H as <- H. unfold when in H.
    destruct (not_none (pyget record "weight")) eqn:T; [|discriminate].
    injection H as <-. split; [discriminate|].
    intros sub Hs _. injection Hs as <-.
    constructor; [cbn; now apply not_none_true | constructor]. }
  destruct Hin as [H|[]].
  injection H as <- H. cbv zeta in H. unfold when in H.
  match type of H with (if ?c then _ else _) = _ => destruct c end; [|discriminate].
  injection H as <-. split; [discriminate|].
  intros sub Hs _. injection Hs as <-. apply present_geo_no_null.
Qed.

Lemma normalized_record_projects (cfg : Config) (record : RawRecord)
    (zone_name zone_id : string) (normalized : pydict) :
  normalize_record cfg record zone_name zone_id = Some normalized ->
  exists attributes, build_record_attributes normalized = Some attributes.
Proof.
  intros H.
  pose proof (normalize_record_fields _ _ _ _ _ H) as F. cbn zeta in F.
  destruct F as (_ & _ & _ & _ & Hfull & _ & _ & Halias & Hgeo & _).
  unfold build_record_attributes. rewrite Hfull.
  assert (Ha : pyget normalized "alias" = PNone
               \/ exists a, pyget normalized "alias" = PDict a).
  { unfold pyget. rewrite Halias.
    destruct (raw_AliasTarget record) as [a|]; [|now left].
    destruct (alias_truthy a); [right; eauto | now left]. }
  assert (Hg : pyget normalized "geo_location" = PNone
               \/ exists g, pyget normalized "geo_location" = PDict g).
  { unfold pyget. rewrite Hgeo.
    destruct (raw_GeoLocation record) as [g|]; [|now left].
    destruct (geo_truthy g); [right; eauto | now left]. }
  destruct Ha as [-> | [a ->]], Hg as [-> | [g ->]]; cbn [truthy as_dict option_map];
    try (destruct a); try (destruct g); eexists; reflexivity.
Qed.

(** C9: the projected attribute map lists the fields in the fixed order
    [full_name], [type], [ttl], [records], [alias], [set_identifier],
    [health_check_id], [failover], [traffic_policy_instance_id],
    [multivalue_answer], [latency_routing_policy],
    [weighted_routing_policy], [geolocation_routing_policy]; an optional
    field whose source value is absent is left out and none is emitted with
    the value [None]; [multi_value_answer] is emitted as
    [multivalue_answer]; [region] and [weight] give one-entry maps; the
    geolocation map has the keys [continent], [country], [subdivision], each
    only for a present value, and is left out when empty.  The projection of
    a normalized record never raises. *)
Theorem attribute_projection :
  (forall record attributes,
      build_record_attributes record = Some attributes ->
      attributes = present (projected_fields record)
      /\ List.map fst (projected_fields record) = FIELD_ORDER
      /\ Dict.keys attributes = List.filter (Dict.mem attributes) FIELD_ORDER
      /\ (forall k v,
             In (k, v) attributes -> k <> "full_name" -> k <> "type" -> v <> PNone)
      /\ (forall k sub,
             In (k, PDict sub) attributes ->
             In k ["alias"; "latency_routing_policy"; "weighted_routing_policy";
                   "geolocation_routing_policy"] ->
             Forall (fun entry => snd entry <> PNone) sub)
      /\ Dict.get attributes "multi_value_answer" = None
      /\ Dict.get attributes "multivalue_answer"
         = copied record "multi_value_answer")
  /\ (forall cfg record zone_name zone_id normalized,
         normalize_record cfg record zone_name zone_id = Some normalized ->
         exists attributes, build_record_attributes normalized = Some attributes).
Proof.
  split; [|apply normalized_record_projects].
  intros record attributes H.
  apply build_record_attributes_present in H. subst attributes.
  split; [reflexivity|]. split; [reflexivity|].
  split; [|split; [|split; [|split]]].
  - rewrite <- (projected_fields_order record). apply keys_present.
    rewrite projected_fields_order. apply field_order_nodup.
  - intros k v Hin N1 N2. apply in_present in Hin.
    destruct (projected_no_null _ _ _ Hin) as [E|[E|[Hv _]]]; [contradiction..|exact Hv].
  - intros k sub Hin Hk. apply in_present in Hin.
    destruct (projected_no_null _ _ _ Hin) as [E|[E|[_ Hs]]].
    + subst. cbn [In] in Hk. repeat (destruct Hk as [Hk|Hk]; [discriminate Hk|]). destruct Hk.
    + subst. cbn [In] in Hk. repeat (destruct Hk as [Hk|Hk]; [discriminate Hk|]). destruct Hk.
    + now apply Hs.
  - destruct (Dict.get (present (projected_fields record)) "multi_value_answer")
      as [v|] eqn:G; [|reflexivity].
    apply get_In, in_present, (in_map fst) in G.
    rewrite projected_fields_order in G. cbn [fst In FIELD_ORDER] in G.
    repeat (destruct G as [G|G]; [discriminate G|]). destruct G.
  - rewrite get_present
      by (rewrite projected_fields_order; apply field_order_nodup).
    reflexivity.
Qed.

Lemma attribute_projection_witness :
  exists attributes,
    build_record_attributes txt_normalized = Some attributes
    /\ Dict.keys attributes
       = ["full_name"; "type"; "ttl"; "records"; "set_identifier"; "multivalue_answer";
          "weighted_routing_policy"].
Proof.
  eexists. split; [reflexivity|].
  exact (proj1 (proj2 (proj2 (proj1 attribute_projection txt_normalized _ eq_refl)))).
Defined.

(** ** Renderer *)

Lemma identifier_tail_bare (s : string) :
  PyStr.endswith s nl = false -> identifier_tail s = PyStr.forallb PyStr.is_word s.
Proof.
  induction s as [|c r IH]; [reflexivity|].
  cbn [PyStr.endswith identifier_tail PyStr.forallb].
  intros H. apply orb_false_iff in H. destruct H as [Hne Hr].
  destruct (PyStr.is_word c); cbn [andb]; [now apply IH|].
  destruct (Ascii.eqb c "010") eqn:E; [|reflexivity].
  apply Ascii.eqb_eq in E. subst c.
  destruct r; [discriminate Hne | reflexivity].
Qed.

Lemma identifier_match_bare (name : string) :
  PyStr.endswith name nl = false -> identifier_match name = bare_identifier name.
Proof.
  destruct name as [|c r]; [reflexivity|].
  cbn [PyStr.endswith identifier_match bare_identifier].
  intros H. apply orb_false_iff in H. destruct H as [_ Hr].
  now rewrite identifier_tail_bare.
Qed.

Lemma scalar_text_literal (value : pyval) (text : string) :
  scalar_text value = Some text -> to_hcl_literal value = text.
Proof.
  destruct value as [|[]|z|t|s|l|d]; cbn; intros H; try discriminate;
    now injection H as <-.
Qed.

Lemma render_scalar (name : string) (value : pyval) (text : string)
    (indent : nat) (lines : list string) :
  scalar_text value = Some text ->
  render_attribute_block name value indent lines
  = List.app lines
      [if PyStr.truthy name
       then PyStr.indent_str indent ++ format_name name ++ " = " ++ text
       else PyStr.indent_str indent ++ text ++ ","].
Proof.
  intros H. pose proof (scalar_text_literal _ _ H) as L.
  destruct value as [|b|z|t|s|l|d]; try discriminate H;
    cbn [render_attribute_block]; rewrite L;
    destruct (PyStr.truthy name); reflexivity.
Qed.

Lemma render_dict_eq (name : string) (e : string * pyval) (d : list (string * pyval))
    (indent : nat) (lines : list string) :
  render_attribute_block name (PDict (e :: d)) indent lines
  = append_line
      (render_attributes (e :: d) (S indent)
         (append_line lines
            (PyStr.indent_str indent
             ++ (if PyStr.truthy name then format_name name ++ " = {" else "{"))))
      (PyStr.indent_str indent ++ (if PyStr.truthy name then "}" else "},")).
Proof.
  cbn [render_attribute_block].
  replace (if PyStr.truthy name
           then append_line lines (PyStr.indent_str indent ++ format_name name ++ " = {")
           else append_line lines (PyStr.indent_str indent ++ "{"))
    with (append_line lines
            (PyStr.indent_str indent
             ++ (if PyStr.truthy name then format_name name ++ " = {" else "{")))
    by (now destruct (PyStr.truthy name)).
  f_equal.
  generalize (append_line lines
                (PyStr.indent_str indent
                 ++ (if PyStr.truthy name then format_name name ++ " = {" else "{"))).
  intros acc. destruct e as [k0 v0]. cbn [render_attributes].
  generalize (render_attribute_block k0 v0 (S indent) acc). clear.
  induction d as [|[k v] r IH]; intros acc; [reflexivity|]. cbn [render_attributes].
  apply IH.
Qed.

Lemma render_list_eq (name : string) (e : pyval) (l : list pyval)
    (indent : nat) (lines : list string) :
  render_attribute_block name (PList (e :: l)) indent lines
  = append_line
      (render_items (e :: l) (S indent)
         (append_line lines
            (PyStr.indent_str indent
             ++ (if PyStr.truthy name then format_name name ++ " = [" else "["))))
      (PyStr.indent_str indent ++ (if PyStr.truthy name then "]" else "],")).
Proof.
  cbn [render_attribute_block].
  replace (if PyStr.truthy name
           then append_line lines (PyStr.indent_str indent ++ format_name name ++ " = [")
           else append_line lines (PyStr.indent_str indent ++ "["))
    with (append_line lines
            (PyStr.indent_str indent
             ++ (if PyStr.truthy name then format_name name ++ " = [" else "[")))
    by (now destruct (PyStr.truthy name)).
  f_equal.
  generalize (append_line lines
                (PyStr.indent_str indent
                 ++ (if PyStr.truthy name then format_name name ++ " = [" else "["))).
  intros acc. cbn [render_items].
  generalize (render_attribute_block "" e (S indent) acc). clear.
  induction l as [|v r IH]; intros acc; [reflexivity|]. cbn [render_items].
  apply IH.
Qed.

(** C8, as stated, fails on the empty key: the entry is rendered without any
    key, as an anonymous element with a trailing comma, not under a quoted
    string key. *)
Lemma empty_key_rendered_without_key :
  bare_identifier "" = false
  /\ render_attribute_block "tags" (PDict [("", PStr "v")]) 0 []
     = ["tags = {"; "  " ++ json_string "v" ++ ","; "}"]
  /\ render_attribute_block "tags" (PDict [("", PStr "v")]) 0 []
     <> ["tags = {"; "  " ++ json_string "" ++ " = " ++ json_string "v"; "}"].
Proof. split; [reflexivity | split; [reflexivity | discriminate]]. Qed.

(** A float is written as the text [str] gives for it, which is not a
    decimal literal for large, small or non-finite values. *)
Example float_rendered_as_its_text :
  render_attribute_block "weight" (PFloat "0.5") 0 [] = ["weight = 0.5"]
  /\ to_hcl_literal (PFloat "1e+22") = "1e+22"
  /\ to_hcl_literal (PFloat "nan") = "nan".
Proof. repeat split. Qed.

(** C8, amended: a boolean leaf renders as [true] or [false], [None] as
    [null], an integer as its decimal literal, a float as the text [str]
    gives for it, a string as its JSON string literal, none of them in added
    quotes; an entry whose key is not empty and does not end in a newline
    has the key bare exactly when it is a letter or underscore followed by
    letters, digits and underscores, and as a JSON string literal otherwise;
    an entry whose key is the empty string is rendered as an anonymous
    element without a key: a scalar followed by a comma, an empty map as
    [{},], an empty list as [[]] without a comma, a map or list that is
    not empty between a line [{] or [[] and a line [},] or [],]. *)
Theorem render_scalars_and_keys :
  (forall value text,
      scalar_text value = Some text ->
      to_hcl_literal value = text
      /\ forall name indent lines,
           render_attribute_block name value indent lines
           = List.app lines
               [if PyStr.truthy name
                then PyStr.indent_str indent ++ format_name name ++ " = " ++ text
                else PyStr.indent_str indent ++ text ++ ","])
  /\ (forall name,
         PyStr.truthy name = true ->
         PyStr.endswith name nl = false ->
         format_name name = if bare_identifier name then name else json_string name)
  /\ (forall name indent lines,
         render_attribute_block name (PDict []) indent lines
         = List.app lines
             [if PyStr.truthy name
              then PyStr.indent_str indent ++ format_name name ++ " = {}"
              else PyStr.indent_str indent ++ "{},"]
         /\ render_attribute_block name (PList []) indent lines
            = List.app lines
                [if PyStr.truthy name
                 then PyStr.indent_str indent ++ format_name name ++ " = []"
                 else PyStr.indent_str indent ++ "[]"])
  /\ (forall name entry entries indent lines,
         render_attribute_block name (PDict (entry :: entries)) indent lines
         = List.app
             (render_attributes (entry :: entries) (S indent)
                (List.app lines
                   [if PyStr.truthy name
                    then PyStr.indent_str indent ++ format_name name ++ " = {"
                    else PyStr.indent_str indent ++ "{"]))
             [if PyStr.truthy name
              then PyStr.indent_str indent ++ "}"
              else PyStr.indent_str indent ++ "},"])
  /\ (forall name item items indent lines,
         render_attribute_block name (PList (item :: items)) indent lines
         = List.app
             (render_items (item :: items) (S indent)
                (List.app lines
                   [if PyStr.truthy name
                    then PyStr.indent_str indent ++ format_name name ++ " = ["
                    else PyStr.indent_str indent ++ "["]))
             [if PyStr.truthy name
              then PyStr.indent_str indent ++ "]"
              else PyStr.indent_str indent ++ "],"])
  /\ (forall name key value text indent lines,
         PyStr.truthy name = true ->
         scalar_text value = Some text ->
         render_attribute_block name (PDict [(key, value)]) indent lines
         = List.app lines
             [PyStr.indent_str indent ++ format_name name ++ " = {";
              if PyStr.truthy key
              then PyStr.indent_str (S indent) ++ format_name key ++ " = " ++ text
              else PyStr.indent_str (S indent) ++ text ++ ",";
              PyStr.indent_str indent ++ "}"]).
Proof.
  split; [|split; [|split; [|split; [|split]]]].
  - intros value text H. split; [now apply scalar_text_literal|].
    intros. now apply render_scalar.
  - intros name Ht Hn. unfold format_name.
    destruct name as [|c r]; [discriminate Ht|]. cbn [PyStr.is_empty].
    now rewrite identifier_match_bare.
  - intros name indent lines. cbn [render_attribute_block]. unfold append_line.
    now destruct (PyStr.truthy name).
  - intros name entry entries indent lines. rewrite render_dict_eq. unfold append_line.
    now destruct (PyStr.truthy name).
  - intros name item items indent lines. rewrite render_list_eq. unfold append_line.
    now destruct (PyStr.truthy name).
  - intros name key value text indent lines Hn H.
    cbn [render_attribute_block]. rewrite Hn.
    rewrite (render_scalar key value text (S indent) _ H).
    unfold append_line. now rewrite <- !app_assoc.
Qed.

Lemma render_scalars_and_keys_witness :
  format_name "my-key" = json_string "my-key"
  /\ format_name "ttl_2" = "ttl_2"
  /\ render_attribute_block "cfg" (PDict [("my-key", PBool true)]) 1 []
     = ["  cfg = {"; "    " ++ json_string "my-key" ++ " = true"; "  }"]
  /\ render_attribute_block "rate" (PFloat "0.5") 0 [] = ["rate = 0.5"].
Proof.
  split; [|split; [|split]].
  - exact (proj1 (proj2 render_scalars_and_keys) "my-key" eq_refl eq_refl).
  - exact (proj1 (proj2 render_scalars_and_keys) "ttl_2" eq_refl eq_refl).
  - exact (proj2 (proj2 (proj2 (proj2 (proj2 render_scalars_and_keys))))
             "cfg" "my-key" (PBool true) "true" 1 [] eq_refl eq_refl).
  - exact (proj2 (proj1 render_scalars_and_keys (PFloat "0.5") "0.5" eq_refl) "rate" 0 []).
Defined.

(** ** Record keys *)

Lemma str_field_set_other (record : pydict) (k k' : string) (v : pyval) :
  String.eqb k k' = false ->
  str_field (Dict.set record k v) k' = str_field record k'.
Proof. intros H. unfold str_field. now rewrite get_set_other. Qed.

Lemma assign_key_rule (zone_key : string) (state state' : KeyState) (record : pydict) :
  assign_key zone_key state record = Some state' ->
  let base := str_field record "key_base" in
  let seen := match Dict.get (counts state) base with Some n => n | None => 0 end in
  let record_key := if (seen =? 0)%nat then base else base ++ "_" ++ PyStr.fmt_02d (S seen) in
  import_entries state'
  = (import_entries state ++ [(zone_key, record_key, str_field record "import_id")])%list
  /\ Dict.get (counts state') base = Some (S seen).
Proof.
  unfold assign_key. cbn zeta.
  destruct (build_record_attributes _) as [attributes|]; [|discriminate].
  intros H. injection H as <-. cbn [import_entries counts].
  rewrite Nat.add_1_r. rewrite get_set_same.
  split; [|reflexivity].
  rewrite str_field_set_other by reflexivity.
  destruct (match Dict.get (counts state) (str_field record "key_base") with
            | Some n => n | None => 0 end); [|reflexivity].
  cbn [Nat.eqb]. now rewrite append_nil_r.
Qed.

(** C2 fails on the code: with two [A] records at [x] that differ in their
    set identifier and one [A] record at [x-02], the second record at [x]
    and the record at [x-02] both receive the key [a_x_02]; the block of
    the former is overwritten in the map of record blocks, which ends with
    two entries for three records. *)
Theorem record_keys_collide :
  List.map (fun item => option_map record_sort_key
                          (normalize_record default_config item "example.com" "Z1"))
    colliding_records
  = [Some ("a_x", "a", "x.example.com"); Some ("a_x", "b", "x.example.com");
     Some ("a_x_02", "", "x-02.example.com")]
  /\ assigned_keys colliding_records
     = Some [("example.com", "a_x", "Z1_x.example.com_A_a");
             ("example.com", "a_x_02", "Z1_x.example.com_A_b");
             ("example.com", "a_x_02", "Z1_x-02.example.com_A")]
  /\ option_map (List.map fst) (assigned_blocks colliding_records)
     = Some ["a_x"; "a_x_02"]
  /\ option_map (fun blocks => Dict.get blocks "a_x_02") (assigned_blocks colliding_records)
     = Some (Some [("full_name", PStr "x-02.example.com"); ("type", PStr "A");
                   ("ttl", PInt 60); ("records", PList [PStr "192.0.2.1"])]).
Proof. repeat split; vm_compute; reflexivity. Qed.

(** ** The generated section of the locals file *)

Lemma prefix_app_self (p t : string) : String.prefix p (p ++ t) = true.
Proof.
  induction p as [|c r IH]; [now destruct t|].
  cbn [append String.prefix]. destruct (ascii_dec c c); [exact IH | contradiction].
Qed.

Lemma prefix_app_mono (p a t : string) :
  String.prefix p a = true -> String.prefix p (a ++ t) = true.
Proof.
  revert a. induction p as [|c r IH]; intros a H; [now destruct (a ++ t)|].
  destruct a as [|x a']; [discriminate H|].
  cbn [append String.prefix] in *.
  destruct (ascii_dec c x); [now apply IH | discriminate H].
Qed.

(** A pattern that does not contain the character [h] cannot reach across
    an occurrence of [h]. *)
Lemma prefix_stops_at (h : ascii) (p a t : string) :
  PyStr.existsb (Ascii.eqb h) p = false ->
  String.prefix p (a ++ String h t) = true -> String.prefix p a = true.
Proof.
  revert a. induction p as [|c r IH]; intros a Hh H; [now destruct a|].
  cbn [PyStr.existsb] in Hh. apply orb_false_iff in Hh. destruct Hh as [Hc Hr].
  destruct a as [|x a']; cbn [append String.prefix] in *.
  - destruct (ascii_dec c h) as [->|N]; [|discriminate H].
    now rewrite Ascii.eqb_refl in Hc.
  - destruct (ascii_dec c x); [now apply IH | discriminate H].
Qed.

Lemma drop_app_length (p t : string) : PyStr.drop (String.length p) (p ++ t) = t.
Proof. induction p as [|c r IH]; [reflexivity | exact IH]. Qed.

Lemma contains_app_false (a b pat : string) :
  PyStr.contains (a ++ b) pat = false ->
  PyStr.contains a pat = false /\ PyStr.contains b pat = false.
Proof.
  induction a as [|c r IH]; cbn [append].
  - intros H. split; [|exact H].
    cbn [PyStr.contains]. rewrite orb_false_r.
    destruct (String.prefix pat "") eqn:E; [|reflexivity].
    apply (prefix_app_mono pat "" b) in E. cbn [append] in E.
    destruct b; cbn [PyStr.contains] in H; rewrite E in H; discriminate H.
  - cbn [PyStr.contains]. intros H. apply orb_false_iff in H. destruct H as [Hp Hr].
    destruct (IH Hr) as [Ha Hb]. split; [|exact Hb].
    rewrite Ha, orb_false_r.
    destruct (String.prefix pat (String c r)) eqn:E; [|reflexivity].
    apply (prefix_app_mono pat (String c r) b) in E. cbn [append] in E.
    rewrite E in Hp. discriminate Hp.
Qed.

Lemma contains_prefix_false (s pat : string) :
  PyStr.contains s pat = false -> String.prefix pat s = false.
Proof.
  destruct s; cbn [PyStr.contains]; intros H; apply orb_false_iff in H; apply H.
Qed.

(** ** Trailing whitespace *)

Lemma rstrip_with_split (p : ascii -> bool) (s : string) :
  exists ws, s = PyStr.rstrip_with p s ++ ws /\ PyStr.forallb p ws = true.
Proof.
  induction s as [|c r [ws [E F]]]; [now exists ""|].
  cbn [PyStr.rstrip_with].
  destruct (PyStr.is_empty (PyStr.rstrip_with p r)) eqn:Em; cbn [andb].
  - destruct (p c) eqn:Pc.
    + exists (String c r). split; [reflexivity|].
      cbn [PyStr.forallb]. rewrite Pc. cbn [andb].
      destruct (PyStr.rstrip_with p r); [|discriminate Em].
      cbn [append] in E. now rewrite E.
    + exists ws. split; [|exact F]. cbn [append]. now rewrite <- E.
  - exists ws. split; [|exact F]. cbn [append]. now rewrite <- E.
Qed.

Lemma rstrip_with_spaces (p : ascii -> bool) (ws : string) :
  PyStr.forallb p ws = true -> PyStr.rstrip_with p ws = "".
Proof.
  induction ws as [|c r IH]; [reflexivity|].
  cbn [PyStr.forallb PyStr.rstrip_with]. intros H.
  apply andb_true_iff in H. destruct H as [Hc Hr].
  now rewrite (IH Hr), Hc.
Qed.

Lemma rstrip_with_app_spaces (p : ascii -> bool) (s ws : string) :
  PyStr.forallb p ws = true ->
  PyStr.rstrip_with p (s ++ ws) = PyStr.rstrip_with p s.
Proof.
  intros H. induction s as [|c r IH]; cbn [append PyStr.rstrip_with].
  - now apply rstrip_with_spaces.
  - now rewrite IH.
Qed.

Lemma rstrip_with_idempotent (p : ascii -> bool) (s : string) :
  PyStr.rstrip_with p (PyStr.rstrip_with p s) = PyStr.rstrip_with p s.
Proof.
  destruct (rstrip_with_split p s) as [ws [E F]].
  rewrite E at 2. now rewrite rstrip_with_app_spaces.
Qed.

(** ** Removing the generated spans *)

Lemma remove_spans_skip (a t : string) :
  remove_spans (String.length a) (a ++ t) = remove_spans 0 t.
Proof. induction a as [|c r IH]; [reflexivity | exact IH]. Qed.

Lemma remove_spans_match (m t : string) :
  m <> "" ->
  span_match (m ++ t) = Some (String.length m) ->
  remove_spans 0 (m ++ t) = remove_spans 0 t.
Proof.
  destruct m as [|c r]; [contradiction|]. intros _ H.
  cbn [append] in *. cbn [remove_spans]. rewrite H.
  cbn [String.length]. rewrite Nat.sub_1_r. cbn [Nat.pred].
  apply remove_spans_skip.
Qed.

(** Text in which no begin marker starts is copied unchanged. *)
Lemma remove_spans_copy (before tail : string) :
  (forall b1 b2, before = b1 ++ b2 -> b2 <> "" ->
                 String.prefix BEGIN_MARKER (b2 ++ tail) = false) ->
  remove_spans 0 (before ++ tail) = before ++ remove_spans 0 tail.
Proof.
  induction before as [|c r IH]; intros H; [reflexivity|].
  cbn [append remove_spans].
  unfold span_match.
  change (String c (r ++ tail)) with (String c r ++ tail).
  rewrite (H "" (String c r) eq_refl) by discriminate.
  rewrite IH; [reflexivity|].
  intros b1 b2 E Hne. apply (H (String c b1) b2); [cbn [append]; now rewrite E | exact Hne].
Qed.

Lemma no_begin_before (before tail : string) :
  PyStr.contains before BEGIN_MARKER = false ->
  (tail = ""
   \/ (exists t, tail = String "010" t)
   \/ (exists t, tail = String "#" t)) ->
  forall b1 b2, before = b1 ++ b2 -> b2 <> "" ->
                String.prefix BEGIN_MARKER (b2 ++ tail) = false.
Proof.
  intros Hc Ht b1 b2 E Hne. subst before.
  apply contains_app_false in Hc. destruct Hc as [_ Hc].
  apply contains_prefix_false in Hc.
  destruct (String.prefix BEGIN_MARKER (b2 ++ tail)) eqn:P; [|reflexivity].
  destruct Ht as [-> | [[t ->] | [t ->]]].
  - rewrite append_nil_r in P. congruence.
  - apply prefix_stops_at in P; [congruence | reflexivity].
  - destruct b2 as [|x b2']; [contradiction|].
    unfold BEGIN_MARKER in *. cbn [append String.prefix] in *.
    destruct (ascii_dec "#" x); [|discriminate P].
    apply prefix_stops_at in P; [congruence | reflexivity].
Qed.

Lemma remove_spans_no_begin (text : string) :
  PyStr.contains text BEGIN_MARKER = false -> remove_spans 0 text = text.
Proof.
  intros H. rewrite <- (append_nil_r text) at 1.
  rewrite remove_spans_copy; [now rewrite append_nil_r|].
  apply no_begin_before; [exact H | now left].
Qed.

(** ** The generated block *)

Lemma word_no_hash (s : string) :
  PyStr.forallb PyStr.is_word s = true -> no_hash s = true.
Proof.
  unfold no_hash. induction s as [|c r IH]; [reflexivity|].
  cbn [PyStr.forallb]. intros H. apply andb_true_iff in H. destruct H as [Hc Hr].
  rewrite (IH Hr), andb_true_r.
  destruct (Ascii.eqb_spec c "#") as [->|N]; [discriminate Hc | reflexivity].
Qed.

Lemma split_first_fresh (c : ascii) (pat body t : string) :
  PyStr.forallb (fun x => negb (Ascii.eqb x c)) body = true ->
  split_first (String c pat) (body ++ String c (pat ++ t)) = Some (body, t).
Proof.
  induction body as [|x r IH]; intros H.
  - cbn [append split_first].
    change (String c (pat ++ t)) with (String c pat ++ t).
    rewrite prefix_app_self. now rewrite drop_app_length.
  - cbn [PyStr.forallb] in H. apply andb_true_iff in H. destruct H as [Hx Hr].
    cbn [append split_first]. cbn [String.prefix].
    destruct (ascii_dec c x) as [->|N]; [now rewrite Ascii.eqb_refl in Hx|].
    now rewrite (IH Hr).
Qed.

Lemma concat_lines (lines : list string) (last : string) :
  String.concat nl (lines ++ [last; ""]) = lines_text lines ++ last ++ nl.
Proof.
  induction lines as [|x r IH]; [reflexivity|].
  cbn [List.app lines_text]. rewrite !append_assoc, <- IH.
  destruct r; reflexivity.
Qed.

Lemma generated_block_shape (local_vars : list string) :
  generated_block local_vars
  = BEGIN_MARKER ++ block_body local_vars ++ END_MARKER ++ nl.
Proof.
  unfold generated_block, block_lines, block_body, PyStr.join.
  cbn [List.app].
  set (middle := if nonempty local_vars then _ else _).
  change (String.concat nl (BEGIN_MARKER :: (middle ++ [END_MARKER; ""])%list))
    with (match (middle ++ [END_MARKER; ""])%list with
          | [] => BEGIN_MARKER
          | _ => BEGIN_MARKER ++ nl ++ String.concat nl (middle ++ [END_MARKER; ""])%list
          end).
  rewrite concat_lines.
  destruct middle; cbn [List.app]; now rewrite ?append_assoc.
Qed.

Lemma no_hash_append (a b : string) : no_hash (a ++ b) = no_hash a && no_hash b.
Proof. apply forallb_append. Qed.

Lemma no_hash_local_lines (local_vars : list string) :
  Forall (fun name => PyStr.forallb PyStr.is_word name = true) local_vars ->
  no_hash (lines_text (local_lines local_vars ++ ["  )"; "}"])) = true.
Proof.
  induction 1 as [|name rest Hname Hrest IH]; [reflexivity|].
  cbn [local_lines List.app lines_text].
  rewrite !no_hash_append, IH, (word_no_hash name Hname).
  now destruct (nonempty rest).
Qed.

Lemma no_hash_block_body (local_vars : list string) :
  Forall (fun name => PyStr.forallb PyStr.is_word name = true) local_vars ->
  no_hash (block_body local_vars) = true.
Proof.
  intros H. unfold block_body. rewrite no_hash_append.
  destruct (nonempty local_vars); [|reflexivity].
  cbn [List.app lines_text]. rewrite !no_hash_append.
  now rewrite (no_hash_local_lines local_vars H).
Qed.

Lemma span_match_block (local_vars : list string) (after : string) :
  Forall (fun name => PyStr.forallb PyStr.is_word name = true) local_vars ->
  span_match (generated_block local_vars ++ after)
  = Some (String.length (generated_block local_vars)).
Proof.
  intros H. rewrite generated_block_shape, !append_assoc.
  unfold span_match. rewrite prefix_app_self, drop_app_length.
  change (END_MARKER ++ nl ++ after)
    with (String "#" (" END GENERATED ROUTE53 RECORDS" ++ nl ++ after)).
  change END_MARKER with (String "#" " END GENERATED ROUTE53 RECORDS") at 1.
  rewrite split_first_fresh by (apply no_hash_block_body; exact H).
  rewrite prefix_app_self, !length_append.
  f_equal. cbn [String.length nl END_MARKER]. lia.
Qed.

Lemma generated_block_nonempty (local_vars : list string) :
  generated_block local_vars <> "".
Proof. rewrite generated_block_shape. discriminate. Qed.

Lemma remove_spans_block (local_vars : list string) (after : string) :
  Forall (fun name => PyStr.forallb PyStr.is_word name = true) local_vars ->
  remove_spans 0 (generated_block local_vars ++ after) = remove_spans 0 after.
Proof.
  intros H. apply remove_spans_match.
  - apply generated_block_nonempty.
  - now apply span_match_block.
Qed.

Lemma remove_spans_block_alone (local_vars : list string) :
  Forall (fun name => PyStr.forallb PyStr.is_word name = true) local_vars ->
  remove_spans 0 (generated_block local_vars) = "".
Proof.
  intros H. rewrite <- (append_nil_r (generated_block local_vars)).
  now rewrite remove_spans_block.
Qed.

Lemma remove_spans_prior (prior hand : string) :
  prior_content prior hand ->
  PyStr.contains hand BEGIN_MARKER = false ->
  remove_spans 0 prior = hand.
Proof.
  induction 1 as [hand | before rest hand_rest local_vars Hv Hrest IH]; intros Hc.
  - now apply remove_spans_no_begin.
  - apply contains_app_false in Hc. destruct Hc as [Hb Hr].
    rewrite remove_spans_copy.
    + now rewrite remove_spans_block, IH.
    + apply no_begin_before; [exact Hb|]. right. right.
      rewrite generated_block_shape. unfold BEGIN_MARKER. cbn [append]. eauto.
Qed.

(** ** Reading the file back *)

Lemma read_text_cr_free (s : string) : cr_free s = true -> read_text s = s.
Proof.
  unfold cr_free. induction s as [|c r IH]; [reflexivity|].
  cbn [PyStr.forallb read_text]. intros H. apply andb_true_iff in H.
  destruct H as [Hc Hr]. apply negb_true_iff in Hc. now rewrite Hc, (IH Hr).
Qed.

Lemma read_text_no_cr (s : string) : cr_free (read_text s) = true.
Proof.
  unfold cr_free. induction s as [|c r IH]; [reflexivity|].
  cbn [read_text]. destruct (Ascii.eqb c "013") eqn:E.
  - cbn [PyStr.forallb]. replace (Ascii.eqb "010" "013") with false by reflexivity.
    cbn [negb andb]. destruct r as [|c' r']; [reflexivity|].
    destruct (Ascii.eqb c' "010") eqn:E'; [|exact IH].
    cbn [read_text] in IH. apply Ascii.eqb_eq in E'. subst c'.
    replace (Ascii.eqb "010" "013") with false in IH by reflexivity.
    cbn [PyStr.forallb] in IH. apply andb_true_iff in IH. apply IH.
  - cbn [PyStr.forallb]. now rewrite E, IH.
Qed.

Lemma write_text_lf (text : string) : write_text nl text = text.
Proof.
  unfold write_text, PyStr.replace, nl. induction text as [|c r IH]; [reflexivity|].
  cbn [PyStr.replace_from]. rewrite prefix_char. cbn [String.length Nat.sub].
  destruct (Ascii.eqb_spec "010" c) as [<-|N]; cbn [append]; now rewrite IH.
Qed.

Lemma read_write_text (linesep text : string) :
  is_linesep linesep -> cr_free text = true -> read_text (write_text linesep text) = text.
Proof.
  intros [-> | ->] H.
  - rewrite write_text_lf. now apply read_text_cr_free.
  - unfold write_text, PyStr.replace, nl, cr_free in *.
    induction text as [|c r IH]; [reflexivity|].
    cbn [PyStr.forallb] in H. apply andb_true_iff in H. destruct H as [Hc Hr].
    apply negb_true_iff in Hc.
    cbn [PyStr.replace_from]. rewrite prefix_char. cbn [String.length Nat.sub].
    destruct (Ascii.eqb_spec "010" c) as [<-|N].
    + cbn [append read_text Ascii.eqb Bool.eqb]. now rewrite (IH Hr).
    + cbn [read_text]. now rewrite Hc, (IH Hr).
Qed.

Lemma cr_free_append (a b : string) : cr_free (a ++ b) = cr_free a && cr_free b.
Proof. apply forallb_append. Qed.

Lemma rstrip_cr_free (s : string) : cr_free s = true -> cr_free (PyStr.rstrip s) = true.
Proof.
  intros H. destruct (rstrip_with_split PyStr.is_space s) as [ws [E _]].
  rewrite E, cr_free_append in H. apply andb_true_iff in H. apply H.
Qed.

Lemma word_cr_free (s : string) :
  PyStr.forallb PyStr.is_word s = true -> cr_free s = true.
Proof.
  unfold cr_free. induction s as [|c r IH]; [reflexivity|].
  cbn [PyStr.forallb]. intros H. apply andb_true_iff in H. destruct H as [Hc Hr].
  rewrite (IH Hr), andb_true_r.
  destruct (Ascii.eqb_spec c "013") as [->|N]; [discriminate Hc | reflexivity].
Qed.

Lemma generated_block_cr_free (local_vars : list string) :
  Forall identifier_chars local_vars -> cr_free (generated_block local_vars) = true.
Proof.
  intros H. rewrite generated_block_shape, !cr_free_append.
  replace (cr_free BEGIN_MARKER) with true by reflexivity.
  replace (cr_free END_MARKER) with true by reflexivity.
  replace (cr_free nl) with true by reflexivity.
  rewrite !andb_true_r. cbn [andb].
  unfold block_body. rewrite cr_free_append.
  replace (cr_free nl) with true by reflexivity. cbn [andb].
  destruct (nonempty local_vars); [|reflexivity].
  cbn [List.app lines_text]. rewrite !cr_free_append. cbn [andb].
  replace (cr_free "locals {") with true by reflexivity.
  replace (cr_free "  zone_records = merge(") with true by reflexivity.
  replace (cr_free "    {},") with true by reflexivity.
  replace (cr_free nl) with true by reflexivity. cbn [andb].
  induction H as [|name rest Hname Hrest IH]; [reflexivity|].
  cbn [local_lines List.app lines_text].
  rewrite !cr_free_append, IH, (word_cr_free name Hname).
  now destruct (nonempty rest).
Qed.

Lemma prior_content_cr_free (prior hand : string) :
  prior_content prior hand -> cr_free prior = true -> cr_free hand = true.
Proof.
  induction 1 as [hand | before rest hand_rest local_vars Hv Hrest IH]; [auto|].
  rewrite !cr_free_append. intros H.
  apply andb_true_iff in H. destruct H as [Hb H].
  apply andb_true_iff in H. destruct H as [_ Hr].
  now rewrite Hb, (IH Hr).
Qed.

(** ** The update of the locals file *)

Lemma update_locals_file_text (local_vars : list string) (prior hand : string) :
  prior_content (read_text prior) hand ->
  PyStr.contains hand BEGIN_MARKER = false ->
  update_locals_file local_vars (Some prior)
  = PyStr.rstrip hand ++ separator (PyStr.rstrip hand) ++ generated_block local_vars.
Proof.
  intros Hp Hc. unfold update_locals_file, separator.
  rewrite (remove_spans_prior (read_text prior) hand Hp Hc).
  destruct (PyStr.rstrip hand) as [|c r]; [reflexivity|].
  cbn [PyStr.truthy PyStr.is_empty negb]. now rewrite !append_assoc.
Qed.

Lemma cleaned_of_written (local_vars : list string) (cleaned : string) :
  Forall identifier_chars local_vars ->
  PyStr.rstrip cleaned = cleaned ->
  PyStr.contains cleaned BEGIN_MARKER = false ->
  PyStr.rstrip
    (remove_spans 0 (cleaned ++ separator cleaned ++ generated_block local_vars))
  = cleaned.
Proof.
  intros Hv Hs Hc.
  unfold separator. destruct (PyStr.truthy cleaned) eqn:T.
  - rewrite remove_spans_copy
      by (apply no_begin_before; [exact Hc | right; left; unfold nl; cbn [append]; eauto]).
    rewrite (remove_spans_copy (nl ++ nl))
      by (apply no_begin_before;
          [reflexivity
          | right; right; rewrite generated_block_shape; unfold BEGIN_MARKER;
            cbn [append]; eauto]).
    rewrite remove_spans_block_alone by exact Hv.
    rewrite append_nil_r.
    unfold PyStr.rstrip in *. rewrite rstrip_with_app_spaces by reflexivity.
    exact Hs.
  - destruct cleaned; [|discriminate T]. cbn [append].
    rewrite remove_spans_block_alone by exact Hv. reflexivity.
Qed.

Lemma update_locals_file_fixpoint (linesep : string) (local_vars : list string)
    (cleaned : string) :
  is_linesep linesep ->
  Forall identifier_chars local_vars ->
  PyStr.rstrip cleaned = cleaned ->
  PyStr.contains cleaned BEGIN_MARKER = false ->
  cr_free cleaned = true ->
  let written := cleaned ++ separator cleaned ++ generated_block local_vars in
  update_locals_file local_vars (Some (write_text linesep written)) = written.
Proof.
  intros Hl Hv Hs Hc Hcr. cbn zeta.
  unfold update_locals_file at 1.
  rewrite read_write_text; [|exact Hl|].
  - rewrite (cleaned_of_written local_vars cleaned Hv Hs Hc). unfold separator.
    destruct cleaned as [|c r]; [reflexivity|].
    cbn [PyStr.truthy PyStr.is_empty negb]. now rewrite !append_assoc.
  - rewrite !cr_free_append, Hcr, (generated_block_cr_free local_vars Hv).
    unfold separator. now destruct (PyStr.truthy cleaned).
Qed.

(** C1, as stated, fails on trailing whitespace: a file that holds the line
    [value = 1] followed by two spaces and a newline, and no marker, is
    rewritten without the two spaces, so its text does not occur in the
    output. *)
Lemma trailing_whitespace_not_preserved :
  PyStr.contains ("value = 1  " ++ nl) BEGIN_MARKER = false
  /\ PyStr.contains ("value = 1  " ++ nl) END_MARKER = false
  /\ update_locals_file ["zone_records_example_com"] (Some ("value = 1  " ++ nl))
     = "value = 1" ++ nl ++ nl ++ generated_block ["zone_records_example_com"]
  /\ PyStr.contains
       (update_locals_file ["zone_records_example_com"] (Some ("value = 1  " ++ nl)))
       ("value = 1  " ++ nl) = false.
Proof. repeat split; vm_compute; reflexivity. Qed.

(** The line ends of the hand-written text are not kept either: a file
    with carriage return and line feed pairs is read with line feeds, and
    the text handed to [write_text] holds no carriage return. *)
Example carriage_returns_read_as_line_feeds :
  update_locals_file [] (Some ("a = 1" ++ String "013" nl ++ "b = 2" ++ String "013" nl))
  = "a = 1" ++ nl ++ "b = 2" ++ nl ++ nl ++ generated_block [].
Proof. vm_compute. reflexivity. Qed.

(** C1, amended: take a prior file whose text as [read_text] returns it
    (line ends read as line feeds) has a hand-written part (what is left
    of it outside the generated blocks) that holds no begin marker, and a
    list of local-variable names made of letters, digits and underscores.
    The update hands to [write_text] the hand-written part without its
    trailing whitespace, then a blank line when that part is not empty,
    then the new block.  After the file is written with the line separator
    of the platform, a second update with the same list hands over the same
    text, so the file stays byte-identical. *)
Theorem update_locals_file_idempotent :
  forall linesep local_vars prior hand,
    is_linesep linesep ->
    Forall identifier_chars local_vars ->
    prior_content (read_text prior) hand ->
    PyStr.contains hand BEGIN_MARKER = false ->
    let once := update_locals_file local_vars (Some prior) in
    once = PyStr.rstrip hand ++ separator (PyStr.rstrip hand) ++ generated_block local_vars
    /\ (exists trailing,
           hand = PyStr.rstrip hand ++ trailing
           /\ PyStr.forallb PyStr.is_space trailing = true)
    /\ update_locals_file local_vars (Some (write_text linesep once)) = once
    /\ write_text linesep (update_locals_file local_vars (Some (write_text linesep once)))
       = write_text linesep once
    /\ update_locals_file local_vars None = update_locals_file local_vars (Some "").
Proof.
  intros linesep local_vars prior hand Hl Hv Hp Hc. cbn zeta.
  rewrite (update_locals_file_text local_vars prior hand Hp Hc).
  assert (Hfix : update_locals_file local_vars
                   (Some (write_text linesep
                            (PyStr.rstrip hand ++ separator (PyStr.rstrip hand)
                             ++ generated_block local_vars)))
                 = PyStr.rstrip hand ++ separator (PyStr.rstrip hand)
                   ++ generated_block local_vars).
  { apply update_locals_file_fixpoint.
    - exact Hl.
    - exact Hv.
    - apply rstrip_with_idempotent.
    - destruct (rstrip_with_split PyStr.is_space hand) as [ws [E _]].
      rewrite E in Hc. now apply contains_app_false in Hc.
    - apply rstrip_cr_free.
      apply (prior_content_cr_free (read_text prior) hand Hp), read_text_no_cr. }
  split; [reflexivity|].
  split; [apply rstrip_with_split|].
  split; [exact Hfix|].
  split; [now rewrite Hfix | reflexivity].
Qed.

Lemma update_locals_file_idempotent_witness :
  update_locals_file ["zone_records_b"]
    (Some (write_text (String "013" nl)
             (update_locals_file ["zone_records_b"] (Some edited_locals_file))))
  = update_locals_file ["zone_records_b"] (Some edited_locals_file).
Proof.
  refine (proj1 (proj2 (proj2
            (update_locals_file_idempotent (String "013" nl) ["zone_records_b"]
               edited_locals_file
               ("value = 1" ++ nl ++ "other = 2" ++ nl) _ _ _ _)))).
  - now right.
  - repeat constructor.
  - exact (prior_span ("value = 1" ++ nl) ("other = 2" ++ nl) ("other = 2" ++ nl)
             ["zone_records_a"] ltac:(repeat constructor) (prior_hand _)).
  - vm_compute. reflexivity.
Defined.

(** * Further properties of the code *)

(** ** Sorting *)

Section SortFacts.
Context {A K : Type}.
Variable key_ltb : K -> K -> bool.
Variable key : A -> K.
Hypothesis key_ltb_asym : forall a b, key_ltb a b = true -> key_ltb b a = false.


Lemma insert_by_permutation (x : A) (l : list A) :
  Permutation (insert_by key_ltb key x l) (x :: l).
Proof.
  induction l as [|y r IH]; cbn [insert_by]; [reflexivity|].
  destruct (key_ltb (key y) (key x)); [|reflexivity].
  rewrite IH. apply perm_swap.
Qed.

Lemma sorted_by_permutation (l : list A) :
  Permutation (sorted_by key_ltb key l) l.
Proof.
  induction l as [|x r IH]; cbn [sorted_by]; [reflexivity|].
  rewrite insert_by_permutation. now constructor.
Qed.

Lemma insert_by_hd (x a : A) (l : list A) :
  key_ltb (key x) (key a) = false -> HdRel (fun a b : A => key_ltb (key b) (key a) = false) a l -> HdRel (fun a b : A => key_ltb (key b) (key a) = false) a (insert_by key_ltb key x l).
Proof.
  intros Hx Hl. destruct l as [|y r]; cbn [insert_by]; [now constructor|].
  destruct (key_ltb (key y) (key x)); constructor; [now inversion Hl | exact Hx].
Qed.

Lemma insert_by_sorted (x : A) (l : list A) :
  Sorted (fun a b : A => key_ltb (key b) (key a) = false) l -> Sorted (fun a b : A => key_ltb (key b) (key a) = false) (insert_by key_ltb key x l).
Proof.
  induction l as [|y r IH]; intros H; cbn [insert_by].
  - repeat constructor.
  - inversion H as [|? ? Hr Hhd]. subst.
    destruct (key_ltb (key y) (key x)) eqn:E.
    + constructor; [now apply IH|].
      apply insert_by_hd; [|exact Hhd]. now apply key_ltb_asym.
    + constructor; [exact H|]. constructor. exact E.
Qed.

Lemma sorted_by_sorted (l : list A) : Sorted (fun a b : A => key_ltb (key b) (key a) = false) (sorted_by key_ltb key l).
Proof.
  induction l as [|x r IH]; cbn [sorted_by]; [constructor|].
  now apply insert_by_sorted.
Qed.


End SortFacts.

Lemma string_ltb_asym (a b : string) : String.ltb a b = true -> String.ltb b a = false.
Proof.
  unfold String.ltb. rewrite (String.compare_antisym b a).
  now destruct (String.compare a b).
Qed.

Lemma string_ltb_irrefl (a : string) : String.ltb a a = false.
Proof.
  destruct (String.ltb a a) eqn:E; [|reflexivity].
  now rewrite (string_ltb_asym a a E) in E.
Qed.

Lemma pair_ltb_asym (a b : string * string) : pair_ltb a b = true -> pair_ltb b a = false.
Proof.
  destruct a as [a1 a2], b as [b1 b2]. unfold pair_ltb.
  rewrite (String.eqb_sym b1 a1).
  destruct (String.eqb_spec a1 b1) as [->|N].
  - rewrite string_ltb_irrefl. cbn [orb andb]. apply string_ltb_asym.
  - rewrite !andb_false_l, !orb_false_r. apply string_ltb_asym.
Qed.




(** ** Rendering *)

Lemma pyval_induction (P : pyval -> Prop) :
  P PNone ->
  (forall b, P (PBool b)) ->
  (forall z, P (PInt z)) ->
  (forall text, P (PFloat text)) ->
  (forall s, P (PStr s)) ->
  (forall items, Forall P items -> P (PList items)) ->
  (forall entries, Forall (fun entry => P (snd entry)) entries -> P (PDict entries)) ->
  forall value, P value.
Proof.
  intros Hn Hb Hz Hf Hs Hl Hd.
  fix IH 1. intros [|b|z|t|s|items|entries].
  - exact Hn.
  - apply Hb.
  - apply Hz.
  - apply Hf.
  - apply Hs.
  - apply Hl. induction items as [|v r IHr]; constructor; [apply IH | exact IHr].
  - apply Hd. induction entries as [|[k v] r IHr]; constructor; [apply IH | exact IHr].
Qed.

Lemma render_attributes_appends (attributes : pydict) (indent : nat) :
  Forall (fun entry =>
            forall name indent lines,
              render_attribute_block name (snd entry) indent lines
              = (lines ++ render_attribute_block name (snd entry) indent [])%list)
    attributes ->
  forall lines,
    render_attributes attributes indent lines
    = (lines ++ render_attributes attributes indent [])%list.
Proof.
  induction 1 as [|[k v] r Hv Hr IH]; intros lines; cbn [render_attributes].
  - now rewrite app_nil_r.
  - cbn [snd] in Hv. rewrite IH, (Hv k indent lines).
    rewrite (IH (render_attribute_block k v indent [])).
    now rewrite app_assoc.
Qed.

Lemma render_items_appends (items : list pyval) (indent : nat) :
  Forall (fun item =>
            forall name indent lines,
              render_attribute_block name item indent lines
              = (lines ++ render_attribute_block name item indent [])%list)
    items ->
  forall lines,
    render_items items indent lines = (lines ++ render_items items indent [])%list.
Proof.
  induction 1 as [|v r Hv Hr IH]; intros lines; cbn [render_items].
  - now rewrite app_nil_r.
  - rewrite IH, (Hv "" indent lines).
    rewrite (IH (render_attribute_block "" v indent [])).
    now rewrite app_assoc.
Qed.

Lemma render_attribute_block_appends (value : pyval) :
  forall name indent lines,
    render_attribute_block name value indent lines
    = (lines ++ render_attribute_block name value indent [])%list.
Proof.
  induction value as [|b|z|t|s|items IH|entries IH] using pyval_induction;
    intros name indent lines.
  1-5: cbn [render_attribute_block]; unfold append_line;
       destruct (PyStr.truthy name); reflexivity.
  - destruct items as [|e l].
    + cbn [render_attribute_block]. unfold append_line.
      destruct (PyStr.truthy name); reflexivity.
    + rewrite !render_list_eq. unfold append_line.
      rewrite (render_items_appends _ _ IH), (render_items_appends _ _ IH ([] ++ _)).
      now rewrite <- !app_assoc.
  - destruct entries as [|e d].
    + cbn [render_attribute_block]. unfold append_line.
      destruct (PyStr.truthy name); reflexivity.
    + rewrite !render_dict_eq. unfold append_line.
      rewrite (render_attributes_appends _ _ IH),
        (render_attributes_appends _ _ IH ([] ++ _)).
      now rewrite <- !app_assoc.
Qed.

(** X2: rendering only appends: the lines already in the list are kept as
    they are, and the lines added do not depend on them. *)
Theorem render_only_appends :
  forall value name indent lines,
    render_attribute_block name value indent lines
    = (lines ++ render_attribute_block name value indent [])%list.
Proof. intros value. apply render_attribute_block_appends. Qed.

Lemma indent_str_succ (n : nat) : PyStr.indent_str (S n) = PyStr.indent_str n ++ "  ".
Proof.
  induction n as [|k IH]; [reflexivity|].
  change (PyStr.indent_str (S (S k))) with ("  " ++ PyStr.indent_str (S k)).
  rewrite IH at 1. reflexivity.
Qed.

Lemma indented_deeper (n : nat) (line : string) :
  String.prefix (PyStr.indent_str (S n)) line = true ->
  String.prefix (PyStr.indent_str n) line = true.
Proof.
  revert line. rewrite indent_str_succ.
  induction (PyStr.indent_str n) as [|c r IH]; intros line H; [now destruct line|].
  destruct line as [|x t]; [discriminate H|].
  cbn [append String.prefix] in *.
  destruct (ascii_dec c x); [now apply IH | discriminate H].
Qed.

Lemma render_attributes_indented (attributes : pydict) (indent : nat) :
  Forall (fun entry =>
            forall name indent,
              Forall (fun line => String.prefix (PyStr.indent_str indent) line = true)
                (render_attribute_block name (snd entry) indent []))
    attributes ->
  Forall (fun line => String.prefix (PyStr.indent_str indent) line = true)
    (render_attributes attributes indent []).
Proof.
  induction 1 as [|[k v] r Hv Hr IH]; cbn [render_attributes]; [constructor|].
  rewrite render_attributes_appends.
  - apply Forall_app. split; [apply (Hv k indent) | exact IH].
  - apply Forall_forall. intros entry _ name i lines. apply render_attribute_block_appends.
Qed.

Lemma render_items_indented (items : list pyval) (indent : nat) :
  Forall (fun item =>
            forall name indent,
              Forall (fun line => String.prefix (PyStr.indent_str indent) line = true)
                (render_attribute_block name item indent []))
    items ->
  Forall (fun line => String.prefix (PyStr.indent_str indent) line = true)
    (render_items items indent []).
Proof.
  induction 1 as [|v r Hv Hr IH]; cbn [render_items]; [constructor|].
  rewrite render_items_appends.
  - apply Forall_app. split; [apply (Hv "" indent) | exact IH].
  - apply Forall_forall. intros item _ name i lines. apply render_attribute_block_appends.
Qed.

(** X3: every line that rendering adds starts with the indentation of its
    depth (two spaces per level), at every nesting level, and rendering
    adds at least one line. *)
Theorem render_lines_indented :
  forall value name indent,
    Forall (fun line => String.prefix (PyStr.indent_str indent) line = true)
      (render_attribute_block name value indent [])
    /\ render_attribute_block name value indent [] <> [].
Proof.
  assert (Hhead : forall n t, String.prefix (PyStr.indent_str n) (PyStr.indent_str n ++ t)
                              = true) by (intros; apply prefix_app_self).
  assert (Hall : forall value name indent,
             Forall (fun line => String.prefix (PyStr.indent_str indent) line = true)
               (render_attribute_block name value indent [])).
  { induction value as [|b|z|t|s|items IH|entries IH] using pyval_induction;
      intros name indent.
    1-5: cbn [render_attribute_block]; unfold append_line;
         destruct (PyStr.truthy name); repeat constructor; apply Hhead.
    - destruct items as [|e l].
      + cbn [render_attribute_block]. unfold append_line.
        destruct (PyStr.truthy name); repeat constructor; apply Hhead.
      + rewrite render_list_eq. unfold append_line.
        rewrite render_items_appends
          by (apply Forall_forall; intros item _ n i ls; apply render_attribute_block_appends).
        cbn [List.app]. constructor; [apply Hhead|].
        apply Forall_app. split; [|repeat constructor; apply Hhead].
        eapply Forall_impl; [|apply (render_items_indented _ (S indent) IH)].
        intros line. apply indented_deeper.
    - destruct entries as [|e d].
      + cbn [render_attribute_block]. unfold append_line.
        destruct (PyStr.truthy name); repeat constructor; apply Hhead.
      + rewrite render_dict_eq. unfold append_line.
        rewrite render_attributes_appends
          by (apply Forall_forall; intros entry _ n i ls; apply render_attribute_block_appends).
        cbn [List.app]. constructor; [apply Hhead|].
        apply Forall_app. split; [|repeat constructor; apply Hhead].
        eapply Forall_impl; [|apply (render_attributes_indented _ (S indent) IH)].
        intros line. apply indented_deeper. }
  intros value name indent. split; [apply Hall|].
  destruct value as [|b|z|t|s|[|e l]|[|e d]];
    try (cbn [render_attribute_block]; unfold append_line;
         destruct (PyStr.truthy name); discriminate).
  - rewrite render_list_eq. unfold append_line. intros E.
    apply app_eq_nil in E. destruct E as [_ E]. discriminate E.
  - rewrite render_dict_eq. unfold append_line. intros E.
    apply app_eq_nil in E. destruct E as [_ E]. discriminate E.
Qed.

Lemma render_attributes_split (attributes : pydict) (indent : nat) (lines : list string) :
  render_attributes attributes indent lines
  = (lines ++ render_attributes attributes indent [])%list.
Proof.
  apply render_attributes_appends. apply Forall_forall. intros entry _. apply render_attribute_block_appends.
Qed.

Lemma render_items_split (items : list pyval) (indent : nat) (lines : list string) :
  render_items items indent lines = (lines ++ render_items items indent [])%list.
Proof.
  apply render_items_appends. apply Forall_forall. intros item _. apply render_attribute_block_appends.
Qed.

Lemma shifted_line (indent : nat) (text : string) :
  PyStr.indent_str (S indent) ++ text = "  " ++ PyStr.indent_str indent ++ text.
Proof. cbn [PyStr.indent_str]. now rewrite append_assoc. Qed.

Lemma render_attributes_shift (attributes : pydict) (indent : nat) :
  Forall (fun entry =>
            forall name indent,
              render_attribute_block name (snd entry) (S indent) []
              = List.map (append "  ") (render_attribute_block name (snd entry) indent []))
    attributes ->
  render_attributes attributes (S indent) []
  = List.map (append "  ") (render_attributes attributes indent []).
Proof.
  induction 1 as [|[k v] r Hv Hr IH]; [reflexivity|]. cbn [render_attributes snd] in *.
  rewrite render_attributes_split, (render_attributes_split r indent).
  now rewrite map_app, IH, Hv.
Qed.

Lemma render_items_shift (items : list pyval) (indent : nat) :
  Forall (fun item =>
            forall name indent,
              render_attribute_block name item (S indent) []
              = List.map (append "  ") (render_attribute_block name item indent []))
    items ->
  render_items items (S indent) []
  = List.map (append "  ") (render_items items indent []).
Proof.
  induction 1 as [|v r Hv Hr IH]; [reflexivity|]. cbn [render_items] in *.
  rewrite render_items_split, (render_items_split r indent).
  now rewrite map_app, IH, Hv.
Qed.

Lemma render_attribute_block_shift (value : pyval) :
  forall name indent,
    render_attribute_block name value (S indent) []
    = List.map (append "  ") (render_attribute_block name value indent []).
Proof.
  induction value as [|b|z|t|s|items IH|entries IH] using pyval_induction; intros name indent.
  1-5: cbn [render_attribute_block]; unfold append_line;
       destruct (PyStr.truthy name); cbn [List.app List.map]; now rewrite shifted_line.
  - destruct items as [|e l].
    + cbn [render_attribute_block]. unfold append_line.
      destruct (PyStr.truthy name); cbn [List.app List.map]; now rewrite shifted_line.
    + rewrite !render_list_eq. unfold append_line.
      rewrite render_items_split, (render_items_split _ (S indent)).
      rewrite !map_app. cbn [List.app List.map].
      now rewrite (render_items_shift _ _ IH), !shifted_line.
  - destruct entries as [|e d].
    + cbn [render_attribute_block]. unfold append_line.
      destruct (PyStr.truthy name); cbn [List.app List.map]; now rewrite shifted_line.
    + rewrite !render_dict_eq. unfold append_line.
      rewrite render_attributes_split, (render_attributes_split _ (S indent)).
      rewrite !map_app. cbn [List.app List.map].
      now rewrite (render_attributes_shift _ _ IH), !shifted_line.
Qed.

Lemma render_entries_split (render_key : string -> string) (key_indent : nat)
    (records : list (string * pydict)) :
  forall lines,
    render_entries render_key key_indent records lines
    = (lines ++ render_entries render_key key_indent records [])%list.
Proof.
  induction records as [|[k attributes] rest IH]; intros lines; cbn [render_entries].
  - now rewrite app_nil_r.
  - cbv zeta. rewrite IH. rewrite (IH (append_line _ _)). unfold append_line.
    now rewrite <- !app_assoc.
Qed.

Lemma render_entries_shift (render_key : string -> string) (key_indent : nat)
    (records : list (string * pydict)) :
  render_entries render_key (S key_indent) records []
  = List.map (append "  ") (render_entries render_key key_indent records []).
Proof.
  induction records as [|[k attributes] rest IH]; [reflexivity|].
  cbn [render_entries]. cbv zeta.
  rewrite render_entries_split, (render_entries_split _ key_indent rest).
  unfold append_line. rewrite !map_app, IH. cbn [List.app List.map].
  rewrite !shifted_line.
  rewrite (render_attributes_shift attributes (S key_indent))
    by (apply Forall_forall; intros entry _; apply render_attribute_block_shift).
  reflexivity.
Qed.

(** X4: rendering one level deeper only puts two more spaces in front of
    every line; the records file of a zone is therefore the single-zone
    records file with the line of the zone key (and its closing brace)
    added and the record lines indented by two more spaces. *)
Theorem records_files_differ_by_zone_level :
  forall local_var zone_key records value name indent,
    let record_lines := render_entries (fun k => k) 2 records [] in
    render_attribute_block name value (S indent) []
    = List.map (append "  ") (render_attribute_block name value indent [])
    /\ render_single_zone_records local_var records
       = PyStr.join nl
           (List.app ["locals {"; "  " ++ local_var ++ " = {"]
              (List.app record_lines ["  }"; "}"; ""]))
    /\ render_zone_file local_var zone_key records
       = PyStr.join nl
           (List.app ["locals {"; "  " ++ local_var ++ " = {";
                      "    " ++ json_string zone_key ++ " = {"]
              (List.app (List.map (append "  ") record_lines)
                 ["    }"; "  }"; "}"; ""])).
Proof.
  intros local_var zone_key records value name indent. cbn zeta.
  split; [apply render_attribute_block_shift|].
  unfold render_single_zone_records, render_zone_file. cbv zeta.
  rewrite <- render_entries_shift.
  rewrite (render_entries_split _ 2), (render_entries_split _ 3).
  now rewrite <- !app_assoc.
Qed.

(** ** JSON string literals *)

Lemma json_unescape_escape_char (c : ascii) (r : string) :
  json_unescape_one (json_escape_char c ++ r) = Some (c, r).
Proof.
  destruct c as [[] [] [] [] [] [] [] []]; reflexivity.
Qed.

Lemma json_escape_char_printable (c : ascii) :
  PyStr.forallb (PyStr.between 32 126) (json_escape_char c) = true
  /\ String.prefix quote (json_escape_char c) = false
  /\ json_escape_char c <> "".
Proof.
  destruct c as [[] [] [] [] [] [] [] []]; repeat split; discriminate.
Qed.

Lemma json_escape_quote_injective (a b : string) :
  json_escape a ++ quote = json_escape b ++ quote -> a = b.
Proof.
  revert b. induction a as [|x a' IH]; intros [|y b'] H; cbn [json_escape] in H.
  - reflexivity.
  - exfalso. rewrite append_assoc in H.
    destruct (json_escape_char_printable y) as (_ & P & N).
    destruct (json_escape_char y) as [|c t]; [contradiction|].
    cbn in H, P. injection H as <- _. cbn in P.
    destruct (ascii_dec "034" "034"); [|contradiction]. now destruct t.
  - exfalso. rewrite append_assoc in H.
    destruct (json_escape_char_printable x) as (_ & P & N).
    destruct (json_escape_char x) as [|c t]; [contradiction|].
    cbn in H, P. injection H as -> _. cbn in P.
    destruct (ascii_dec "034" "034"); [|contradiction]. now destruct t.
  - rewrite !append_assoc in H.
    pose proof (f_equal json_unescape_one H) as D.
    rewrite !json_unescape_escape_char in D. injection D as -> D.
    f_equal. now apply IH.
Qed.

(** X5: a JSON string literal is delimited by double quotes, consists of
    printable ASCII characters only, and two different strings never share a
    literal. *)
Theorem json_string_well_formed :
  forall s,
    json_string s = quote ++ json_escape s ++ quote
    /\ PyStr.forallb (PyStr.between 32 126) (json_string s) = true
    /\ (forall t, json_string s = json_string t -> s = t).
Proof.
  intros s. split; [reflexivity|]. split.
  - assert (E : PyStr.forallb (PyStr.between 32 126) (json_escape s) = true).
    { induction s as [|c r IH]; [reflexivity|].
      cbn [json_escape]. rewrite forallb_append, IH, andb_true_r.
      apply json_escape_char_printable. }
    unfold json_string. rewrite !forallb_append, E. reflexivity.
  - intros t H. unfold json_string, quote in H. cbn [append] in H.
    injection H as H. now apply json_escape_quote_injective.
Qed.

(** ** Identifier and name utilities *)

Lemma replace_non_word_id (s : string) :
  PyStr.forallb PyStr.is_word s = true -> replace_non_word s = s.
Proof.
  unfold replace_non_word. induction s as [|c r IH]; [reflexivity|].
  cbn [PyStr.forallb PyStr.map]. intros H.
  apply andb_true_iff in H. destruct H as [Hc Hr].
  now rewrite Hc, IH.
Qed.

Lemma ident_start_not_digit (c : ascii) :
  PyStr.is_ident_start c = true -> PyStr.isdigit c = false.
Proof. destruct c as [[] [] [] [] [] [] [] []]; cbv; congruence. Qed.

Lemma ident_start_word (c : ascii) :
  PyStr.is_ident_start c = true -> PyStr.is_word c = true.
Proof.
  unfold PyStr.is_ident_start, PyStr.is_word, PyStr.is_alnum.
  destruct (PyStr.is_alpha c), (Ascii.eqb c "_"); cbn; intros H;
    try discriminate H; now rewrite ?orb_true_r.
Qed.

(** X6: [sanitize_identifier] leaves a bare identifier as it is, so applying
    it twice gives the same result as applying it once. *)
Theorem sanitize_identifier_idempotent :
  (forall name, bare_identifier name = true -> sanitize_identifier name = name)
  /\ (forall value,
         sanitize_identifier (sanitize_identifier value) = sanitize_identifier value).
Proof.
  assert (H : forall name, bare_identifier name = true -> sanitize_identifier name = name).
  { intros [|c r] B; [discriminate B|].
    cbn [bare_identifier] in B. apply andb_true_iff in B. destruct B as [Bc Br].
    unfold sanitize_identifier.
    rewrite replace_non_word_id
      by (cbn [PyStr.forallb]; now rewrite (ident_start_word c Bc), Br).
    now rewrite (ident_start_not_digit c Bc). }
  split; [exact H|].
  intros value. apply H. apply sanitize_identifier_bare.
Qed.

Lemma sanitize_identifier_idempotent_witness :
  sanitize_identifier "zone_records_example_com" = "zone_records_example_com".
Proof. exact (proj1 sanitize_identifier_idempotent "zone_records_example_com" eq_refl). Defined.

Lemma lower_char_not_upper (c : ascii) : PyStr.is_upper (PyStr.lower_char c) = false.
Proof. destruct c as [[] [] [] [] [] [] [] []]; reflexivity. Qed.

Lemma lower_no_upper (s : string) :
  PyStr.forallb (fun c => negb (PyStr.is_upper c)) (PyStr.lower s) = true.
Proof.
  unfold PyStr.lower. induction s as [|c r IH]; [reflexivity|].
  cbn [PyStr.map PyStr.forallb]. now rewrite lower_char_not_upper, IH.
Qed.

Lemma lower_char_idempotent (c : ascii) :
  PyStr.lower_char (PyStr.lower_char c) = PyStr.lower_char c.
Proof. destruct c as [[] [] [] [] [] [] [] []]; reflexivity. Qed.

Lemma lower_idempotent (s : string) : PyStr.lower (PyStr.lower s) = PyStr.lower s.
Proof.
  unfold PyStr.lower. induction s as [|c r IH]; [reflexivity|].
  cbn [PyStr.map]. now rewrite lower_char_idempotent, IH.
Qed.

Lemma lower_fixed_no_upper (s : string) :
  PyStr.lower s = s -> PyStr.forallb (fun c => negb (PyStr.is_upper c)) s = true.
Proof. intros H. rewrite <- H. apply lower_no_upper. Qed.

Lemma snake_pass1_id (s : string) :
  PyStr.forallb (fun c => negb (PyStr.is_upper c)) s = true ->
  forall copy, snake_pass1 copy s = s.
Proof.
  induction s as [|c r IH]; [reflexivity|].
  cbn [PyStr.forallb]. intros H copy.
  apply andb_true_iff in H. destruct H as [Hc Hr].
  cbn [snake_pass1].
  destruct (copy && PyStr.is_lower c); [now rewrite IH|].
  destruct r as [|u [|l t]]; try (now rewrite IH).
  cbn [PyStr.forallb] in Hr. apply andb_true_iff in Hr. destruct Hr as [Hu Ht].
  apply negb_true_iff in Hu. rewrite Hu, andb_false_r. cbn [andb].
  rewrite IH; [reflexivity|]. cbn [PyStr.forallb]. now rewrite Hu, Ht.
Qed.

Lemma snake_pass2_id (s : string) :
  PyStr.forallb (fun c => negb (PyStr.is_upper c)) s = true -> snake_pass2 s = s.
Proof.
  induction s as [|c r IH]; [reflexivity|].
  cbn [PyStr.forallb]. intros H.
  apply andb_true_iff in H. destruct H as [Hc Hr].
  cbn [snake_pass2]. destruct r as [|u t]; [reflexivity|].
  pose proof Hr as Hr'.
  cbn [PyStr.forallb] in Hr. apply andb_true_iff in Hr. destruct Hr as [Hu Ht].
  apply negb_true_iff in Hu. rewrite Hu, andb_false_r.
  now rewrite (IH Hr').
Qed.

(** X7: the result of [to_snake_case] is in lower case: lower-casing it
    again changes nothing and it holds no ASCII capital; a name that
    lower-casing leaves unchanged is returned unchanged; so the conversion
    is idempotent. *)
Theorem to_snake_case_lower :
  (forall value,
      PyStr.lower (to_snake_case value) = to_snake_case value
      /\ PyStr.forallb (fun c => negb (PyStr.is_upper c)) (to_snake_case value) = true)
  /\ (forall value, PyStr.lower value = value -> to_snake_case value = value)
  /\ (forall value, to_snake_case (to_snake_case value) = to_snake_case value).
Proof.
  assert (A : forall value, PyStr.lower (to_snake_case value) = to_snake_case value)
    by (intros; apply lower_idempotent).
  assert (B : forall value, PyStr.lower value = value -> to_snake_case value = value).
  { intros value H. pose proof (lower_fixed_no_upper value H) as N.
    unfold to_snake_case.
    now rewrite (snake_pass1_id value N), (snake_pass2_id value N). }
  split; [|split; [exact B|]].
  - intros value. split; [apply A | apply lower_no_upper].
  - intros value. apply B, A.
Qed.

Lemma to_snake_case_lower_witness : to_snake_case "health_check_id" = "health_check_id".
Proof. exact (proj1 (proj2 to_snake_case_lower) "health_check_id" eq_refl). Defined.

Lemma endswith_length (s p : string) :
  PyStr.endswith s p = true -> String.length p <= String.length s.
Proof.
  induction s as [|c r IH]; cbn [PyStr.endswith]; intros H.
  - rewrite orb_false_r in H. apply String.eqb_eq in H. now subst.
  - apply orb_true_iff in H. destruct H as [H|H].
    + apply String.eqb_eq in H. now subst.
    + cbn [String.length]. specialize (IH H). lia.
Qed.

Lemma endswith_split (s p : string) :
  PyStr.endswith s p = true ->
  String.substring 0 (String.length s - String.length p) s ++ p = s.
Proof.
  induction s as [|c r IH]; cbn [PyStr.endswith]; intros H.
  - rewrite orb_false_r in H. apply String.eqb_eq in H. now subst.
  - apply orb_true_iff in H. destruct H as [H|H].
    + apply String.eqb_eq in H. subst p. now rewrite Nat.sub_diag.
    + pose proof (endswith_length r p H) as L.
      cbn [String.length]. rewrite Nat.sub_succ_l by exact L.
      cbn [String.substring append]. now rewrite (IH H).
Qed.

(** X8: the relative name is empty for the zone apex; for a name inside the
    zone it is the part before the zone, so that the relative name, a dot
    and the zone name give the record name back (trailing dots apart); any
    other name is returned whole, without its trailing dots. *)
Theorem relative_name_recomposes :
  forall record_name zone_name,
    let name := PyStr.rstrip_dot record_name in
    let zone := PyStr.rstrip_dot zone_name in
    (name = "" \/ name = zone -> compute_relative_name record_name zone_name = "")
    /\ (name <> "" -> name <> zone -> zone <> "" ->
        PyStr.endswith name ("." ++ zone) = true ->
        compute_relative_name record_name zone_name ++ "." ++ zone = name)
    /\ (name <> "" -> name <> zone ->
        zone = "" \/ PyStr.endswith name ("." ++ zone) = false ->
        compute_relative_name record_name zone_name = name).
Proof.
  intros record_name zone_name. cbn zeta. unfold compute_relative_name.
  set (name := PyStr.rstrip_dot record_name). set (zone := PyStr.rstrip_dot zone_name).
  split; [|split].
  - intros [E|E]; rewrite E.
    + reflexivity.
    + rewrite String.eqb_refl. now rewrite orb_true_r.
  - intros N1 N2 N3 H.
    assert (E1 : PyStr.is_empty name = false) by (now destruct name).
    assert (E2 : PyStr.truthy zone = true) by (now destruct zone).
    rewrite E1, E2, H, (proj2 (String.eqb_neq _ _) N2). cbn [orb andb].
    replace (String.length zone + 1) with (String.length ("." ++ zone))
      by (cbn [append String.length]; lia).
    apply (endswith_split _ _ H).
  - intros N1 N2 H.
    assert (E1 : PyStr.is_empty name = false) by (now destruct name).
    rewrite E1, (proj2 (String.eqb_neq _ _) N2). cbn [orb].
    destruct H as [->|H]; [reflexivity|]. rewrite H. now rewrite andb_false_r.
Qed.

Lemma relative_name_recomposes_witness :
  compute_relative_name "www.api.example.com." "example.com." ++ ".example.com"
  = "www.api.example.com".
Proof.
  refine (proj1 (proj2 (relative_name_recomposes "www.api.example.com." "example.com."))
            _ _ _ eq_refl); discriminate.
Defined.

Lemma percent_sub_keeps_percent_head (r : string) :
  String.prefix "%" r = true -> String.prefix "%" (percent_sub r) = true.
Proof.
  destruct r as [|c t]; [discriminate|]. rewrite prefix_char.
  intros H. apply Ascii.eqb_eq in H. subst c.
  cbn [percent_sub]. rewrite Ascii.eqb_refl.
  destruct (String.prefix "%" t); cbn [append]; rewrite prefix_char;
    apply Ascii.eqb_refl.
Qed.

(** X9: after percent escaping no percent sign stands alone: each one has
    another percent sign right before or right after it. *)
Theorem escaped_value_has_no_lone_percent :
  forall value, lone_percent false (escape_percent_signs value) = false.
Proof.
  intros value. rewrite escape_percent_signs_sub.
  enough (H : forall prev, lone_percent prev (percent_sub value) = false) by apply H.
  induction value as [|c r IH]; intros prev; [reflexivity|].
  cbn [percent_sub].
  destruct (Ascii.eqb c "%") eqn:E.
  - destruct (String.prefix "%" r) eqn:P.
    + cbn [lone_percent]. rewrite E, (percent_sub_keeps_percent_head r P).
      cbn [negb andb]. rewrite andb_false_r. apply IH.
    + cbn [append lone_percent]. rewrite Ascii.eqb_refl. cbn [negb andb orb].
      rewrite prefix_char, Ascii.eqb_refl. cbn [negb]. rewrite andb_false_r.
      cbn [orb]. apply IH.
  - cbn [lone_percent]. rewrite E. apply IH.
Qed.

Lemma lstrip_with_split (p : ascii -> bool) (s : string) :
  exists ws, s = ws ++ PyStr.lstrip_with p s.
Proof.
  induction s as [|c r [ws E]]; [now exists ""|].
  cbn [PyStr.lstrip_with]. destruct (p c).
  - exists (String c ws). cbn [append]. now rewrite <- E.
  - now exists "".
Qed.

Lemma lstrip_with_head (p : ascii -> bool) (s : string) (c : ascii) (t : string) :
  PyStr.lstrip_with p s = String c t -> p c = false.
Proof.
  induction s as [|x r IH]; cbn [PyStr.lstrip_with]; [discriminate|].
  destruct (p x) eqn:E; [exact IH|]. intros H. now injection H as <- _.
Qed.

Lemma rstrip_with_head (p : ascii -> bool) (s : string) (c : ascii) (t : string) :
  PyStr.rstrip_with p s = String c t -> exists t', s = String c t'.
Proof.
  destruct s as [|x r]; cbn [PyStr.rstrip_with]; [discriminate|].
  destruct (PyStr.is_empty (PyStr.rstrip_with p r) && p x); [discriminate|].
  intros H. injection H as <- _. now exists r.
Qed.

Lemma rstrip_with_last (p : ascii -> bool) (s : string) (x : ascii) :
  PyStr.endswith (PyStr.rstrip_with p s) (String x "") = true -> p x = false.
Proof.
  induction s as [|c r IH]; cbn [PyStr.rstrip_with]; [discriminate|].
  destruct (PyStr.rstrip_with p r) as [|c' r'] eqn:E; cbn [PyStr.is_empty andb].
  - destruct (p c) eqn:Pc; [discriminate|].
    cbn [PyStr.endswith]. rewrite !orb_false_r. intros H.
    apply String.eqb_eq in H. now injection H as <-.
  - cbn [PyStr.endswith] in *. intros H. apply IH.
    apply orb_true_iff in H. destruct H as [H|H]; [|exact H].
    apply String.eqb_eq in H. discriminate H.
Qed.

Lemma forallb_strip_with (q p : ascii -> bool) (s : string) :
  PyStr.forallb q s = true -> PyStr.forallb q (PyStr.strip_with p s) = true.
Proof.
  intros H. unfold PyStr.strip_with.
  destruct (lstrip_with_split p s) as [ws E]. rewrite E, forallb_append in H.
  apply andb_true_iff in H. destruct H as [_ H].
  destruct (rstrip_with_split p (PyStr.lstrip_with p s)) as [ws' [E' _]].
  rewrite E', forallb_append in H. apply andb_true_iff in H. apply H.
Qed.

Lemma contains_strip_with (p : ascii -> bool) (s pat : string) :
  PyStr.contains s pat = false -> PyStr.contains (PyStr.strip_with p s) pat = false.
Proof.
  intros H. unfold PyStr.strip_with.
  destruct (lstrip_with_split p s) as [ws E]. rewrite E in H.
  apply contains_app_false in H. destruct H as [_ H].
  destruct (rstrip_with_split p (PyStr.lstrip_with p s)) as [ws' [E' _]].
  rewrite E' in H. now apply contains_app_false in H.
Qed.

Lemma lower_alnum_label (c : ascii) :
  PyStr.is_alnum (PyStr.lower_char c) = true -> is_label_char (PyStr.lower_char c) = true.
Proof. destruct c as [[] [] [] [] [] [] [] []]; cbv; congruence. Qed.

Lemma collapse_label_chars (s : string) :
  forall in_run,
    PyStr.forallb is_label_char (collapse_non_alnum in_run (PyStr.lower s)) = true.
Proof.
  unfold PyStr.lower. induction s as [|c r IH]; intros in_run; [reflexivity|].
  cbn [PyStr.map collapse_non_alnum].
  destruct (PyStr.is_alnum (PyStr.lower_char c)) eqn:E.
  - cbn [PyStr.forallb]. now rewrite (lower_alnum_label c E), IH.
  - destruct in_run; [apply IH|]. cbn [PyStr.forallb]. now rewrite IH.
Qed.

Lemma alnum_not_underscore (c : ascii) :
  PyStr.is_alnum c = true -> Ascii.eqb "_" c = false.
Proof. destruct c as [[] [] [] [] [] [] [] []]; cbv; congruence. Qed.

Lemma collapse_single_underscores (s : string) :
  forall in_run,
    PyStr.contains (collapse_non_alnum in_run s) "__" = false
    /\ (in_run = true -> String.prefix "_" (collapse_non_alnum in_run s) = false).
Proof.
  induction s as [|c r IH]; intros in_run; [now split|].
  cbn [collapse_non_alnum].
  destruct (PyStr.is_alnum c) eqn:E.
  - destruct (IH false) as [Hc _]. split.
    + cbn [PyStr.contains]. rewrite Hc, orb_false_r.
      cbn [String.prefix]. destruct (ascii_dec "_" c) as [<-|N]; [discriminate E | reflexivity].
    + intros _. rewrite prefix_char. now apply alnum_not_underscore.
  - destruct (IH true) as [Hc Hp]. destruct in_run.
    + split; [exact Hc | intros _; now apply Hp].
    + split; [|discriminate].
      cbn [PyStr.contains]. rewrite Hc, orb_false_r.
      cbn [String.prefix]. destruct (ascii_dec "_" "_"); [|contradiction].
      specialize (Hp eq_refl).
      destruct (collapse_non_alnum true r) as [|x t]; [reflexivity|].
      rewrite prefix_char in Hp. cbn [String.prefix].
      destruct (ascii_dec "_" x) as [<-|N]; [discriminate Hp | reflexivity].
Qed.

(** X10: a sanitized subdomain is never empty, consists of lower-case
    letters, digits and underscores, neither starts nor ends with an
    underscore and has no two underscores in a row. *)
Theorem sanitize_subdomain_shape :
  forall value,
    let label := sanitize_subdomain value in
    label <> ""
    /\ PyStr.forallb is_label_char label = true
    /\ String.prefix "_" label = false
    /\ PyStr.endswith label "_" = false
    /\ PyStr.contains label "__" = false.
Proof.
  intros value. cbn zeta. unfold sanitize_subdomain.
  destruct (PyStr.is_empty value); [repeat split; discriminate|].
  set (text := PyStr.replace "\052" "star" (PyStr.replace "*" "star" value)).
  set (collapsed := collapse_non_alnum false (PyStr.lower text)).
  destruct (PyStr.strip_with (Ascii.eqb "_") collapsed) as [|c t] eqn:E;
    cbn [PyStr.is_empty]; [repeat split; discriminate|].
  rewrite <- E. split; [rewrite E; discriminate|].
  split; [apply forallb_strip_with, collapse_label_chars|].
  split; [|split].
  - rewrite E. rewrite prefix_char. unfold PyStr.strip_with in E.
    destruct (rstrip_with_head _ _ _ _ E) as [t' E'].
    apply (lstrip_with_head _ _ _ _ E').
  - unfold PyStr.strip_with.
    destruct (PyStr.endswith _ "_") eqn:L; [|reflexivity].
    apply rstrip_with_last in L. discriminate L.
  - apply contains_strip_with. apply (collapse_single_underscores _ false).
Qed.

(** ** Normalized records and key assignment *)

(** X11: each of the members TTL, SetIdentifier, HealthCheckId, Failover,
    TrafficPolicyInstanceId, MultiValueAnswer, Region and Weight is copied
    under its snake-case name exactly when the raw record carries it, with
    its value unchanged (a weight of zero or an empty set identifier is
    kept); the values, the alias and the geolocation are stored only when
    they are not empty. *)
Theorem optional_members_copied_when_present :
  forall cfg record zone_name zone_id normalized,
    normalize_record cfg record zone_name zone_id = Some normalized ->
    Dict.get normalized "ttl" = option_map PInt (raw_TTL record)
    /\ Dict.get normalized "set_identifier" = option_map PStr (raw_SetIdentifier record)
    /\ Dict.get normalized "health_check_id" = option_map PStr (raw_HealthCheckId record)
    /\ Dict.get normalized "failover" = option_map PStr (raw_Failover record)
    /\ Dict.get normalized "traffic_policy_instance_id"
       = option_map PStr (raw_TrafficPolicyInstanceId record)
    /\ Dict.get normalized "multi_value_answer"
       = option_map PBool (raw_MultiValueAnswer record)
    /\ Dict.get normalized "region" = option_map PStr (raw_Region record)
    /\ Dict.get normalized "weight" = option_map PInt (raw_Weight record)
    /\ (Dict.mem normalized "records"
        = match raw_ResourceRecords record with Some (_ :: _) => true | _ => false end)
    /\ (Dict.mem normalized "alias"
        = match raw_AliasTarget record with Some a => alias_truthy a | None => false end)
    /\ (Dict.mem normalized "geo_location"
        = match raw_GeoLocation record with Some g => geo_truthy g | None => false end).
Proof.
  intros cfg record zone_name zone_id normalized H.
  pose proof (normalize_record_fields _ _ _ _ _ H) as F. cbn zeta in F.
  destruct F as (_ & _ & _ & _ & _ & _ & Hrec & Halias & Hgeo & Hcopy & _).
  unfold COPIED_KEYS in Hcopy.
  repeat match type of Hcopy with
         | Forall _ (_ :: _) =>
             let Hk := fresh "Hk" in
             let Hr := fresh "Hr" in
             inversion Hcopy as [|? ? Hk Hr]; subst; clear Hcopy; rename Hr into Hcopy
         end.
  change (to_snake_case "TTL") with "ttl" in *.
  change (to_snake_case "SetIdentifier") with "set_identifier" in *.
  change (to_snake_case "HealthCheckId") with "health_check_id" in *.
  change (to_snake_case "Failover") with "failover" in *.
  change (to_snake_case "TrafficPolicyInstanceId") with "traffic_policy_instance_id" in *.
  change (to_snake_case "MultiValueAnswer") with "multi_value_answer" in *.
  change (to_snake_case "Region") with "region" in *.
  change (to_snake_case "Weight") with "weight" in *.
  unfold Dict.mem. rewrite Hrec, Halias, Hgeo.
  repeat split;
    try (match goal with
         | Hk : Dict.get normalized ?k = _ |- Dict.get normalized ?k = _ =>
             rewrite Hk; cbn [raw_get String.eqb Ascii.eqb Bool.eqb of_opt_str]
         end;
         match goal with
         | |- context [option_map _ ?o] => now destruct o
         end).
  - now destruct (raw_ResourceRecords record) as [[|e l]|].
  - destruct (raw_AliasTarget record) as [a|]; [now destruct (alias_truthy a) | reflexivity].
  - destruct (raw_GeoLocation record) as [g|]; [now destruct (geo_truthy g) | reflexivity].
Qed.

Lemma optional_members_copied_when_present_witness :
  Dict.get txt_normalized "weight" = Some (PInt 0)
  /\ Dict.get txt_normalized "region" = None.
Proof.
  pose proof (optional_members_copied_when_present default_config txt_example
                "example.com" "Z1" txt_normalized eq_refl) as H.
  split; [exact (proj1 (proj2 (proj2 (proj2 (proj2 (proj2 (proj2 (proj2 H))))))))
         | exact (proj1 (proj2 (proj2 (proj2 (proj2 (proj2 (proj2 H)))))))].
Defined.

Lemma build_record_attributes_ignores_key (record : pydict) (v : pyval) :
  build_record_attributes (Dict.set record "key" v) = build_record_attributes record.
Proof.
  unfold build_record_attributes, pyget. cbn [List.fold_left].
  now rewrite !get_set_other by reflexivity.
Qed.

Lemma assign_keys_total (zone_key : string) (records : list pydict) :
  Forall (fun record => exists attributes, build_record_attributes record = Some attributes)
    records ->
  forall state,
  exists state' extra,
    assign_keys zone_key state records = Some state'
    /\ import_entries state' = (import_entries state ++ extra)%list
    /\ List.length extra = List.length records
    /\ Forall (fun entry => fst (fst entry) = zone_key) extra
    /\ (forall key,
          Dict.mem (record_blocks state') key = true
          <-> Dict.mem (record_blocks state) key = true
              \/ In key (List.map (fun entry => snd (fst entry)) extra)).
Proof.
  induction 1 as [|record rest [attributes Hb] Hrest IH]; intros state.
  - exists state, []. cbn [assign_keys List.length List.map In].
    rewrite app_nil_r. repeat split; auto. now intros [H|[]].
  - cbn [assign_keys]. unfold assign_key.
    rewrite build_record_attributes_ignores_key, Hb.
    match goal with
    | |- context [assign_keys zone_key ?s rest] =>
        destruct (IH s) as (s' & extra & E & Ee & L & Fz & Km)
    end.
    cbn [import_entries record_blocks] in *.
    match type of Ee with
    | _ = ((_ ++ [?e]) ++ _)%list => exists s', (e :: extra)
    end.
    split; [exact E|]. split; [now rewrite Ee, <- app_assoc|].
    split; [cbn [List.length]; now rewrite L|].
    split; [now constructor|].
    intros key. rewrite Km. unfold Dict.mem at 1. rewrite get_set.
    cbn [List.map In fst snd].
    match goal with
    | |- context [String.eqb ?k key] => destruct (String.eqb_spec k key) as [Ek|Nk]
    end.
    + split; [intros _; right; now left | intros _; now left].
    + fold (Dict.mem (record_blocks state) key).
      split; [intros [H|H]; [now left | right; now right]
             | intros [H|[H|H]]; [now left | contradiction | now right]].
Qed.

(** X12: [collect_zone_records] never raises on the records of a zone; it
    returns one import entry for each record that passes the filters, every
    entry carries the zone key, and the record blocks are keyed by exactly
    the record keys of the import entries. *)
Theorem collect_zone_records_total :
  forall (Pattern : Type) (search : Pattern -> string -> bool) cfg items
         zone_id zone_name private_zone skip_patterns include_patterns,
  exists filename_domain record_blocks import_entries,
    collect_zone_records Pattern search cfg items zone_id zone_name private_zone
      skip_patterns include_patterns
    = Some (zone_key_of zone_name private_zone,
            local_var_of (zone_key_of zone_name private_zone),
            filename_domain, record_blocks, import_entries)
    /\ List.length import_entries
       = List.length (filter_records Pattern search cfg skip_patterns include_patterns
                        zone_name zone_id items [])
    /\ Forall (fun entry => fst (fst entry) = zone_key_of zone_name private_zone)
         import_entries
    /\ (forall key,
          Dict.mem record_blocks key = true
          <-> In key (List.map (fun entry => snd (fst entry)) import_entries)).
Proof.
  intros. unfold collect_zone_records.
  set (records := filter_records Pattern search cfg skip_patterns include_patterns
                    zone_name zone_id items []).
  assert (Hgood : Forall (fun record =>
                            exists attributes,
                              build_record_attributes record = Some attributes)
                    (sorted_by triple_ltb record_sort_key records)).
  { apply Forall_forall. intros record Hin.
    apply (Permutation_in _ (sorted_by_permutation triple_ltb record_sort_key records)) in Hin.
    apply filter_records_In in Hin. destruct Hin as [[]|(item & _ & Hn & _)].
    exact (normalized_record_projects _ _ _ _ _ Hn). }
  destruct (assign_keys_total (zone_key_of zone_name private_zone) _ Hgood
              {| record_blocks := []; counts := []; import_entries := [] |})
    as (s' & extra & E & Ee & L & Fz & Km).
  rewrite E. cbn [import_entries record_blocks List.app] in *.
  do 3 eexists. split; [reflexivity|].
  rewrite Ee. split.
  - rewrite L. apply Permutation_length, sorted_by_permutation.
  - split; [exact Fz|]. intros key. rewrite Km.
    split; [intros [H|H]; [discriminate H | exact H] | now right].
Qed.

Lemma to_uint_normal (n : nat) : Nat.to_uint n = Decimal.unorm (Nat.to_uint n).
Proof.
  rewrite <- (DecimalNat.Unsigned.to_of (Nat.to_uint n)).
  now rewrite DecimalNat.Unsigned.of_to.
Qed.

Lemma to_uint_nonnil (n : nat) : Nat.to_uint n <> Decimal.Nil.
Proof. rewrite to_uint_normal. apply DecimalFacts.unorm_nonnil. Qed.

Lemma str_nat_injective (n m : nat) : PyStr.str_nat n = PyStr.str_nat m -> n = m.
Proof.
  unfold PyStr.str_nat. intros H.
  apply (f_equal NilZero.uint_of_string) in H.
  rewrite !NilZero.usu in H by apply to_uint_nonnil.
  injection H as H. now apply DecimalNat.Unsigned.to_uint_inj.
Qed.

Lemma str_nat_nonempty (n : nat) : PyStr.str_nat n <> "".
Proof.
  unfold PyStr.str_nat. intros H.
  apply (f_equal NilZero.uint_of_string) in H.
  rewrite NilZero.usu in H by apply to_uint_nonnil. discriminate H.
Qed.

Lemma str_nat_no_leading_zero (n : nat) (t : string) :
  PyStr.str_nat n = String "0" t -> t = "".
Proof.
  unfold PyStr.str_nat. pose proof (to_uint_normal n) as N.
  destruct (Nat.to_uint n) as [|d|d|d|d|d|d|d|d|d|d] eqn:E; cbn; intros H;
    try discriminate H.
  - now injection H as <-.
  - injection H as H. rewrite DecimalFacts.unorm_D0 in N.
    unfold Decimal.unorm in N.
    destruct (Decimal.nzhead d) eqn:Z; try discriminate N.
    + injection N as ->. now subst t.
    + exfalso. apply (DecimalFacts.nzhead_nonzero d d). now rewrite Z, <- N.
Qed.

Lemma fmt_02d_injective (n m : nat) : PyStr.fmt_02d n = PyStr.fmt_02d m -> n = m.
Proof.
  unfold PyStr.fmt_02d. cbv zeta.
  destruct (String.length (PyStr.str_nat n) <? 2)%nat eqn:Ln,
           (String.length (PyStr.str_nat m) <? 2)%nat eqn:Lm; cbn [append]; intros H.
  - injection H as H. now apply str_nat_injective.
  - symmetry in H. apply str_nat_no_leading_zero in H.
    now apply str_nat_nonempty in H.
  - apply str_nat_no_leading_zero in H. now apply str_nat_nonempty in H.
  - now apply str_nat_injective.
Qed.

Lemma append_inv_head (a x y : string) : a ++ x = a ++ y -> x = y.
Proof.
  induction a as [|c r IH]; cbn [append]; [auto|].
  intros H. injection H as H. now apply IH.
Qed.

Lemma numbered_key_injective (base : string) (seen seen' : nat) :
  (if (seen =? 0)%nat then base else base ++ "_" ++ PyStr.fmt_02d (S seen))
  = (if (seen' =? 0)%nat then base else base ++ "_" ++ PyStr.fmt_02d (S seen')) ->
  seen = seen'.
Proof.
  destruct seen as [|k], seen' as [|k']; cbn [Nat.eqb]; intros H.
  - reflexivity.
  - exfalso. rewrite <- (append_nil_r base) in H at 1.
    apply append_inv_head in H. discriminate H.
  - exfalso. rewrite <- (append_nil_r base) in H at 2.
    apply append_inv_head in H. discriminate H.
  - apply append_inv_head in H. cbn [append] in H. injection H as H.
    apply fmt_02d_injective in H. now injection H as ->.
Qed.

Lemma assign_key_count_grows (zone_key : string) (state state' : KeyState)
    (record : pydict) (base : string) (n : nat) :
  assign_key zone_key state record = Some state' ->
  Dict.get (counts state) base = Some n ->
  exists n', Dict.get (counts state') base = Some n' /\ n <= n'.
Proof.
  intros H Hn. pose proof (assign_key_rule _ _ _ _ H) as [_ Hc]. cbn zeta in Hc.
  unfold assign_key in H. cbn zeta in H.
  destruct (build_record_attributes _); [|discriminate].
  injection H as <-. cbn [counts] in *. rewrite get_set in *.
  destruct (String.eqb_spec (str_field record "key_base") base) as [->|N].
  - rewrite Hn. exists (n + 1). split; [reflexivity | lia].
  - now exists n.
Qed.

Lemma assign_keys_count_grows (zone_key : string) (records : list pydict) (base : string) :
  forall state state' n,
    assign_keys zone_key state records = Some state' ->
    Dict.get (counts state) base = Some n ->
    exists n', Dict.get (counts state') base = Some n' /\ n <= n'.
Proof.
  induction records as [|record rest IH]; intros state state' n H Hn; cbn [assign_keys] in H.
  - injection H as <-. now exists n.
  - destruct (assign_key zone_key state record) as [s1|] eqn:E; [|discriminate].
    destruct (assign_key_count_grows _ _ _ _ _ _ E Hn) as (n1 & H1 & L1).
    destruct (IH _ _ _ H H1) as (n' & H' & L'). exists n'. split; [exact H' | lia].
Qed.

(** X13: within one run a record never receives the key given earlier to
    another record with the same key base: the suffix grows with each
    occurrence and different counts give different keys. *)
Theorem same_base_keys_differ :
  forall zone_key state0 record1 state1 between state2 record2 state3,
    assign_key zone_key state0 record1 = Some state1 ->
    assign_keys zone_key state1 between = Some state2 ->
    assign_key zone_key state2 record2 = Some state3 ->
    str_field record1 "key_base" = str_field record2 "key_base" ->
    last_record_key state1 <> last_record_key state3.
Proof.
  intros zone_key s0 r1 s1 mid s2 r2 s3 H1 Hmid H2 Hbase.
  pose proof (assign_key_rule _ _ _ _ H1) as [E1 C1].
  pose proof (assign_key_rule _ _ _ _ H2) as [E2 C2]. cbn zeta in *.
  unfold last_record_key. rewrite E1, E2, !last_last. cbn [fst snd].
  rewrite <- Hbase in *.
  destruct (assign_keys_count_grows _ _ _ _ _ _ Hmid C1) as (n2 & Hn2 & L2).
  rewrite Hn2. intros K. apply numbered_key_injective in K. lia.
Qed.

Lemma same_base_keys_differ_witness :
  last_record_key (state_after (firstn 1 sample_records))
  <> last_record_key (state_after (firstn 2 sample_records)).
Proof.
  apply (same_base_keys_differ "example.com" empty_key_state
           (nth 0 sample_records []) (state_after (firstn 1 sample_records)) []
           (state_after (firstn 1 sample_records)) (nth 1 sample_records [])
           (state_after (firstn 2 sample_records))); vm_compute; reflexivity.
Defined.

(** ** Record keys as identifiers *)

Lemma sanitize_subdomain_chars (value : string) :
  PyStr.forallb is_label_char (sanitize_subdomain value) = true.
Proof.
  unfold sanitize_subdomain.
  destruct (PyStr.is_empty value); [reflexivity|]. cbv zeta.
  destruct (PyStr.strip_with _ _) as [|c t] eqn:E; cbn [PyStr.is_empty]; [reflexivity|].
  rewrite <- E. apply forallb_strip_with, collapse_label_chars.
Qed.

Lemma forallb_impl (p q : ascii -> bool) (s : string) :
  (forall c, p c = true -> q c = true) ->
  PyStr.forallb p s = true -> PyStr.forallb q s = true.
Proof.
  intros H. induction s as [|c r IH]; [reflexivity|].
  cbn [PyStr.forallb]. intros F. apply andb_true_iff in F. destruct F as [Fc Fr].
  now rewrite (H c Fc), (IH Fr).
Qed.

Lemma label_char_word (c : ascii) : is_label_char c = true -> PyStr.is_word c = true.
Proof. destruct c as [[] [] [] [] [] [] [] []]; cbv; congruence. Qed.

Lemma digit_word (c : ascii) : PyStr.is_digit c = true -> PyStr.is_word c = true.
Proof. destruct c as [[] [] [] [] [] [] [] []]; cbv; congruence. Qed.

Lemma alpha_lower_upper (c : ascii) :
  PyStr.is_alpha c = true ->
  PyStr.is_alpha (PyStr.lower_char (PyStr.upper_char c)) = true.
Proof. destruct c as [[] [] [] [] [] [] [] []]; cbv; congruence. Qed.

Lemma alpha_word (c : ascii) :
  PyStr.is_alpha c = true -> PyStr.is_word c = true /\ PyStr.is_ident_start c = true.
Proof. unfold PyStr.is_word, PyStr.is_alnum, PyStr.is_ident_start. now intros ->. Qed.

Lemma uint_digits (d : Decimal.uint) :
  PyStr.forallb PyStr.is_digit (NilEmpty.string_of_uint d) = true.
Proof. induction d; cbn; auto. Qed.

Lemma fmt_02d_digits (n : nat) : PyStr.forallb PyStr.is_digit (PyStr.fmt_02d n) = true.
Proof.
  assert (H : PyStr.forallb PyStr.is_digit (PyStr.str_nat n) = true).
  { unfold PyStr.str_nat, NilZero.string_of_uint.
    destruct (Nat.to_uint n) eqn:E; try (rewrite <- E; apply uint_digits). reflexivity. }
  unfold PyStr.fmt_02d. cbv zeta.
  destruct (String.length (PyStr.str_nat n) <? 2)%nat; [|exact H].
  cbn [append PyStr.forallb]. now rewrite H.
Qed.

Lemma bare_identifier_append (name tail : string) :
  bare_identifier name = true -> PyStr.forallb PyStr.is_word tail = true ->
  bare_identifier (name ++ tail) = true.
Proof.
  destruct name as [|c r]; [discriminate|]. cbn [append bare_identifier].
  intros H Ht. apply andb_true_iff in H. destruct H as [Hc Hr].
  now rewrite Hc, forallb_append, Hr, Ht.
Qed.

Lemma alpha_not_sharp_s (c : ascii) :
  PyStr.is_alpha c = true -> (PyStr.code c =? 223)%nat = false.
Proof. destruct c as [[] [] [] [] [] [] [] []]; cbv; congruence. Qed.

Lemma upper_alpha (s : string) :
  PyStr.forallb PyStr.is_alpha s = true -> PyStr.upper s = PyStr.map PyStr.upper_char s.
Proof.
  induction s as [|c r IH]; [reflexivity|].
  cbn [PyStr.forallb]. intros H. apply andb_true_iff in H. destruct H as [Hc Hr].
  cbn [PyStr.upper PyStr.map]. now rewrite (alpha_not_sharp_s c Hc), (IH Hr).
Qed.

Lemma key_base_bare (record_type relative_name : string) :
  PyStr.forallb PyStr.is_alpha record_type = true ->
  bare_identifier
    (PyStr.lower (PyStr.upper record_type) ++ "_" ++ sanitize_subdomain relative_name) = true.
Proof.
  intros H. rewrite (upper_alpha record_type H).
  assert (Hs : PyStr.forallb PyStr.is_word (sanitize_subdomain relative_name) = true)
    by (eapply forallb_impl; [apply label_char_word | apply sanitize_subdomain_chars]).
  destruct record_type as [|c r]; [cbn [PyStr.lower PyStr.map append]; exact Hs|].
  cbn [PyStr.forallb] in H. apply andb_true_iff in H. destruct H as [Hc Hr].
  unfold PyStr.lower. cbn [PyStr.map append bare_identifier].
  rewrite (proj2 (alpha_word _ (alpha_lower_upper c Hc))). cbn [andb].
  rewrite forallb_append. cbn [append PyStr.forallb]. rewrite Hs.
  replace (PyStr.is_word "_") with true by reflexivity. rewrite andb_true_r.
  clear Hc. induction r as [|x r' IH]; [reflexivity|].
  cbn [PyStr.forallb] in Hr. apply andb_true_iff in Hr. destruct Hr as [Hx Hr'].
  cbn [PyStr.map PyStr.forallb].
  now rewrite (proj1 (alpha_word _ (alpha_lower_upper x Hx))), (IH Hr').
Qed.

(** X14: for a record whose type consists of ASCII letters, the key that
    the key loop assigns is a letter or underscore followed by letters,
    digits and underscores, so that the unquoted key of the records file
    is an identifier and [format_name] leaves it as it is. *)
Theorem record_key_is_identifier :
  forall cfg item zone_name zone_id normalized zone_key state state',
    PyStr.forallb PyStr.is_alpha (or_str (raw_Type item) "") = true ->
    normalize_record cfg item zone_name zone_id = Some normalized ->
    assign_key zone_key state normalized = Some state' ->
    bare_identifier (last_record_key state') = true
    /\ format_name (last_record_key state') = last_record_key state'.
Proof.
  intros cfg item zone_name zone_id normalized zone_key state state' Ht Hn Ha.
  enough (H : bare_identifier (last_record_key state') = true)
    by (split; [exact H | now apply format_name_bare]).
  destruct (normalize_record_fields _ _ _ _ _ Hn) as (_ & Hk & _).
  destruct (assign_key_rule _ _ _ _ Ha) as [He _]. cbn zeta in He.
  unfold last_record_key. rewrite He, last_last. cbn [fst snd].
  unfold str_field. rewrite Hk.
  pose proof (key_base_bare _ (compute_relative_name
                                 (unescape_wildcard
                                    (PyStr.rstrip_dot (or_str (raw_Name item) "")))
                                 zone_name) Ht) as Hb.
  match goal with |- context [if ?c then _ else _] => destruct c end; [exact Hb|].
  apply bare_identifier_append; [exact Hb|].
  cbn [append PyStr.forallb]. replace (PyStr.is_word "_") with true by reflexivity.
  eapply forallb_impl; [apply digit_word | apply fmt_02d_digits].
Qed.

Lemma record_key_is_identifier_witness :
  bare_identifier (last_record_key (state_after (firstn 1 sample_records))) = true.
Proof.
  refine (proj1 (record_key_is_identifier default_config (nth 0 colliding_records txt_example)
                   "example.com" "Z1" (nth 0 sample_records []) "example.com"
                   empty_key_state (state_after (firstn 1 sample_records)) _ _ _));
    vm_compute; reflexivity.
Defined.

(** ** The imports file *)

Lemma fold_left_append {A : Type} (g : A -> list string)
    (F : list string -> A -> list string) (items : list A) :
  (forall acc x, F acc x = (acc ++ g x)%list) ->
  forall init, List.fold_left F items init = (init ++ List.flat_map g items)%list.
Proof.
  intros HF. induction items as [|x rest IH]; intros init; cbn [List.fold_left List.flat_map].
  - now rewrite app_nil_r.
  - now rewrite IH, HF, <- app_assoc.
Qed.

Lemma concat_cons (sep x y : string) (l : list string) :
  String.concat sep (x :: y :: l) = x ++ sep ++ String.concat sep (y :: l).
Proof. reflexivity. Qed.

Lemma import_lines_text (targets : list (string * string)) :
  String.concat nl (List.flat_map (fun t => import_block (fst t) (snd t)) targets)
  = String.concat nl (List.map import_text targets).
Proof.
  induction targets as [|t rest IH]; [reflexivity|].
  destruct rest as [|t' rest'].
  - cbn. unfold import_text. now rewrite !append_assoc.
  - remember (t' :: rest') as rest eqn:E.
    cbn [List.flat_map List.map]. cbn [import_block List.app].
    assert (N1 : exists x l, List.flat_map (fun t => import_block (fst t) (snd t)) rest = x :: l)
      by (subst rest; cbn; eauto).
    assert (N2 : exists x l, List.map import_text rest = x :: l)
      by (subst rest; cbn; eauto).
    destruct N1 as (x1 & l1 & E1), N2 as (x2 & l2 & E2).
    rewrite E1, E2 in *. rewrite !concat_cons, IH.
    unfold import_text. rewrite !append_assoc. reflexivity.
Qed.

Lemma rstrip_with_kept (p : ascii -> bool) (s : string) (c : ascii) :
  p c = false -> PyStr.rstrip_with p (s ++ String c "") = s ++ String c "".
Proof.
  intros H. induction s as [|x r IH]; cbn [append PyStr.rstrip_with].
  - now rewrite H, andb_false_r.
  - rewrite IH. now destruct r.
Qed.

Lemma import_texts_end (targets : list (string * string)) :
  targets <> [] ->
  exists body, String.concat nl (List.map import_text targets) = body ++ "}" ++ nl.
Proof.
  induction targets as [|t rest IH]; [contradiction|]. intros _.
  destruct rest as [|t' rest'].
  - cbn [List.map String.concat]. unfold import_text.
    exists ("import {" ++ nl ++ fst t ++ nl ++ "  id = " ++ json_string (snd t) ++ nl).
    rewrite !append_assoc. reflexivity.
  - destruct IH as [body E]; [discriminate|].
    cbn [List.map] in *. rewrite concat_cons, E.
    exists (import_text t ++ nl ++ body). rewrite !append_assoc. reflexivity.
Qed.

(** X15: the imports file holds one import statement for the zone
    resource (when an id is given), one per zone in the order of the zone
    keys and one per record in the order of zone key and record key; the
    statements are separated by one blank line, the text ends with one
    newline, and without any statement the file is empty. *)
Theorem imports_file_text :
  forall import_entries single_zone zone_resource_id zone_import_entries,
    write_imports_file import_entries single_zone zone_resource_id zone_import_entries
    = String.concat nl
        (List.map import_text
           (import_targets import_entries single_zone zone_resource_id zone_import_entries)).
Proof.
  intros entries single zid zentries. unfold write_imports_file. cbv zeta.
  set (init := match zid with Some id => _ | None => _ end).
  assert (Hinit : init
                  = List.flat_map (fun t => import_block (fst t) (snd t))
                      (if opt_truthy zid
                       then [("  to = module.zone.aws_route53_zone.this[0]", or_str zid "")]
                       else [])).
  { subst init. destruct zid as [id|]; [|reflexivity].
    cbn [opt_truthy]. destruct id; reflexivity. }
  rewrite (fold_left_append
             (fun item : string * string =>
                import_block
                  ("  to = module.zones[" ++ json_string (fst item) ++ "].aws_route53_zone.this[0]")
                  (snd item)))
    by (intros acc [k z]; reflexivity).
  rewrite (fold_left_append
             (fun item : string * string * string =>
                import_block
                  (if single
                   then "  to = module.zone.aws_route53_record.this["
                        ++ json_string (snd (fst item)) ++ "]"
                   else "  to = module.zones[" ++ json_string (fst (fst item))
                        ++ "].aws_route53_record.this[" ++ json_string (snd (fst item)) ++ "]")
                  (snd item)))
    by (intros acc [[k r] i]; reflexivity).
  rewrite Hinit.
  set (targets := import_targets entries single zid zentries).
  assert (Hlines : forall (A B : Type) (f : A -> B) (g : B -> list string) (l : list A),
             List.flat_map (fun x => g (f x)) l = List.flat_map g (List.map f l)).
  { intros A B f g l. induction l as [|x r IH]; [reflexivity|]. cbn. now rewrite IH. }
  match goal with
  | |- context [PyStr.join nl ?lines] =>
      assert (E : lines = List.flat_map (fun t => import_block (fst t) (snd t)) targets)
  end.
  { subst targets. unfold import_targets. cbv zeta. rewrite !flat_map_app.
    rewrite <- !Hlines, <- app_assoc. reflexivity. }
  rewrite E. unfold PyStr.join. rewrite import_lines_text.
  destruct targets as [|t rest] eqn:T; [reflexivity|].
  destruct (import_texts_end (t :: rest)) as [body Eb]; [discriminate|].
  rewrite Eb. cbn [List.flat_map import_block List.app nonempty].
  unfold PyStr.rstrip.
  rewrite <- append_assoc, rstrip_with_app_spaces by reflexivity.
  rewrite rstrip_with_kept by reflexivity. now rewrite append_assoc.
Qed.

(** ** Zone ids and hostname patterns *)

Lemma contains_char_cons (sep c : ascii) (r : string) :
  PyStr.contains (String c r) (String sep "")
  = Ascii.eqb sep c || PyStr.contains r (String sep "").
Proof. cbn [PyStr.contains]. now rewrite prefix_char. Qed.

Lemma split_on_no_sep (sep : ascii) (s : string) :
  Forall (fun part => PyStr.contains part (String sep "") = false) (PyStr.split_on sep s).
Proof.
  induction s as [|c r IH]; cbn [PyStr.split_on]; [repeat constructor|].
  destruct (Ascii.eqb c sep) eqn:E; [constructor; [reflexivity | exact IH]|].
  destruct (PyStr.split_on sep r) as [|h t]; [repeat constructor|].
  - now rewrite contains_char_cons, Ascii.eqb_sym, E.
  - inversion IH as [|? ? Hh Ht]; subst. constructor; [|exact Ht].
    now rewrite contains_char_cons, Ascii.eqb_sym, E, Hh.
Qed.

Lemma strip_with_head (p : ascii -> bool) (s : string) (c : ascii) (t : string) :
  PyStr.strip_with p s = String c t -> p c = false.
Proof.
  unfold PyStr.strip_with. intros E.
  destruct (rstrip_with_head _ _ _ _ E) as [t' E'].
  apply (lstrip_with_head _ _ _ _ E').
Qed.

Lemma strip_with_idempotent (p : ascii -> bool) (s : string) :
  PyStr.strip_with p (PyStr.strip_with p s) = PyStr.strip_with p s.
Proof.
  destruct (PyStr.strip_with p s) as [|c t] eqn:E; [reflexivity|].
  pose proof (strip_with_head _ _ _ _ E) as Hc.
  unfold PyStr.strip_with at 1. cbn [PyStr.lstrip_with]. rewrite Hc.
  rewrite <- E. unfold PyStr.strip_with. apply rstrip_with_idempotent.
Qed.

(** X16: every zone id returned by [parse_zone_ids_arg] is non-empty,
    holds no comma and neither starts nor ends with a double quote. *)
Theorem zone_ids_are_clean :
  forall raw,
    Forall (fun zone_id =>
              zone_id <> ""
              /\ PyStr.contains zone_id "," = false
              /\ String.prefix quote zone_id = false
              /\ PyStr.endswith zone_id quote = false)
      (parse_zone_ids_arg raw).
Proof.
  intros raw. apply Forall_forall. intros zone_id Hin.
  unfold parse_zone_ids_arg in Hin. apply filter_In in Hin. destruct Hin as [Hin T].
  apply in_flat_map in Hin. destruct Hin as (token & _ & Hin).
  destruct (PyStr.truthy token); [|contradiction].
  apply in_map_iff in Hin. destruct Hin as (part & <- & Hpart).
  pose proof (split_on_no_sep "," token) as Hc.
  rewrite Forall_forall in Hc. specialize (Hc part Hpart).
  split; [intros E; rewrite E in T; discriminate T|].
  split; [unfold clean_zone_id, PyStr.strip; now do 2 apply contains_strip_with|].
  unfold clean_zone_id in *. split.
  - destruct (PyStr.strip_with _ (PyStr.strip part)) as [|c t] eqn:E; [reflexivity|].
    unfold quote. rewrite prefix_char. apply (strip_with_head _ _ _ _ E).
  - unfold PyStr.strip_with.
    destruct (PyStr.endswith _ quote) eqn:L; [|reflexivity].
    apply rstrip_with_last in L. discriminate L.
Qed.


Lemma split_on_self (sep : ascii) (s : string) :
  PyStr.contains s (String sep "") = false -> PyStr.split_on sep s = [s].
Proof.
  induction s as [|c r IH]; [reflexivity|].
  rewrite contains_char_cons. intros H. apply orb_false_iff in H. destruct H as [Hc Hr].
  cbn [PyStr.split_on]. now rewrite Ascii.eqb_sym, Hc, (IH Hr).
Qed.

Lemma split_on_app (sep : ascii) (s t : string) :
  PyStr.contains s (String sep "") = false ->
  PyStr.split_on sep (s ++ String sep t) = s :: PyStr.split_on sep t.
Proof.
  induction s as [|c r IH]; cbn [append PyStr.split_on].
  - now rewrite Ascii.eqb_refl.
  - rewrite contains_char_cons. intros H. apply orb_false_iff in H. destruct H as [Hc Hr].
    now rewrite Ascii.eqb_sym, Hc, (IH Hr).
Qed.

Lemma split_on_join (sep : ascii) (parts : list string) :
  parts <> [] ->
  Forall (fun part => PyStr.contains part (String sep "") = false) parts ->
  PyStr.split_on sep (PyStr.join (String sep "") parts) = parts.
Proof.
  unfold PyStr.join. induction parts as [|x rest IH]; [contradiction|].
  intros _ H. inversion H as [|? ? Hx Hrest]; subst.
  destruct rest as [|y rest']; [now apply split_on_self|].
  rewrite concat_cons. cbn [append]. rewrite split_on_app by exact Hx.
  now rewrite IH.
Qed.

Lemma lstrip_with_noop (p : ascii -> bool) (s : string) :
  (forall c t, s = String c t -> p c = false) -> PyStr.lstrip_with p s = s.
Proof.
  destruct s as [|c t]; [reflexivity|]. intros H.
  cbn [PyStr.lstrip_with]. now rewrite (H c t eq_refl).
Qed.

Lemma rstrip_with_noop (x : ascii) (s : string) :
  PyStr.endswith s (String x "") = false -> PyStr.rstrip_with (Ascii.eqb x) s = s.
Proof.
  induction s as [|c r IH]; [reflexivity|].
  cbn [PyStr.endswith]. intros H. apply orb_false_iff in H. destruct H as [He Hr].
  cbn [PyStr.rstrip_with]. rewrite (IH Hr).
  destruct r as [|c' r']; [|reflexivity].
  cbn [PyStr.is_empty andb].
  destruct (Ascii.eqb_spec x c) as [->|N]; [|reflexivity].
  now rewrite String.eqb_refl in He.
Qed.

Lemma clean_zone_id_noop (zone_id : string) :
  PyStr.strip zone_id = zone_id ->
  String.prefix quote zone_id = false ->
  PyStr.endswith zone_id quote = false ->
  clean_zone_id zone_id = zone_id.
Proof.
  intros Hs Hp He. unfold clean_zone_id. rewrite Hs. unfold PyStr.strip_with.
  rewrite lstrip_with_noop.
  - now apply rstrip_with_noop.
  - intros c t ->. unfold quote in Hp. now rewrite prefix_char in Hp.
Qed.

Lemma filter_truthy_noop (items : list string) :
  Forall (fun s => s <> "") items -> List.filter PyStr.truthy items = items.
Proof.
  induction 1 as [|s rest Hs _ IH]; [reflexivity|].
  cbn [List.filter]. destruct s; [contradiction|]. cbn. now rewrite IH.
Qed.

(** X18: zone ids that are non-empty, hold no comma and have neither
    white space nor a double quote at their ends are read back unchanged,
    in order, from their comma-separated form and from the list form;
    [get_zone_ids] returns them, and raises only when there is none. *)
Theorem zone_ids_round_trip :
  forall zone_ids,
    Forall (fun zone_id =>
              zone_id <> ""
              /\ PyStr.contains zone_id "," = false
              /\ PyStr.strip zone_id = zone_id
              /\ String.prefix quote zone_id = false
              /\ PyStr.endswith zone_id quote = false)
      zone_ids ->
    parse_zone_ids_arg (RawString (PyStr.join "," zone_ids)) = zone_ids
    /\ parse_zone_ids_arg (RawItems zone_ids) = zone_ids
    /\ get_zone_ids (RawItems zone_ids)
       = if nonempty zone_ids then Some zone_ids else None.
Proof.
  intros ids H.
  assert (Hne : Forall (fun s => s <> "") ids)
    by (eapply Forall_impl; [|exact H]; cbn; tauto).
  assert (Hcomma : Forall (fun s => PyStr.contains s "," = false) ids)
    by (eapply Forall_impl; [|exact H]; cbn; tauto).
  assert (Hclean : List.map clean_zone_id ids = ids).
  { clear Hne Hcomma. induction H as [|x rest (_ & _ & Hs & Hp & He) _ IH]; [reflexivity|].
    cbn [List.map]. now rewrite IH, clean_zone_id_noop. }
  assert (Hitems : parse_zone_ids_arg (RawItems ids) = ids).
  { unfold parse_zone_ids_arg.
    destruct ids as [|x rest]; [reflexivity|]. cbn [nonempty].
    remember (x :: rest) as ids eqn:E. clear E.
    induction H as [|y more (Hy & Hc & Hs & Hp & He) Hmore IH]; [reflexivity|].
    inversion Hne; subst. inversion Hcomma; subst.
    cbn [List.map] in Hclean. injection Hclean as Hy' Hrest.
    cbn [List.flat_map]. destruct y as [|c t] eqn:Ey; [contradiction|]. rewrite <- Ey in *.
    replace (PyStr.truthy y) with true by now subst y.
    rewrite split_on_self by assumption. cbn [List.map List.app List.filter].
    rewrite Hy'. replace (PyStr.truthy y) with true by now subst y.
    f_equal. now apply IH. }
  split; [|split; [exact Hitems | unfold get_zone_ids; cbv zeta; now rewrite Hitems]].
  unfold parse_zone_ids_arg.
  destruct ids as [|x rest]; [reflexivity|].
  assert (T : PyStr.truthy (PyStr.join "," (x :: rest)) = true).
  { inversion Hne as [|? ? Hx _]; subst. unfold PyStr.join.
    destruct x; [contradiction|]. now destruct rest. }
  rewrite T. cbn [List.flat_map]. rewrite T, app_nil_r.
  rewrite (split_on_join "," (x :: rest)) by (discriminate || exact Hcomma).
  rewrite Hclean. now apply filter_truthy_noop.
Qed.

Lemma zone_ids_round_trip_witness :
  parse_zone_ids_arg (RawString (PyStr.join "," ["Z1ABC"; "Z2DEF"])) = ["Z1ABC"; "Z2DEF"]
  /\ parse_zone_ids_arg (RawItems ["Z1ABC"; "Z2DEF"]) = ["Z1ABC"; "Z2DEF"]
  /\ get_zone_ids (RawItems ["Z1ABC"; "Z2DEF"]) = Some ["Z1ABC"; "Z2DEF"].
Proof.
  apply (zone_ids_round_trip ["Z1ABC"; "Z2DEF"]).
  repeat constructor; (discriminate || reflexivity).
Defined.

(** ** Zone details and zone configuration *)

Lemma mem_false_not_in {V : Type} (d : list (string * V)) (k : string) :
  Dict.mem d k = false -> ~ In k (Dict.keys d).
Proof.
  unfold Dict.mem, Dict.keys. induction d as [|[k' v] r IH]; cbn; [tauto|].
  destruct (String.eqb_spec k' k) as [->|N]; [discriminate|].
  intros H [E|Hin]; [contradiction | now apply IH].
Qed.

Lemma keys_set_NoDup {V : Type} (d : list (string * V)) (k : string) (v : V) :
  NoDup (Dict.keys d) -> NoDup (Dict.keys (Dict.set d k v)).
Proof.
  intros H. rewrite keys_set. destruct (Dict.mem d k) eqn:M; [exact H|].
  apply NoDup_app; [exact H | repeat constructor; intros [] | ].
  intros x Hx [E|[]]. subst x. now apply (mem_false_not_in d k).
Qed.

Lemma collect_tags_keys (resource_tags : list TagEntry) :
  forall tags,
    NoDup (Dict.keys tags) /\ Forall (fun key => key <> "") (Dict.keys tags) ->
    NoDup (Dict.keys (collect_tags resource_tags tags))
    /\ Forall (fun key => key <> "") (Dict.keys (collect_tags resource_tags tags)).
Proof.
  induction resource_tags as [|entry rest IH]; intros tags [Hn Hf]; cbn [collect_tags];
    [now split|].
  destruct (tag_Key entry) as [key|]; [|now apply IH].
  destruct key as [|c t]; [now apply IH|]. cbn [PyStr.truthy PyStr.is_empty negb].
  apply IH. split; [now apply keys_set_NoDup | apply keys_set_Forall; [exact Hf | discriminate]].
Qed.

Lemma collect_tags_get (resource_tags : list TagEntry) (key : string) :
  key <> "" ->
  forall tags,
    Dict.get (collect_tags resource_tags tags) key
    = match tag_lookup resource_tags key with
      | Some value => Some value
      | None => Dict.get tags key
      end.
Proof.
  intros Hkey. induction resource_tags as [|entry rest IH]; intros tags;
    cbn [collect_tags tag_lookup]; [reflexivity|].
  destruct (tag_Key entry) as [k|].
  - destruct k as [|c t] eqn:Ek.
    + cbn [PyStr.truthy PyStr.is_empty negb]. rewrite IH.
      destruct (tag_lookup rest key); [reflexivity|].
      destruct (String.eqb_spec "" key) as [<-|]; [contradiction | reflexivity].
    + cbn [PyStr.truthy PyStr.is_empty negb]. rewrite IH.
      destruct (tag_lookup rest key); [reflexivity|]. rewrite get_set.
      now destruct (String.eqb (String c t) key).
  - rewrite IH. now destruct (tag_lookup rest key).
Qed.

Lemma collect_vpcs_ids (associations : list VpcAssociation) :
  Forall (fun vpc => opt_truthy (vpc_id vpc) = true) (collect_vpcs associations)
  /\ List.map vpc_id (collect_vpcs associations)
     = List.filter opt_truthy (List.map va_VPCId associations).
Proof.
  induction associations as [|vpc rest [IH1 IH2]]; [now split|].
  cbn [collect_vpcs List.map List.filter].
  destruct (opt_truthy (va_VPCId vpc)) eqn:E; [|now split].
  split; [now constructor | cbn [List.map vpc_id]; now rewrite IH2].
Qed.

Lemma collect_vpcs_filter (associations : list VpcAssociation) :
  collect_vpcs associations
  = List.map (fun vpc => {| vpc_id := va_VPCId vpc; vpc_region := va_VPCRegion vpc |})
      (List.filter (fun vpc => opt_truthy (va_VPCId vpc)) associations).
Proof.
  induction associations as [|vpc rest IH]; [reflexivity|].
  cbn [collect_vpcs List.filter].
  destruct (opt_truthy (va_VPCId vpc)); [cbn [List.map]; now rewrite IH | exact IH].
Qed.

(** X19: the details of a zone never carry a name that ends with a dot;
    the VPCs are exactly the associations that have a non-empty id, in the
    order given, each with the id and the region of its association; the
    tag keys are distinct and non-empty, a key named twice keeps the value
    of its last entry, and the tags are empty when tags are not asked for
    or the tag request fails. *)
Theorem zone_details_shape :
  forall response tag_response resource_tags zone_id include_tags,
    let details := get_zone_details response tag_response zone_id include_tags in
    PyStr.endswith (zd_name details) "." = false
    /\ zd_vpcs details
       = List.map (fun vpc => {| vpc_id := va_VPCId vpc; vpc_region := va_VPCRegion vpc |})
           (List.filter (fun vpc => opt_truthy (va_VPCId vpc))
              (match hz_VPCs response with Some l => l | None => [] end))
    /\ Forall (fun vpc => opt_truthy (vpc_id vpc) = true) (zd_vpcs details)
    /\ NoDup (Dict.keys (zd_tags details))
    /\ Forall (fun key => key <> "") (Dict.keys (zd_tags details))
    /\ Forall (fun key =>
                 Dict.get (zd_tags (get_zone_details response (Some resource_tags) zone_id true))
                   key
                 = tag_lookup resource_tags key)
         (Dict.keys (zd_tags (get_zone_details response (Some resource_tags) zone_id true)))
    /\ zd_tags (get_zone_details response tag_response zone_id false) = []
    /\ zd_tags (get_zone_details response None zone_id include_tags) = [].
Proof.
  intros response tag_response resource_tags zone_id include_tags. cbn zeta.
  unfold get_zone_details. cbn [zd_name zd_vpcs zd_tags].
  split.
  { unfold PyStr.rstrip_dot.
    destruct (PyStr.endswith _ ".") eqn:L; [|reflexivity].
    apply rstrip_with_last in L. discriminate L. }
  split; [apply collect_vpcs_filter|]. split; [apply collect_vpcs_ids|].
  assert (H : forall tags,
             NoDup (Dict.keys (collect_tags tags []))
             /\ Forall (fun key => key <> "") (Dict.keys (collect_tags tags [])))
    by (intros tags; apply collect_tags_keys; split; constructor).
  split; [|split; [|split; [|split]]].
  - destruct include_tags; [|constructor]. destruct tag_response; [apply H | constructor].
  - destruct include_tags; [|constructor]. destruct tag_response; [apply H | constructor].
  - destruct (H resource_tags) as [_ Hf]. rewrite Forall_forall in *.
    intros key Hin. rewrite collect_tags_get by now apply Hf.
    now destruct (tag_lookup resource_tags key).
  - reflexivity.
  - now destruct include_tags.
Qed.

Lemma set_new {V : Type} (d : list (string * V)) (k : string) (v : V) :
  ~ In k (Dict.keys d) -> Dict.set d k v = (d ++ [(k, v)])%list.
Proof.
  unfold Dict.keys. induction d as [|[k' v'] r IH]; cbn; [reflexivity|].
  intros H. destruct (String.eqb_spec k' k) as [->|N]; [tauto|].
  rewrite IH; [reflexivity | tauto].
Qed.

Lemma dict_of_items_distinct (items : list (string * pyval)) :
  NoDup (List.map fst items) -> dict_of_items items = items.
Proof.
  unfold dict_of_items.
  enough (H : forall acc,
             NoDup (List.map fst (acc ++ items)%list) ->
             List.fold_left (fun acc kv => Dict.set acc (fst kv) (snd kv)) items acc
             = (acc ++ items)%list)
    by (intros Hn; now apply (H [])).
  induction items as [|[k v] rest IH]; intros acc Hn; cbn [List.fold_left fst snd].
  - now rewrite app_nil_r.
  - rewrite set_new.
    + rewrite IH; rewrite <- app_assoc; [reflexivity | exact Hn].
    + rewrite map_app in Hn. cbn [List.map fst] in Hn.
      apply NoDup_remove_2 in Hn. intros Hin. apply Hn, in_or_app. now left.
Qed.

Lemma string_ltb_total (a b : string) :
  String.ltb b a = false -> a <> b -> String.ltb a b = true.
Proof.
  unfold String.ltb. intros H N. rewrite (String.compare_antisym b a) in H.
  destruct (String.compare a b) eqn:E; cbn in H; try congruence.
  apply String.compare_eq_iff in E. congruence.
Qed.

Lemma sorted_items_by_key (items : list (string * string)) :
  NoDup (List.map fst items) ->
  Sorted (fun a b : string * string => pair_ltb b a = false) items ->
  Sorted (fun a b : string * string => String.ltb (fst a) (fst b) = true) items.
Proof.
  induction items as [|[k v] rest IH]; intros Hn Hs; [constructor|].
  inversion Hn as [|? ? Hk Hrest]; subst. inversion Hs as [|? ? Hs' Hhd]; subst.
  constructor; [now apply IH|].
  destruct rest as [|[k' v'] rest']; constructor.
  inversion Hhd as [|? ? Hlt]; subst. cbn [fst]. unfold pair_ltb in Hlt.
  apply orb_false_iff in Hlt. destruct Hlt as [Hlt _].
  apply string_ltb_total; [exact Hlt|]. intros ->. apply Hk. now left.
Qed.

(** X20: a zone configuration lists name, comment and private_zone, then
    vpcs exactly when the zone is private and has at least one VPC, then
    tags; when the tag keys of the details are distinct, the tags are
    those of the details (none when tags are not asked for), each exactly
    once, in strictly increasing order of their keys. *)
Theorem zone_configuration_shape :
  forall details include_tags,
    NoDup (Dict.keys (zd_tags details)) ->
    let attributes := build_zone_configuration details include_tags in
    let with_vpcs := zd_private_zone details && nonempty (zd_vpcs details) in
    Dict.keys attributes
    = List.app ["name"; "comment"; "private_zone"]
        (List.app (if with_vpcs then ["vpcs"] else []) ["tags"])
    /\ Dict.get attributes "vpcs"
       = (if with_vpcs then Some (PDict (build_vpc_map (zd_vpcs details))) else None)
    /\ exists tags,
         Dict.get attributes "tags"
         = Some (PDict (List.map (fun kv => (fst kv, PStr (snd kv))) tags))
         /\ Permutation tags (if include_tags then zd_tags details else [])
         /\ Sorted (fun a b : string * string => String.ltb (fst a) (fst b) = true) tags.
Proof.
  intros details include_tags Hn. cbn zeta. unfold build_zone_configuration. cbv zeta.
  set (tags := if include_tags then zd_tags details else []).
  assert (Hn' : NoDup (List.map fst tags))
    by (subst tags; destruct include_tags; [exact Hn | constructor]).
  set (sorted := sorted_by pair_ltb (fun kv : string * string => kv) tags).
  assert (Hp : Permutation sorted tags) by apply sorted_by_permutation.
  assert (Hitems : dict_of_items (List.map (fun kv => (fst kv, PStr (snd kv))) sorted)
                   = List.map (fun kv => (fst kv, PStr (snd kv))) sorted).
  { apply dict_of_items_distinct. rewrite map_map. cbn [fst].
    eapply Permutation_NoDup; [|exact Hn'].
    apply Permutation_map. now symmetry. }
  rewrite Hitems.
  split; [|split].
  - destruct (zd_private_zone details), (zd_vpcs details); reflexivity.
  - destruct (zd_private_zone details), (zd_vpcs details); reflexivity.
  - exists sorted. split; [|split].
    + destruct (zd_private_zone details), (zd_vpcs details); reflexivity.
    + exact Hp.
    + apply sorted_items_by_key.
      * eapply Permutation_NoDup; [|exact Hn']. apply Permutation_map. now symmetry.
      * apply (sorted_by_sorted pair_ltb (fun kv : string * string => kv) pair_ltb_asym).
Qed.

Lemma zone_configuration_shape_witness :
  Dict.keys
    (build_zone_configuration (get_zone_details sample_response (Some sample_tags) "Z1" true)
       true)
  = ["name"; "comment"; "private_zone"; "vpcs"; "tags"].
Proof.
  refine (proj1 (zone_configuration_shape
                   (get_zone_details sample_response (Some sample_tags) "Z1" true) true _)).
  repeat constructor; cbn; intuition discriminate.
Defined.

Lemma set_values_Forall {V : Type} (P : V -> Prop) (d : list (string * V))
    (k : string) (v : V) :
  Forall (fun entry => P (snd entry)) d -> P v ->
  Forall (fun entry => P (snd entry)) (Dict.set d k v).
Proof.
  intros Hd Hv. induction Hd as [|[k' v'] r Hk Hr IH]; cbn [Dict.set].
  - now repeat constructor.
  - destruct (String.eqb k' k); constructor; assumption.
Qed.

Lemma vpc_loop_values (P : pyval -> Prop) (sorted_vpcs : list Vpc) :
  Forall (fun vpc => P (PDict (vpc_block vpc))) sorted_vpcs ->
  forall index vpc_map,
    Forall (fun entry => P (snd entry)) vpc_map ->
    Forall (fun entry => P (snd entry)) (vpc_loop index sorted_vpcs vpc_map).
Proof.
  induction 1 as [|vpc rest Hvpc Hrest IH]; intros index vpc_map Hm; cbn [vpc_loop];
    [exact Hm|].
  apply IH. now apply set_values_Forall.
Qed.

Lemma vpc_loop_length (sorted_vpcs : list Vpc) :
  forall index vpc_map,
    List.length (vpc_loop index sorted_vpcs vpc_map)
    <= List.length vpc_map + List.length sorted_vpcs.
Proof.
  induction sorted_vpcs as [|vpc rest IH]; intros index vpc_map; cbn [vpc_loop List.length];
    [lia|].
  etransitivity; [apply IH|].
  assert (H : List.length (Dict.keys (Dict.set vpc_map (vpc_identifier index vpc)
                                        (PDict (vpc_block vpc))))
              <= S (List.length (Dict.keys vpc_map))).
  { rewrite keys_set. destruct (Dict.mem _ _); [lia|]. rewrite length_app. cbn. lia. }
  unfold Dict.keys in H. rewrite !length_map in H. lia.
Qed.

(** X21: in the VPC map built from the details of a zone every block is
    a map with a vpc_id entry, and the map has at most as many blocks as
    the zone has VPC associations. *)
Theorem vpc_blocks_carry_ids :
  forall response tag_response zone_id include_tags,
    let details := get_zone_details response tag_response zone_id include_tags in
    Forall (fun entry =>
              match snd entry with
              | PDict block => Dict.mem block "vpc_id" = true
              | _ => False
              end)
      (build_vpc_map (zd_vpcs details))
    /\ List.length (build_vpc_map (zd_vpcs details))
       <= List.length (match hz_VPCs response with Some l => l | None => [] end).
Proof.
  intros response tag_response zone_id include_tags. cbn zeta.
  unfold get_zone_details. cbn [zd_vpcs]. unfold build_vpc_map.
  set (associations := match hz_VPCs response with Some l => l | None => [] end).
  split.
  - apply (vpc_loop_values
             (fun value => match value with
                           | PDict block => Dict.mem block "vpc_id" = true
                           | _ => False
                           end)); [|constructor].
    eapply Permutation_Forall; [symmetry; apply sorted_by_permutation|].
    eapply Forall_impl; [|apply (proj1 (collect_vpcs_ids associations))].
    intros vpc H. cbn beta in H. unfold vpc_block, Dict.mem.
    destruct (vpc_id vpc) as [i|]; [|discriminate H]. cbn [opt_truthy] in H. rewrite H.
    destruct (vpc_region vpc) as [r|]; [rewrite get_set_if|]; cbn; [|reflexivity].
    now destruct (PyStr.truthy r).
  - etransitivity; [apply vpc_loop_length|]. cbn [List.length Nat.add].
    rewrite (Permutation_length (sorted_by_permutation pair_ltb vpc_sort_key _)).
    clear. induction associations as [|vpc rest IH]; cbn [collect_vpcs List.length]; [lia|].
    destruct (opt_truthy (va_VPCId vpc)); cbn [List.length]; lia.
Qed.

(** ** The single-zone section of the locals file *)

Section Spans.
Variable begin_marker : string.
Variable end_marker : string.

Lemma remove_spans_between_skip (a t : string) :
  remove_spans_between begin_marker end_marker (String.length a) (a ++ t)
  = remove_spans_between begin_marker end_marker 0 t.
Proof. induction a as [|c r IH]; [reflexivity | exact IH]. Qed.

Lemma remove_spans_between_match (m t : string) :
  m <> "" ->
  span_match_between begin_marker end_marker (m ++ t) = Some (String.length m) ->
  remove_spans_between begin_marker end_marker 0 (m ++ t)
  = remove_spans_between begin_marker end_marker 0 t.
Proof.
  destruct m as [|c r]; [contradiction|]. intros _ H.
  cbn [append] in *. cbn [remove_spans_between]. rewrite H.
  cbn [String.length]. rewrite Nat.sub_1_r. cbn [Nat.pred].
  apply remove_spans_between_skip.
Qed.

Lemma remove_spans_between_copy (before tail : string) :
  (forall b1 b2, before = b1 ++ b2 -> b2 <> "" ->
                 String.prefix begin_marker (b2 ++ tail) = false) ->
  remove_spans_between begin_marker end_marker 0 (before ++ tail)
  = before ++ remove_spans_between begin_marker end_marker 0 tail.
Proof.
  induction before as [|c r IH]; intros H; [reflexivity|].
  cbn [append remove_spans_between].
  unfold span_match_between.
  change (String c (r ++ tail)) with (String c r ++ tail).
  rewrite (H "" (String c r) eq_refl) by discriminate.
  rewrite IH; [reflexivity|].
  intros b1 b2 E Hne. apply (H (String c b1) b2); [cbn [append]; now rewrite E | exact Hne].
Qed.

End Spans.

Lemma no_marker_before (h : ascii) (m before tail : string) :
  PyStr.existsb (Ascii.eqb "010") (String h m) = false ->
  PyStr.existsb (Ascii.eqb h) m = false ->
  PyStr.contains before (String h m) = false ->
  (tail = ""
   \/ (exists t, tail = String "010" t)
   \/ (exists t, tail = String h t)) ->
  forall b1 b2, before = b1 ++ b2 -> b2 <> "" ->
                String.prefix (String h m) (b2 ++ tail) = false.
Proof.
  intros Hnl Hh Hc Ht b1 b2 E Hne. subst before.
  apply contains_app_false in Hc. destruct Hc as [_ Hc].
  apply contains_prefix_false in Hc.
  destruct (String.prefix (String h m) (b2 ++ tail)) eqn:P; [|reflexivity].
  destruct Ht as [-> | [[t ->] | [t ->]]].
  - rewrite append_nil_r in P. congruence.
  - apply prefix_stops_at in P; [congruence | exact Hnl].
  - destruct b2 as [|x b2']; [contradiction|].
    cbn [append String.prefix] in *.
    destruct (ascii_dec h x); [|discriminate P].
    apply prefix_stops_at in P; [congruence | exact Hh].
Qed.

Lemma json_escape_char_no_hash (c : ascii) :
  Ascii.eqb c "#" = false -> no_hash (json_escape_char c) = true.
Proof. destruct c as [[] [] [] [] [] [] [] []]; cbv; congruence. Qed.

Lemma json_string_no_hash (s : string) : no_hash s = true -> no_hash (json_string s) = true.
Proof.
  unfold json_string. intros H. rewrite !no_hash_append.
  replace (no_hash quote) with true by reflexivity. rewrite andb_true_r. cbn [andb].
  induction s as [|c r IH]; [reflexivity|].
  unfold no_hash in H. cbn [PyStr.forallb] in H. apply andb_true_iff in H.
  destruct H as [Hc Hr]. cbn [json_escape]. rewrite no_hash_append, (IH Hr), andb_true_r.
  apply json_escape_char_no_hash. now destruct (Ascii.eqb c "#").
Qed.

Lemma zone_block_shape (zone_name : string) :
  PyStr.join nl (zone_block zone_name)
  = SINGLE_ZONE_BEGIN_MARKER ++ zone_block_body zone_name ++ SINGLE_ZONE_END_MARKER ++ nl.
Proof.
  unfold PyStr.join, zone_block, zone_block_body.
  match goal with
  | |- String.concat nl (?b :: ?l1 :: ?l2 :: ?l3 :: ?l4 :: ?l5 :: ?l6 :: ?l7 :: ?e :: _) = _ =>
      change (String.concat nl (b :: l1 :: l2 :: l3 :: l4 :: l5 :: l6 :: l7 :: [e; ""]))
        with (String.concat nl (List.app [b; l1; l2; l3; l4; l5; l6; l7] [e; ""]))
  end.
  rewrite concat_lines. cbn [lines_text]. now rewrite !append_assoc.
Qed.

Lemma zone_block_body_no_hash (zone_name : string) :
  no_hash zone_name = true -> no_hash (zone_block_body zone_name) = true.
Proof.
  intros H. unfold zone_block_body. cbn [lines_text]. rewrite !no_hash_append.
  rewrite (json_string_no_hash zone_name H).
  rewrite (json_string_no_hash ("Primary " ++ zone_name ++ " zone"))
    by (rewrite !no_hash_append, H; reflexivity).
  reflexivity.
Qed.

Lemma remove_zone_block (zone_name after : string) :
  no_hash zone_name = true ->
  remove_spans_between SINGLE_ZONE_BEGIN_MARKER SINGLE_ZONE_END_MARKER 0
    (PyStr.join nl (zone_block zone_name) ++ after)
  = remove_spans_between SINGLE_ZONE_BEGIN_MARKER SINGLE_ZONE_END_MARKER 0 after.
Proof.
  intros H. apply remove_spans_between_match.
  - rewrite zone_block_shape. discriminate.
  - rewrite zone_block_shape, !append_assoc.
    unfold span_match_between. rewrite prefix_app_self, drop_app_length.
    change (SINGLE_ZONE_END_MARKER ++ nl ++ after)
      with (String "#" (" END GENERATED PRIMARY ZONE" ++ nl ++ after)).
    change SINGLE_ZONE_END_MARKER with (String "#" " END GENERATED PRIMARY ZONE") at 1.
    rewrite split_first_fresh by (apply zone_block_body_no_hash; exact H).
    rewrite prefix_app_self, !length_append.
    f_equal. cbn [String.length nl SINGLE_ZONE_END_MARKER]. lia.
Qed.

Lemma remove_spans_between_clean (text : string) :
  PyStr.contains text SINGLE_ZONE_BEGIN_MARKER = false ->
  remove_spans_between SINGLE_ZONE_BEGIN_MARKER SINGLE_ZONE_END_MARKER 0 text = text.
Proof.
  intros H. rewrite <- (append_nil_r text) at 1.
  rewrite remove_spans_between_copy; [now rewrite append_nil_r|].
  apply no_marker_before; [reflexivity | reflexivity | exact H | now left].
Qed.

Lemma json_escape_char_cr_free (c : ascii) : cr_free (json_escape_char c) = true.
Proof. destruct c as [[] [] [] [] [] [] [] []]; reflexivity. Qed.

Lemma json_string_cr_free (s : string) : cr_free (json_string s) = true.
Proof.
  unfold json_string. rewrite !cr_free_append.
  replace (cr_free quote) with true by reflexivity. rewrite andb_true_r. cbn [andb].
  induction s as [|c r IH]; [reflexivity|].
  cbn [json_escape]. now rewrite cr_free_append, json_escape_char_cr_free, IH.
Qed.

Lemma zone_block_cr_free (zone_name : string) :
  cr_free (PyStr.join nl (zone_block zone_name)) = true.
Proof.
  rewrite zone_block_shape. unfold zone_block_body. cbn [lines_text].
  rewrite !cr_free_append, !json_string_cr_free. reflexivity.
Qed.

(** X22: on a file whose text, as [read_text] returns it, holds no begin
    marker, the single-zone update hands to [write_text] that text without
    its trailing white space, a blank line when the text is not empty, and
    the zone block; once the file is written with the line separator of
    the platform, a later update for any zone name replaces that block (the
    name of the first zone holding no hash sign), so its result is the same
    as on the original file, and repeating an update changes nothing. *)
Theorem single_zone_block_replaced :
  forall linesep zone_name later content,
    is_linesep linesep ->
    no_hash zone_name = true ->
    PyStr.contains (read_text content) SINGLE_ZONE_BEGIN_MARKER = false ->
    let hand := read_text content in
    let once := update_single_zone_locals zone_name (Some content) in
    once = PyStr.rstrip hand ++ separator (PyStr.rstrip hand)
           ++ PyStr.join nl (zone_block zone_name)
    /\ update_single_zone_locals later (Some (write_text linesep once))
       = update_single_zone_locals later (Some content)
    /\ update_single_zone_locals zone_name (Some (write_text linesep once)) = once.
Proof.
  intros linesep zone_name later content Hl Hz Hc. cbn zeta.
  set (hand := read_text content) in *.
  assert (Htext : forall name,
             update_single_zone_locals name (Some content)
             = PyStr.rstrip hand ++ separator (PyStr.rstrip hand)
               ++ PyStr.join nl (zone_block name)).
  { intros name. unfold update_single_zone_locals, separator. cbv zeta. fold hand.
    rewrite (remove_spans_between_clean hand Hc).
    destruct (PyStr.rstrip hand) as [|c r]; [reflexivity|].
    cbn [PyStr.truthy PyStr.is_empty negb]. now rewrite !append_assoc. }
  assert (Hcr : cr_free (PyStr.rstrip hand) = true)
    by (apply rstrip_cr_free; subst hand; apply read_text_no_cr).
  assert (Hread : read_text (write_text linesep
                               (update_single_zone_locals zone_name (Some content)))
                  = update_single_zone_locals zone_name (Some content)).
  { apply read_write_text; [exact Hl|]. rewrite Htext, !cr_free_append, Hcr.
    rewrite zone_block_cr_free. unfold separator.
    now destruct (PyStr.truthy (PyStr.rstrip hand)). }
  assert (Hclean : PyStr.rstrip
                     (remove_spans_between SINGLE_ZONE_BEGIN_MARKER SINGLE_ZONE_END_MARKER 0
                        (update_single_zone_locals zone_name (Some content)))
                   = PyStr.rstrip hand).
  { rewrite Htext.
    destruct (rstrip_with_split PyStr.is_space hand) as [ws [E _]].
    fold PyStr.rstrip in E.
    assert (Hc' : PyStr.contains (PyStr.rstrip hand) SINGLE_ZONE_BEGIN_MARKER = false)
      by (rewrite E in Hc; now apply contains_app_false in Hc).
    unfold separator. destruct (PyStr.truthy (PyStr.rstrip hand)) eqn:T.
    - rewrite remove_spans_between_copy
        by (apply no_marker_before;
            [reflexivity | reflexivity | exact Hc'
            | right; left; unfold nl; cbn [append]; eauto]).
      rewrite (remove_spans_between_copy _ _ (nl ++ nl))
        by (apply no_marker_before;
            [reflexivity | reflexivity | reflexivity
            | right; right; rewrite zone_block_shape; unfold SINGLE_ZONE_BEGIN_MARKER;
              cbn [append]; eauto]).
      rewrite <- (append_nil_r (PyStr.join nl (zone_block zone_name))).
      rewrite remove_zone_block by exact Hz. cbn [remove_spans_between].
      unfold PyStr.rstrip. rewrite rstrip_with_app_spaces by reflexivity.
      apply rstrip_with_idempotent.
    - destruct (PyStr.rstrip hand); [|discriminate T]. cbn [append].
      rewrite <- (append_nil_r (PyStr.join nl (zone_block zone_name))).
      rewrite remove_zone_block by exact Hz. reflexivity. }
  assert (Hlater : forall name,
             update_single_zone_locals name
               (Some (write_text linesep
                        (update_single_zone_locals zone_name (Some content))))
             = update_single_zone_locals name (Some content)).
  { intros name. rewrite (Htext name).
    unfold update_single_zone_locals at 1. cbv zeta. rewrite Hread, Hclean.
    unfold separator. destruct (PyStr.rstrip hand) as [|c r]; [reflexivity|].
    cbn [PyStr.truthy PyStr.is_empty negb]. now rewrite !append_assoc. }
  split; [apply Htext|]. split; apply Hlater.
Qed.

Lemma single_zone_block_replaced_witness :
  update_single_zone_locals "example.org"
    (Some (write_text (String "013" nl)
             (update_single_zone_locals "example.com"
                (Some ("value = 1  " ++ String "013" nl)))))
  = update_single_zone_locals "example.org" (Some ("value = 1  " ++ String "013" nl)).
Proof.
  refine (proj1 (proj2 (single_zone_block_replaced (String "013" nl) "example.com"
                          "example.org" ("value = 1  " ++ String "013" nl) _ _ _)));
    [now right | vm_compute; reflexivity | vm_compute; reflexivity].
Defined.

(** ** Configuration keys *)

Lemma replace_char (a b : ascii) (s : string) :
  PyStr.replace (String a "") (String b "") s
  = PyStr.map (fun c => if Ascii.eqb a c then b else c) s.
Proof.
  unfold PyStr.replace. induction s as [|c r IH]; [reflexivity|].
  cbn [PyStr.replace_from PyStr.map]. rewrite prefix_char.
  cbn [String.length Nat.sub]. rewrite IH. now destruct (Ascii.eqb a c).
Qed.

Lemma replaced_char_gone (a b : ascii) (s : string) :
  a <> b -> PyStr.contains (PyStr.replace (String a "") (String b "") s) (String a "") = false.
Proof.
  intros N. rewrite replace_char. induction s as [|c r IH]; [reflexivity|].
  cbn [PyStr.map]. rewrite contains_char_cons, IH, orb_false_r.
  destruct (Ascii.eqb_spec a c) as [->|]; [now apply Ascii.eqb_neq|].
  now apply Ascii.eqb_neq.
Qed.

Lemma replace_char_absent (a b : ascii) (s : string) :
  PyStr.contains s (String a "") = false -> PyStr.replace (String a "") (String b "") s = s.
Proof.
  rewrite replace_char. induction s as [|c r IH]; [reflexivity|].
  rewrite contains_char_cons. intros H. apply orb_false_iff in H. destruct H as [Hc Hr].
  cbn [PyStr.map]. now rewrite Hc, (IH Hr).
Qed.

Lemma replace_char_back (a b : ascii) (s : string) :
  PyStr.contains s (String a "") = false ->
  PyStr.replace (String a "") (String b "") (PyStr.replace (String b "") (String a "") s) = s.
Proof.
  rewrite !replace_char. induction s as [|c r IH]; [reflexivity|].
  rewrite contains_char_cons. intros H. apply orb_false_iff in H. destruct H as [Hc Hr].
  cbn [PyStr.map]. rewrite (IH Hr). f_equal.
  destruct (Ascii.eqb_spec b c) as [->|N].
  - now rewrite Ascii.eqb_refl.
  - now rewrite Hc.
Qed.

Lemma rstrip_with_map (p : ascii -> bool) (f : ascii -> ascii) (s : string) :
  (forall c, p (f c) = true -> p c = true) ->
  PyStr.rstrip_with p s = s -> PyStr.rstrip_with p (PyStr.map f s) = PyStr.map f s.
Proof.
  intros Hf. induction s as [|c r IH]; [reflexivity|].
  cbn [PyStr.rstrip_with PyStr.map].
  destruct (PyStr.is_empty (PyStr.rstrip_with p r) && p c) eqn:D; [discriminate|].
  intros H. injection H as H. rewrite H in D. rewrite (IH H).
  replace (PyStr.is_empty (PyStr.map f r)) with (PyStr.is_empty r) by now destruct r.
  destruct (PyStr.is_empty r); [|reflexivity]. cbn [andb] in *.
  destruct (p (f c)) eqn:E; [|reflexivity]. now rewrite (Hf c E) in D.
Qed.

(** X23: a normalized configuration key holds no hyphen; a key without
    hyphens and without white space at its ends is unchanged, and its
    command-line form (two hyphens, then the key with hyphens for
    underscores) is normalized back to it. *)
Theorem config_key_normal_form :
  forall value key,
    PyStr.strip key = key ->
    PyStr.contains key "-" = false ->
    PyStr.contains (normalize_config_key value) "-" = false
    /\ normalize_config_key key = key
    /\ normalize_config_key ("--" ++ PyStr.replace "_" "-" key) = key.
Proof.
  intros value key Hs Hc. unfold normalize_config_key. cbv zeta.
  split; [apply replaced_char_gone; discriminate|].
  assert (Hr : PyStr.rstrip key = key).
  { rewrite <- Hs at 1. unfold PyStr.strip, PyStr.strip_with, PyStr.rstrip.
    rewrite rstrip_with_idempotent. exact Hs. }
  split.
  - rewrite Hs.
    replace (PyStr.startswith key "--") with false.
    + now apply replace_char_absent.
    + destruct key as [|c r]; [reflexivity|].
      rewrite contains_char_cons in Hc. apply orb_false_iff in Hc. destruct Hc as [Hc _].
      unfold PyStr.startswith. cbn [String.prefix].
      destruct (ascii_dec "-" c) as [<-|]; [discriminate Hc | reflexivity].
  - set (flag := PyStr.replace "_" "-" key).
    assert (Hf : PyStr.rstrip flag = flag).
    { subst flag. rewrite replace_char. apply rstrip_with_map; [|exact Hr].
      intros c. destruct (Ascii.eqb "_" c); [discriminate | auto]. }
    assert (Hstrip : PyStr.strip ("--" ++ flag) = "--" ++ flag).
    { unfold PyStr.strip, PyStr.strip_with. cbn [append PyStr.lstrip_with].
      replace (PyStr.is_space "-") with false by reflexivity.
      fold PyStr.rstrip. unfold PyStr.rstrip in *. cbn [PyStr.rstrip_with].
      rewrite Hf. cbn [PyStr.is_empty andb].
      replace (PyStr.is_space "-") with false by reflexivity.
      now rewrite !andb_false_r. }
    rewrite Hstrip. unfold PyStr.startswith.
    rewrite (prefix_app_self "--" flag).
    change (PyStr.drop 2 ("--" ++ flag)) with flag.
    subst flag. now apply replace_char_back.
Qed.

Lemma config_key_normal_form_witness :
  normalize_config_key "--only-hostnames" = "only_hostnames".
Proof.
  refine (proj2 (proj2 (config_key_normal_form "" "only_hostnames" _ _))); reflexivity.
Defined.

(** ** Record type overrides *)

Lemma coerce_string_list_clean (raw : RawList) :
  Forall (fun name => name <> "" /\ PyStr.strip name = name) (coerce_string_list raw).
Proof.
  apply Forall_forall. intros name Hin. destruct raw as [|s|items]; cbn in Hin.
  - contradiction.
  - apply filter_In in Hin. destruct Hin as [Hin T].
    apply in_map_iff in Hin. destruct Hin as (token & <- & _).
    split; [intros E; rewrite E in T; discriminate T | apply strip_with_idempotent].
  - apply in_flat_map in Hin. destruct Hin as ([e|] & _ & Hin); [|contradiction].
    cbv zeta in Hin. destruct (PyStr.truthy (PyStr.strip e)) eqn:T; [|contradiction].
    destruct Hin as [<-|[]].
    split; [intros E; rewrite E in T; discriminate T | apply strip_with_idempotent].
Qed.

(** X24: once the configuration names at least one record type to skip,
    the names replace the defaults: a record is dropped exactly when its
    type equals one of the names without regard to letter case; every
    name is non-empty and has no white space at its ends; and without any
    override the sets stay as they are. *)
Theorem type_overrides_replace_defaults :
  forall cfg skip_raw skippable_raw record zone_name zone_id,
    coerce_string_list skip_raw <> [] ->
    (normalize_record (apply_record_type_overrides cfg skip_raw skippable_raw)
       record zone_name zone_id = None
     <-> exists name,
           In name (coerce_string_list skip_raw)
           /\ PyStr.upper (or_str (raw_Type record) "") = PyStr.upper name)
    /\ Forall (fun name => name <> "" /\ PyStr.strip name = name)
         (coerce_string_list skip_raw)
    /\ apply_record_type_overrides cfg ListAbsent ListAbsent = cfg.
Proof.
  intros cfg skip_raw skippable_raw record zone_name zone_id Hne.
  split; [|split; [apply coerce_string_list_clean | now destruct cfg]].
  unfold normalize_record, apply_record_type_overrides. cbv zeta. cbn [skip_record_types].
  destruct (coerce_string_list skip_raw) as [|n names] eqn:E; [contradiction|].
  cbn [nonempty]. unfold str_in.
  destruct (List.existsb _ _) eqn:X.
  - split; [intros _|reflexivity].
    apply existsb_exists in X. destruct X as (u & Hu & Eu).
    apply String.eqb_eq in Eu. apply in_map_iff in Hu. destruct Hu as (name & <- & Hin).
    now exists name.
  - split.
    + destruct (build_record_key _ _ _) as [[? ?] ?]. discriminate.
    + intros (name & Hin & Eq). exfalso.
      assert (Y : List.existsb (String.eqb (PyStr.upper (or_str (raw_Type record) "")))
                    (List.map PyStr.upper (n :: names)) = true).
      { apply existsb_exists. exists (PyStr.upper name). split.
        - now apply in_map.
        - now apply String.eqb_eq. }
      congruence.
Qed.

Lemma type_overrides_replace_defaults_witness :
  normalize_record
    (apply_record_type_overrides default_config (ListString "txt, mx") ListAbsent)
    txt_example "example.com" "Z1" = None.
Proof.
  refine (proj2 (proj1 (type_overrides_replace_defaults default_config
                          (ListString "txt, mx") ListAbsent txt_example "example.com" "Z1" _))
            _).
  - discriminate.
  - exists "txt". split; [now left | reflexivity].
Defined.
